(** * The LAMMPS Python wrapper (python/lammps/core.py): model and properties

    The wrapper class [lammps] forwards every method to one entry point of
    the native library through ctypes.  The native library is the external
    collaborator: it is modelled as an arbitrary function [lib] from an
    entry point and a world to an answer and a new world.  Every call made
    through [self.lib] is appended to a log, so that statements such as
    "no native entry point is invoked" can be read off the final machine.

    Text is modelled as byte strings ([encode] and [decode] are the
    identity); a [c_double] is the rational it denotes, or an infinity, or
    a NaN.

    The entry points of [commands_list], the box operations, the subset
    gathers, the scatters, [decode_image_flags] and [accelerator_config]
    are a second family, [native_ext], answered by a second function
    [lib_ext] on the same world; their calls are logged beside the
    machine ([machine_ext]). *)

From Stdlib Require Import ZArith QArith List String Ascii Bool Lia.
From stdpp Require Import base gmap strings list.

Local Open Scope Z_scope.

(** ** ctypes values *)

Inductive double : Type :=
| Finite (q : Q)
| Infinity (negative : bool)
| NaN.

Inductive ctype : Type :=
| c_int
| c_int32
| c_int64
| c_double
| c_char_p
| POINTER (t : ctype).

(** A pointer object: its address (0 is NULL) and what the native memory
    holds at each index at the time the pointer was returned. *)
Record pointer (A : Type) : Type := mk_pointer { address : Z; pointee : Z -> A }.
Arguments mk_pointer {A} _ _.
Arguments address {A} _.
Arguments pointee {A} _ _.

(** The Python-side value of a native result, by its declared [restype]. *)
Fixpoint pyval (t : ctype) : Type :=
  match t with
  | c_int | c_int32 | c_int64 => Z
  | c_double => double
  | c_char_p => option string
  | POINTER t' => pointer (pyval t')
  end.

(** What a freshly allocated ctypes cell holds. *)
Fixpoint zero (t : ctype) : pyval t :=
  match t with
  | c_int | c_int32 | c_int64 => 0
  | c_double => Finite 0%Q
  | c_char_p => None
  | POINTER t' => mk_pointer 0 (fun _ => zero t')
  end.

(** A ctypes array [(t * n)()]: a fixed number of cells of one type. *)
Record carray : Type := mk_carray { elt : ctype; cells : list (pyval elt) }.

(** [create_string_buffer(n)]: [n] NUL bytes. *)
Definition NUL : ascii := Ascii.zero.

Definition create_string_buffer (n : nat) : list ascii := repeat NUL n.

(** The native side stores [written] from the start of a buffer (a
    string buffer or a ctypes array); the buffer keeps its size and the
    cells that were not overwritten. *)
Definition store {A} (sb written : list A) : list A :=
  firstn (length sb) (written ++ skipn (length written) sb).

(** [sb.value]: the bytes before the first NUL. *)
Fixpoint value (sb : list ascii) : list ascii :=
  match sb with
  | [] => []
  | c :: sb' => if Ascii.eqb c NUL then [] else c :: value sb'
  end.

Definition decode (b : list ascii) : string := string_of_list_ascii b.

Definition isspace (c : ascii) : bool :=
  let n := nat_of_ascii c in
  ((9 <=? n)%nat && (n <=? 13)%nat) || ((28 <=? n)%nat && (n <=? 32)%nat).

Fixpoint lstrip (l : list ascii) : list ascii :=
  match l with
  | [] => []
  | c :: l' => if isspace c then lstrip l' else l
  end.

(** [str.strip()] *)
Definition strip (s : string) : string :=
  string_of_list_ascii (rev (lstrip (rev (lstrip (list_ascii_of_string s))))).

(** ** Python values and exceptions *)

#[warnings="-register-all"]
Inductive pyobj : Type :=
| PyNone
| PyInt (z : Z)
| PyFloat (d : double)
| PyStr (s : string)
| PyList (l : list pyobj)
| PyPointer (t : ctype) (p : pointer (pyval t))
| PyArray (a : carray).

Inductive exn : Type :=
| MPIAbortException (message : string)
| Exception (message : string)
| ValueError (message : string)
| TypeError (message : string)
| OverflowError (message : string)
| IndexError (message : string)
| AttributeError (message : string)
| UnboundLocalError (message : string)
| ArgumentError (message : string).

(** Truth value of a text argument: [None] and [''] are false. *)
Definition truthy_text (t : option string) : bool :=
  match t with
  | None => false
  | Some s => negb (String.eqb s "")%string
  end.

(** Truth value of an optional list: [None] and [[]] are false. *)
Definition truthy_list {A} (l : option (list A)) : bool :=
  match l with
  | None | Some [] => false
  | Some (_ :: _) => true
  end.

(** Truth value of a Python int. *)
Definition truthy_int (z : Z) : bool := negb (z =? 0).

(** Truth value of [self.lmp]: [None] is false and so is a NULL
    [c_void_p]. *)
Definition truthy_handle (h : option Z) : bool :=
  match h with
  | None => false
  | Some a => negb (a =? 0)
  end.

(** A handle as the native side receives it ([argtypes] [c_void_p]). *)
Definition as_c_void_p (h : option Z) : Z :=
  match h with
  | None => 0
  | Some a => a
  end.

(** ** Native entry points

    [native R] is an entry point of the shared library together with the
    marshalled arguments of one call; [R] is what the call hands back to
    Python: the converted return value and, for an entry point that
    fills a caller-supplied buffer, the bytes or cells it stored there. *)
Inductive native : Type -> Type :=
| lammps_config_has_exceptions : native Z
| lammps_has_error (handle : Z) : native Z
| lammps_get_last_error_message (handle : Z) (buf_size : Z) : native (Z * list ascii)
| lammps_close (handle : Z) : native unit
| lammps_finalize : native unit
| lammps_file (handle : Z) (path : string) : native unit
| lammps_command (handle : Z) (cmd : string) : native (option string)
| lammps_commands_string (handle : Z) (str : option string) : native unit
| lammps_get_natoms (handle : Z) : native double
| lammps_get_thermo (handle : Z) (name : string) : native double
| lammps_extract_setting (handle : Z) (name : string) : native Z
| lammps_extract_global_datatype (handle : Z) (name : string) : native Z
| lammps_extract_global (handle : Z) (name : string) (restype : ctype) : native (pyval restype)
| lammps_extract_atom_datatype (handle : Z) (name : string) : native Z
| lammps_extract_atom (handle : Z) (name : string) (restype : ctype) : native (pyval restype)
| lammps_extract_compute (handle : Z) (id : string) (style type : Z) (restype : ctype) :
    native (pyval restype)
| lammps_extract_fix (handle : Z) (id : string) (style type nrow ncol : Z) (restype : ctype) :
    native (pyval restype)
| lammps_extract_variable (handle : Z) (name : string) (group : option string) (restype : ctype) :
    native (pyval restype)
| lammps_free (ptr : Z) : native unit
| lammps_set_variable (handle : Z) (name value : string) : native Z
| lammps_gather_atoms (handle : Z) (name : option string) (type count : Z)
    (t : ctype) (len : nat) : native (list (pyval t))
| lammps_gather_atoms_concat (handle : Z) (name : option string) (type count : Z)
    (t : ctype) (len : nat) : native (list (pyval t))
| lammps_gather (handle : Z) (name : option string) (type count : Z)
    (t : ctype) (len : nat) : native (list (pyval t))
| lammps_gather_concat (handle : Z) (name : option string) (type count : Z)
    (t : ctype) (len : nat) : native (list (pyval t))
| lammps_create_atoms (handle : Z) (n : Z) (id : option (list Z)) (type : list Z)
    (x : list double) (v : option (list double)) (image : option (list Z))
    (bexpand : Z) : native Z
| lammps_config_package_count : native Z
| lammps_config_package_name (idx : Z) (buf_size : Z) : native (Z * list ascii)
| lammps_style_count (handle : Z) (category : string) : native Z
| lammps_style_name (handle : Z) (category : string) (idx : Z) (buf_size : Z) :
    native (Z * list ascii)
| lammps_id_count (handle : Z) (category : string) : native Z
| lammps_id_name (handle : Z) (category : string) (idx : Z) (buf_size : Z) :
    native (Z * list ascii)
| lammps_plugin_count (handle : Z) : native Z
| lammps_plugin_name (idx : Z) (buf_size : Z) : native (Z * list ascii * list ascii).

(** One line of the call log. *)
Definition entry : Type := { R : Type & native R }.

Definition log {R} (e : native R) : entry := existT R e.

Definition is_lammps_close (c : entry) : bool :=
  match projT2 c with
  | lammps_close _ => true
  | _ => false
  end.

(** ** The wrapper object

    The attributes of a [lammps] instance that its methods read or
    assign after construction.  [extract_global_restype] is the
    [restype] attribute of [self.lib.lammps_extract_global], which
    [extract_global] assigns only for the data types it knows and which
    is [c_int] (the ctypes default) until then. *)
Record wrapper : Type := mk_wrapper {
  lmp : option Z;
  opened : Z;
  _installed_packages : option (list string);
  _available_styles : option (gmap string (list string));
  extract_global_restype : ctype
}.

Definition set_lmp (h : option Z) (o : wrapper) : wrapper :=
  mk_wrapper h (opened o) (_installed_packages o) (_available_styles o)
             (extract_global_restype o).

Definition set_opened (z : Z) (o : wrapper) : wrapper :=
  mk_wrapper (lmp o) z (_installed_packages o) (_available_styles o)
             (extract_global_restype o).

Definition set_installed_packages (p : option (list string)) (o : wrapper) : wrapper :=
  mk_wrapper (lmp o) (opened o) p (_available_styles o) (extract_global_restype o).

Definition set_available_styles (d : option (gmap string (list string))) (o : wrapper) : wrapper :=
  mk_wrapper (lmp o) (opened o) (_installed_packages o) d (extract_global_restype o).

Definition set_extract_global_restype (t : ctype) (o : wrapper) : wrapper :=
  mk_wrapper (lmp o) (opened o) (_installed_packages o) (_available_styles o) t.

(** The outcome of a Python call: a returned value or a raised exception. *)
Inductive outcome (A : Type) : Type :=
| Return (a : A)
| Raise (e : exn).
Arguments Return {A} _.
Arguments Raise {A} _.

Definition raised {A} (r : outcome A) : bool :=
  match r with
  | Return _ => false
  | Raise _ => true
  end.

(** ** Constants of the [lammps] module

    The wrapper imports its data type, style, type and variable
    constants from [lammps/constants.py], which is not part of the
    sources at hand; they are parameters of the model.  The data type of
    a query is [None] or an integer, the others are integers. *)
Class constants : Type := {
  LAMMPS_AUTODETECT : option Z;
  LAMMPS_INT : Z;
  LAMMPS_INT_2D : Z;
  LAMMPS_DOUBLE : Z;
  LAMMPS_DOUBLE_2D : Z;
  LAMMPS_INT64 : Z;
  LAMMPS_INT64_2D : Z;
  LAMMPS_STRING : Z;
  LMP_STYLE_GLOBAL : Z;
  LMP_STYLE_ATOM : Z;
  LMP_STYLE_LOCAL : Z;
  LMP_TYPE_SCALAR : Z;
  LMP_TYPE_VECTOR : Z;
  LMP_TYPE_ARRAY : Z;
  LMP_SIZE_VECTOR : Z;
  LMP_SIZE_ROWS : Z;
  LMP_SIZE_COLS : Z;
  LMP_VAR_EQUAL : Z;
  LMP_VAR_ATOM : Z
}.

(** [a == b] for two values that are [None] or an int. *)
Definition py_eq (a b : option Z) : bool :=
  match a, b with
  | None, None => true
  | Some x, Some y => x =? y
  | _, _ => false
  end.

(** [vec_dict] of [extract_global]. *)
Definition vec_dict : list (string * Z) :=
  [ ("boxlo", 3); ("boxhi", 3); ("sublo", 3); ("subhi", 3);
    ("sublo_lambda", 3); ("subhi_lambda", 3); ("periodicity", 3) ]%string.

Fixpoint dict_get (d : list (string * Z)) (k : string) : option Z :=
  match d with
  | [] => None
  | (k', v) :: d' => if String.eqb k k' then Some v else dict_get d' k
  end.

(** [int] and [float], the two values of [target_type]. *)
Inductive target : Type := py_int | py_float.

(** The Python object read from one ctypes cell. *)
Definition of_cell (t : ctype) : pyval t -> pyobj :=
  match t return pyval t -> pyobj with
  | c_int => PyInt
  | c_int32 => PyInt
  | c_int64 => PyInt
  | c_double => PyFloat
  | c_char_p => fun b => match b with Some s => PyStr s | None => PyNone end
  | POINTER t' => PyPointer t'
  end.

(** Truth value of a native result ([if ptr:]). *)
Definition truthy_c (t : ctype) : pyval t -> bool :=
  match t return pyval t -> bool with
  | c_int => truthy_int
  | c_int32 => truthy_int
  | c_int64 => truthy_int
  | c_double => fun d =>
      match d with
      | Finite q => negb (Qeq_bool q 0)
      | _ => true
      end
  | c_char_p => truthy_text
  | POINTER _ => fun p => negb (address p =? 0)
  end.

(** ** A scripted library

    A stand-in for the native library whose answers are fixed by a
    script; it has no state of its own.  It serves to run the wrapper on
    concrete inputs. *)
Record script : Type := mk_script {
  exceptions : Z;            (* lammps_config_has_exceptions *)
  error : Z;                 (* lammps_has_error *)
  error_kind : Z;            (* lammps_get_last_error_message: return value *)
  message : list ascii;      (* lammps_get_last_error_message: buffer *)
  natoms : double;           (* lammps_get_natoms *)
  count : Z;                 (* every count query *)
  name_of : Z -> list ascii; (* every name query, by index *)
  heap : Z                   (* address of every pointer result; 0 is NULL *)
}.

(** The answer of restype [t] at address or value [a]. *)
Definition answer_of (t : ctype) (a : Z) : pyval t :=
  match t return pyval t with
  | c_int => a
  | c_int32 => a
  | c_int64 => a
  | c_double => Finite (inject_Z a)
  | c_char_p => None
  | POINTER t' => mk_pointer a (fun _ => zero t')
  end.

Definition scripted_answer (s : script) (R : Type) (e : native R) : R :=
  match e in native R return R with
  | lammps_config_has_exceptions => exceptions s
  | lammps_has_error _ => error s
  | lammps_get_last_error_message _ _ => (error_kind s, message s)
  | lammps_close _ => tt
  | lammps_finalize => tt
  | lammps_file _ _ => tt
  | lammps_command _ _ => None
  | lammps_commands_string _ _ => tt
  | lammps_get_natoms _ => natoms s
  | lammps_get_thermo _ _ => Finite 0%Q
  | lammps_extract_setting _ _ => 0
  | lammps_extract_global_datatype _ _ => -1
  | lammps_extract_global _ _ t => answer_of t (heap s)
  | lammps_extract_atom_datatype _ _ => -1
  | lammps_extract_atom _ _ t => answer_of t (heap s)
  | lammps_extract_compute _ _ _ _ t => answer_of t (heap s)
  | lammps_extract_fix _ _ _ _ _ _ t => answer_of t (heap s)
  | lammps_extract_variable _ _ _ t => answer_of t (heap s)
  | lammps_free _ => tt
  | lammps_set_variable _ _ _ => 0
  | lammps_gather_atoms _ _ _ _ _ _ => []
  | lammps_gather_atoms_concat _ _ _ _ _ _ => []
  | lammps_gather _ _ _ _ _ _ => []
  | lammps_gather_concat _ _ _ _ _ _ => []
  | lammps_create_atoms _ n _ _ _ _ _ _ => n
  | lammps_config_package_count => count s
  | lammps_config_package_name idx _ => (1, name_of s idx)
  | lammps_style_count _ _ => count s
  | lammps_style_name _ _ idx _ => (1, name_of s idx)
  | lammps_id_count _ _ => count s
  | lammps_id_name _ _ idx _ => (1, name_of s idx)
  | lammps_plugin_count _ => count s
  | lammps_plugin_name idx _ => (1, name_of s idx, name_of s idx)
  end.

Definition scripted (s : script) (R : Type) (e : native R) (w : unit) : R * unit :=
  (scripted_answer s R e, w).

(** The bytes of a name followed by the terminating NUL. *)
Definition c_str (s : string) : list ascii := list_ascii_of_string s ++ [NUL].

(** A library built without exception support in which nothing is
    known: every count is 0 and every pointer result is NULL. *)
Definition nothing_known : script :=
  mk_script 0 0 0 [] (Finite 0%Q) 0 (fun _ => []) 0.

(** A system of four atoms. *)
Definition four_atoms : script :=
  mk_script 0 0 0 [] (Finite 4%Q) 0 (fun _ => []) 0.

(** Every category has two entries, and both are called [pair]. *)
Definition two_pairs : script :=
  mk_script 0 0 0 [] (Finite 0%Q) 2 (fun _ => c_str "pair") 0.

(** Three names, one per index; every other index is [none]. *)
Definition three_names (idx : Z) : string :=
  if idx =? 0 then "lj/cut"%string
  else if idx =? 1 then "eam"%string
  else if idx =? 2 then "zero"%string
  else "none"%string.

(** Every category has three entries with three different names. *)
Definition three_styles : script :=
  mk_script 0 0 0 [] (Finite 0%Q) 3 (fun idx => c_str (three_names idx)) 0.

(** A library with exception support whose error flag is set, the last
    error being a collective abort. *)
Definition aborting : script :=
  mk_script 1 1 2 (c_str "ERROR: Lost atoms ") (Finite 0%Q) 0 (fun _ => []) 0.

(** Every pointer result lives at one non-NULL address. *)
Definition everything_known : script :=
  mk_script 0 0 0 [] (Finite 0%Q) 0 (fun _ => []) 4096.

(** Memory that is filled: a number is [a], a text is [metal], and a
    pointer is not NULL and points to cells that count up from [a]. *)
Fixpoint filled (t : ctype) (a : Z) : pyval t :=
  match t with
  | c_int | c_int32 | c_int64 => a
  | c_double => Finite (inject_Z a)
  | c_char_p => Some "metal"%string
  | POINTER t' => mk_pointer 4096 (fun i => filled t' (a + i))
  end.

(** A system of four atoms whose global properties are filled memory
    that counts up from 3, and whose gathers store the value 7 in the
    first two cells of the buffer and leave the others alone. *)
Definition busy (R : Type) (e : native R) (w : unit) : R * unit :=
  (match e in native R return R with
   | lammps_extract_global _ _ t => filled t 3
   | lammps_gather_atoms _ _ _ _ t _ => [filled t 7; filled t 7]
   | lammps_gather_atoms_concat _ _ _ _ t _ => [filled t 7; filled t 7]
   | lammps_gather _ _ _ _ t _ => [filled t 7; filled t 7]
   | lammps_gather_concat _ _ _ _ t _ => [filled t 7; filled t 7]
   | e' => scripted_answer four_atoms _ e'
   end, w).

(** One assignment of the constants, with the values they have in the
    LAMMPS library interface; it serves to run the model. *)
Definition library_constants : constants := {|
  LAMMPS_AUTODETECT := None;
  LAMMPS_INT := 0;
  LAMMPS_INT_2D := 1;
  LAMMPS_DOUBLE := 2;
  LAMMPS_DOUBLE_2D := 3;
  LAMMPS_INT64 := 4;
  LAMMPS_INT64_2D := 5;
  LAMMPS_STRING := 6;
  LMP_STYLE_GLOBAL := 0;
  LMP_STYLE_ATOM := 1;
  LMP_STYLE_LOCAL := 2;
  LMP_TYPE_SCALAR := 0;
  LMP_TYPE_VECTOR := 1;
  LMP_TYPE_ARRAY := 2;
  LMP_SIZE_VECTOR := 3;
  LMP_SIZE_ROWS := 4;
  LMP_SIZE_COLS := 5;
  LMP_VAR_EQUAL := 0;
  LMP_VAR_ATOM := 1
|}.

(** A wrapper right after construction on handle [h]. *)
Definition fresh (h : Z) : wrapper := mk_wrapper (Some h) 1 None None c_int.

(** ** Further native entry points

    The entry points behind [commands_list], the box operations, the
    subset gathers, the scatters, [decode_image_flags] and
    [accelerator_config].  As above, the result of a call is what the
    call hands back to Python: for an entry point that fills buffers of
    the caller, the cells it stored in each of them. *)
Inductive native_ext : Type -> Type :=
| lammps_commands_list (handle : Z) (narg : Z) (cmds : list (option string)) : native_ext unit
| lammps_extract_box (handle : Z) :
    native_ext (list double * list double * list double * list double * list double
                * list Z * list Z)
| lammps_reset_box (handle : Z) (boxlo boxhi : list double) (xy yz xz : double) :
    native_ext unit
| lammps_gather_atoms_subset (handle : Z) (name : option string) (type count ndata : Z)
    (ids : list Z) (t : ctype) (len : nat) : native_ext (list (pyval t))
| lammps_gather_subset (handle : Z) (name : option string) (type count ndata : Z)
    (ids : list Z) (t : ctype) (len : nat) : native_ext (list (pyval t))
| lammps_scatter_atoms (handle : Z) (name : option string) (type count : Z) (data : carray) :
    native_ext unit
| lammps_scatter_atoms_subset (handle : Z) (name : option string) (type count ndata : Z)
    (ids : list Z) (data : carray) : native_ext unit
| lammps_scatter (handle : Z) (name : option string) (type count : Z) (data : carray) :
    native_ext unit
| lammps_scatter_subset (handle : Z) (name : option string) (type count ndata : Z)
    (ids : list Z) (data : carray) : native_ext unit
| lammps_decode_image_flags (image : Z) : native_ext (list Z)
| lammps_config_accelerator (package category setting : string) : native_ext Z.

Definition entry_ext : Type := { R : Type & native_ext R }.

Definition log_ext {R} (e : native_ext R) : entry_ext := existT R e.

(** The scripted library on these entry points: it stores nothing
    except a box, and knows the accelerator settings of [enabled]. *)
Definition scripted_ext (enabled : string -> string -> string -> bool)
    (R : Type) (e : native_ext R) (w : unit) : R * unit :=
  (match e in native_ext R return R with
   | lammps_commands_list _ _ _ => tt
   | lammps_extract_box _ =>
       ([Finite 0%Q; Finite 0%Q], [Finite 10%Q; Finite 10%Q; Finite 10%Q; Finite 10%Q],
        [Finite 1%Q], [], [], [1; 1; 0], [])
   | lammps_reset_box _ _ _ _ _ _ => tt
   | lammps_gather_atoms_subset _ _ _ _ _ _ _ _ => []
   | lammps_gather_subset _ _ _ _ _ _ _ _ => []
   | lammps_scatter_atoms _ _ _ _ _ => tt
   | lammps_scatter_atoms_subset _ _ _ _ _ _ _ => tt
   | lammps_scatter _ _ _ _ _ => tt
   | lammps_scatter_subset _ _ _ _ _ _ _ => tt
   | lammps_decode_image_flags image => [image]
   | lammps_config_accelerator p c s => if enabled p c s then 1 else 0
   end, w).

(** A library built with the OpenMP and the serial backend of KOKKOS in
    double precision, and nothing else. *)
Definition kokkos_openmp (p c s : string) : bool :=
  String.eqb p "KOKKOS"
  && ((String.eqb c "api" && (String.eqb s "openmp" || String.eqb s "serial"))
      || (String.eqb c "precision" && String.eqb s "double")).

Declare Scope ext_scope.

Section Wrapper.

(** The native library: the state of the engine and of the process it
    lives in, and what each entry point answers and does to that state. *)
Variable W : Type.
Variable lib : forall R : Type, native R -> W -> R * W.
Context {K : constants}.

Record machine : Type := mk_machine {
  self : wrapper;
  world : W;
  calls : list entry
}.

(** Computations of the wrapper: they read and assign the object, call
    the library, and return or raise. *)
Definition M (A : Type) : Type := machine -> outcome A * machine.

Definition ret {A} (a : A) : M A := fun m => (Return a, m).

Definition raise {A} (e : exn) : M A := fun m => (Raise e, m).

Definition bind {A B} (c : M A) (k : A -> M B) : M B := fun m =>
  match c m with
  | (Return a, m') => k a m'
  | (Raise e, m') => (Raise e, m')
  end.

Definition get : M wrapper := fun m => (Return (self m), m).

Definition modify (f : wrapper -> wrapper) : M unit := fun m =>
  (Return tt, mk_machine (f (self m)) (world m) (calls m)).

(** [self.lib.f(args)]: the call is logged and the library answers. *)
Definition call {R} (e : native R) : M R := fun m =>
  let (r, w) := lib R e (world m) in
  (Return r, mk_machine (self m) w (calls m ++ [log e])).

Notation "x <- c ;; k" := (bind c (fun x => k))
  (at level 20, c at level 99, k at level 200, only parsing).
Notation "' p <- c ;; k" := (bind c (fun p => k))
  (at level 20, p pattern, c at level 99, k at level 200, only parsing).
Notation "c ;; k" := (bind c (fun _ => k))
  (at level 100, k at level 200, right associativity, only parsing).

(** [for a in l: body(a)], threading the local variables [s]. *)
Fixpoint for_each {A S} (l : list A) (body : A -> S -> M S) (s : S) : M S :=
  match l with
  | [] => ret s
  | a :: l' => s' <- body a s ;; for_each l' body s'
  end.

(** [range(n)] *)
Definition range (n : Z) : list Z := seqZ 0 n.

(** ** The error translation shim *)

(** [lammps.has_exceptions] *)
Definition has_exceptions : M bool :=
  r <- call lammps_config_has_exceptions ;;
  ret (negb (r =? 0)).

(** [lammps._lammps_exception] *)
Definition _lammps_exception : M exn :=
  o <- get ;;
  let sb := create_string_buffer 100 in
  '(error_type, written) <-
    call (lammps_get_last_error_message (as_c_void_p (lmp o)) 100) ;;
  let sb := store sb written in
  let error_msg := strip (decode (value sb)) in
  if error_type =? 2 then ret (MPIAbortException error_msg)
  else ret (Exception error_msg).

(** [ExceptionCheck.__exit__]: [and] evaluates its right operand only
    when the left one is true. *)
Definition __exit__ : M unit :=
  he <- has_exceptions ;;
  if he then
    o <- get ;;
    err <- call (lammps_has_error (as_c_void_p (lmp o))) ;;
    if truthy_int err then e <- _lammps_exception ;; raise e
    else ret tt
  else ret tt.

(** [with ExceptionCheck(self): body].  [__enter__] does nothing;
    [__exit__] runs however the body ends, and what it raises replaces
    the body's own outcome. *)
Definition ExceptionCheck {A} (body : M A) : M A := fun m =>
  let (r, m1) := body m in
  match __exit__ m1 with
  | (Raise e, m2) => (Raise e, m2)
  | (Return _, m2) => (r, m2)
  end.

(** ** Handle life cycle *)

Definition __del__ : M unit :=
  o <- get ;;
  if truthy_handle (lmp o) && truthy_int (opened o) then
    call (lammps_close (as_c_void_p (lmp o))) ;;
    modify (set_opened 0)
  else ret tt.

Definition close : M unit :=
  o <- get ;;
  (if truthy_int (opened o) then call (lammps_close (as_c_void_p (lmp o)))
   else ret tt) ;;
  modify (set_lmp None) ;;
  modify (set_opened 0).

Definition finalize : M unit :=
  o <- get ;;
  (if truthy_int (opened o) then call (lammps_close (as_c_void_p (lmp o)))
   else ret tt) ;;
  modify (set_lmp None) ;;
  modify (set_opened 0) ;;
  call lammps_finalize.

(** The three ways a wrapper lets go of its handle. *)
Inductive release : Type := by_close | by_del | by_finalize.

Definition run_release (r : release) : M unit :=
  match r with
  | by_close => close
  | by_del => __del__
  | by_finalize => finalize
  end.

(** ** Commands and scalar queries *)

Definition file (path : option string) : M unit :=
  if truthy_text path then
    o <- get ;;
    ExceptionCheck (call (lammps_file (as_c_void_p (lmp o)) (default ""%string path)))
  else ret tt.

Definition command (cmd : option string) : M unit :=
  if truthy_text cmd then
    o <- get ;;
    ExceptionCheck
      (call (lammps_command (as_c_void_p (lmp o)) (default ""%string cmd)) ;; ret tt)
  else ret tt.

(** [multicmd] is encoded when it is a [str], the empty one included,
    and [c_char_p(None)] is a NULL pointer. *)
Definition commands_string (multicmd : option string) : M unit :=
  o <- get ;;
  ExceptionCheck (call (lammps_commands_string (as_c_void_p (lmp o)) multicmd)).

(** [int(d)] for a Python float. *)
Definition int_of_double (d : double) : M Z :=
  match d with
  | Finite q => ret (Z.quot (Qnum q) (Zpos (Qden q)))
  | Infinity _ => raise (OverflowError "cannot convert float infinity to integer")
  | NaN => raise (ValueError "cannot convert float NaN to integer")
  end.

Definition get_natoms : M Z :=
  o <- get ;;
  d <- call (lammps_get_natoms (as_c_void_p (lmp o))) ;;
  int_of_double d.

Definition get_thermo (name : option string) : M (option double) :=
  if truthy_text name then
    o <- get ;;
    ExceptionCheck
      (d <- call (lammps_get_thermo (as_c_void_p (lmp o)) (default ""%string name)) ;;
       ret (Some d))
  else ret None.

Definition extract_setting (name : option string) : M (option Z) :=
  if truthy_text name then
    o <- get ;;
    z <- call (lammps_extract_setting (as_c_void_p (lmp o)) (default ""%string name)) ;;
    ret (Some z)
  else ret None.

(** [value] is any Python object in the source; here it is text, whose
    [str(value)] is itself. *)
Definition set_variable (name value : option string) : M Z :=
  if truthy_text name then
    if truthy_text value then
      o <- get ;;
      ExceptionCheck
        (call (lammps_set_variable (as_c_void_p (lmp o)) (default ""%string name)
                                   (default ""%string value)))
    else ret (-1)
  else ret (-1).

(** ** Typed extraction *)

(** [ptr[i]] on a pointer object. *)
Definition index {A} (p : pointer A) (i : Z) : M A :=
  if address p =? 0 then raise (ValueError "NULL pointer access")
  else ret (pointee p i).

(** [ptr[i]] on a native result of any [restype]. *)
Definition getitem (t : ctype) : pyval t -> Z -> M pyobj :=
  match t return pyval t -> Z -> M pyobj with
  | c_int => fun _ _ => raise (TypeError "'int' object is not subscriptable")
  | c_int32 => fun _ _ => raise (TypeError "'int' object is not subscriptable")
  | c_int64 => fun _ _ => raise (TypeError "'int' object is not subscriptable")
  | c_double => fun _ _ => raise (TypeError "'float' object is not subscriptable")
  | c_char_p => fun b i =>
      match b with
      | Some s =>
          match String.get (Z.to_nat i) s with
          | Some c => ret (PyInt (Z.of_nat (nat_of_ascii c)))
          | None => raise (IndexError "index out of range")
          end
      | None => raise (TypeError "'NoneType' object is not subscriptable")
      end
  | POINTER t' => fun p i => x <- index p i ;; ret (of_cell t' x)
  end.

(** [ptr.decode('utf-8')] on a native result of any [restype]. *)
Definition decode_result (t : ctype) : pyval t -> M pyobj :=
  match t return pyval t -> M pyobj with
  | c_char_p => fun b =>
      match b with
      | Some s => ret (PyStr s)
      | None => raise (AttributeError "'NoneType' object has no attribute 'decode'")
      end
  | _ => fun _ => raise (AttributeError "object has no attribute 'decode'")
  end.

(** [target_type(x)], with [target_type] possibly never assigned. *)
Definition apply_target (f : option target) (x : M pyobj) : M pyobj :=
  match f with
  | None =>
      raise (UnboundLocalError "local variable 'target_type' referenced before assignment")
  | Some f =>
      v <- x ;;
      match f, v with
      | py_int, PyInt z => ret (PyInt z)
      | py_int, PyFloat d => z <- int_of_double d ;; ret (PyInt z)
      | py_float, PyInt z => ret (PyFloat (Finite (inject_Z z)))
      | py_float, PyFloat d => ret (PyFloat d)
      | _, _ => raise (TypeError "argument must be a string or a number")
      end
  end.

(** [veclen > 1] *)
Definition greater_than_one (v : pyobj) : M bool :=
  match v with
  | PyInt n => ret (1 <? n)
  | PyFloat (Finite q) => ret (negb (Qle_bool q 1))
  | PyFloat (Infinity negative) => ret (negb negative)
  | PyFloat NaN => ret false
  | _ => raise (TypeError "'>' not supported between these instances")
  end.

(** [range(0,veclen)] *)
Definition range_of (v : pyobj) : M (list Z) :=
  match v with
  | PyInt n => ret (range n)
  | _ => raise (TypeError "object cannot be interpreted as an integer")
  end.

Definition extract_global_datatype (name : option string) : M (option Z) :=
  if truthy_text name then
    o <- get ;;
    z <- call (lammps_extract_global_datatype (as_c_void_p (lmp o)) (default ""%string name)) ;;
    ret (Some z)
  else ret None.

(** The body of [extract_global], given the statement that computes
    [veclen] when [name] is ['respa_dt']. *)
Definition extract_global_from (respa_levels : M pyobj)
    (name : option string) (dtype : option Z) : M pyobj :=
  dtype <- (if py_eq dtype LAMMPS_AUTODETECT then extract_global_datatype name
            else ret dtype) ;;
  veclen <- match dict_get vec_dict (default ""%string name) with
            | Some n => ret (PyInt n)
            | None =>
                if String.eqb (default ""%string name) "respa_dt" then respa_levels
                else ret (PyInt 1)
            end ;;
  if truthy_text name then
    target_type <-
      (if py_eq dtype (Some LAMMPS_INT) then
         modify (set_extract_global_restype (POINTER c_int32)) ;; ret (Some py_int)
       else if py_eq dtype (Some LAMMPS_INT64) then
         modify (set_extract_global_restype (POINTER c_int64)) ;; ret (Some py_int)
       else if py_eq dtype (Some LAMMPS_DOUBLE) then
         modify (set_extract_global_restype (POINTER c_double)) ;; ret (Some py_float)
       else if py_eq dtype (Some LAMMPS_STRING) then
         modify (set_extract_global_restype c_char_p) ;; ret None
       else ret None) ;;
    o <- get ;;
    let restype := extract_global_restype o in
    ptr <- call (lammps_extract_global (as_c_void_p (lmp o)) (default ""%string name) restype) ;;
    if truthy_c restype ptr then
      if py_eq dtype (Some LAMMPS_STRING) then decode_result restype ptr
      else
        vector <- greater_than_one veclen ;;
        if vector then
          idxs <- range_of veclen ;;
          result <- for_each idxs
                      (fun i result =>
                         v <- apply_target target_type (getitem restype ptr i) ;;
                         ret (result ++ [v]))
                      [] ;;
          ret (PyList result)
        else apply_target target_type (getitem restype ptr 0)
    else ret PyNone
  else ret PyNone.

(** [extract_global(name, dtype)].  The one recursive call,
    [self.extract_global('respa_levels',LAMMPS_INT)], has a name that is
    neither in [vec_dict] nor ['respa_dt'], so its own [veclen] is 1. *)
Definition extract_global (name : option string) (dtype : option Z) : M pyobj :=
  extract_global_from
    (extract_global_from (ret (PyInt 1)) (Some "respa_levels"%string) (Some LAMMPS_INT))
    name dtype.

Definition extract_atom_datatype (name : option string) : M (option Z) :=
  if truthy_text name then
    o <- get ;;
    z <- call (lammps_extract_atom_datatype (as_c_void_p (lmp o)) (default ""%string name)) ;;
    ret (Some z)
  else ret None.

(** The [restype] that [extract_atom] declares for a data type. *)
Definition extract_atom_restype (dtype : option Z) : option ctype :=
  if py_eq dtype (Some LAMMPS_INT) then Some (POINTER c_int32)
  else if py_eq dtype (Some LAMMPS_INT_2D) then Some (POINTER (POINTER c_int32))
  else if py_eq dtype (Some LAMMPS_DOUBLE) then Some (POINTER c_double)
  else if py_eq dtype (Some LAMMPS_DOUBLE_2D) then Some (POINTER (POINTER c_double))
  else if py_eq dtype (Some LAMMPS_INT64) then Some (POINTER c_int64)
  else if py_eq dtype (Some LAMMPS_INT64_2D) then Some (POINTER (POINTER c_int64))
  else None.

Definition extract_atom (name : option string) (dtype : option Z) : M pyobj :=
  dtype <- (if py_eq dtype LAMMPS_AUTODETECT then extract_atom_datatype name
            else ret dtype) ;;
  if truthy_text name then
    match extract_atom_restype dtype with
    | Some restype =>
        o <- get ;;
        ptr <- call (lammps_extract_atom (as_c_void_p (lmp o)) (default ""%string name) restype) ;;
        if truthy_c restype ptr then ret (of_cell restype ptr) else ret PyNone
    | None => ret PyNone
    end
  else ret PyNone.

(** [self.lib.lammps_extract_compute.restype = restype] followed by
    [with ExceptionCheck(self): ptr = self.lib.lammps_extract_compute(...)]. *)
Definition compute_ptr (id : string) (style type : Z) (restype : ctype) : M (pyval restype) :=
  o <- get ;;
  ExceptionCheck (call (lammps_extract_compute (as_c_void_p (lmp o)) id style type restype)).

Definition extract_compute (id : option string) (style type : Z) : M pyobj :=
  if truthy_text id then
    let id := default ""%string id in
    if type =? LMP_TYPE_SCALAR then
      if style =? LMP_STYLE_GLOBAL then
        ptr <- compute_ptr id style type (POINTER c_double) ;;
        getitem (POINTER c_double) ptr 0
      else if style =? LMP_STYLE_ATOM then ret PyNone
      else if style =? LMP_STYLE_LOCAL then
        ptr <- compute_ptr id style type (POINTER c_int) ;;
        getitem (POINTER c_int) ptr 0
      else ret PyNone
    else if type =? LMP_TYPE_VECTOR then
      ptr <- compute_ptr id style type (POINTER c_double) ;;
      ret (PyPointer c_double ptr)
    else if type =? LMP_TYPE_ARRAY then
      ptr <- compute_ptr id style type (POINTER (POINTER c_double)) ;;
      ret (PyPointer (POINTER c_double) ptr)
    else if type =? LMP_SIZE_COLS then
      if (style =? LMP_STYLE_GLOBAL) || (style =? LMP_STYLE_ATOM)
         || (style =? LMP_STYLE_LOCAL) then
        ptr <- compute_ptr id style type (POINTER c_int) ;;
        getitem (POINTER c_int) ptr 0
      else ret PyNone
    else if (type =? LMP_SIZE_VECTOR) || (type =? LMP_SIZE_ROWS) then
      if (style =? LMP_STYLE_GLOBAL) || (style =? LMP_STYLE_LOCAL) then
        ptr <- compute_ptr id style type (POINTER c_int) ;;
        getitem (POINTER c_int) ptr 0
      else ret PyNone
    else ret PyNone
  else ret PyNone.

(** The same two statements for [lammps_extract_fix]. *)
Definition fix_ptr (id : string) (style type nrow ncol : Z) (restype : ctype) :
    M (pyval restype) :=
  o <- get ;;
  ExceptionCheck
    (call (lammps_extract_fix (as_c_void_p (lmp o)) id style type nrow ncol restype)).

Definition extract_fix (id : option string) (style type nrow ncol : Z) : M pyobj :=
  if truthy_text id then
    let id := default ""%string id in
    if style =? LMP_STYLE_GLOBAL then
      if (type =? LMP_TYPE_SCALAR) || (type =? LMP_TYPE_VECTOR) || (type =? LMP_TYPE_ARRAY) then
        ptr <- fix_ptr id style type nrow ncol (POINTER c_double) ;;
        result <- getitem (POINTER c_double) ptr 0 ;;
        call (lammps_free (address ptr)) ;;
        ret result
      else if (type =? LMP_SIZE_VECTOR) || (type =? LMP_SIZE_ROWS) || (type =? LMP_SIZE_COLS) then
        ptr <- fix_ptr id style type nrow ncol (POINTER c_int) ;;
        getitem (POINTER c_int) ptr 0
      else ret PyNone
    else if style =? LMP_STYLE_ATOM then
      match (if type =? LMP_TYPE_VECTOR then Some (POINTER c_double)
             else if type =? LMP_TYPE_ARRAY then Some (POINTER (POINTER c_double))
             else if type =? LMP_SIZE_COLS then Some (POINTER c_int)
             else None) with
      | Some restype =>
          ptr <- fix_ptr id style type nrow ncol restype ;;
          if type =? LMP_SIZE_COLS then getitem restype ptr 0
          else ret (of_cell restype ptr)
      | None => ret PyNone
      end
    else if style =? LMP_STYLE_LOCAL then
      match (if type =? LMP_TYPE_VECTOR then Some (POINTER c_double)
             else if type =? LMP_TYPE_ARRAY then Some (POINTER (POINTER c_double))
             else if (type =? LMP_TYPE_SCALAR) || (type =? LMP_SIZE_VECTOR)
                     || (type =? LMP_SIZE_ROWS) || (type =? LMP_SIZE_COLS)
                  then Some (POINTER c_int)
             else None) with
      | Some restype =>
          ptr <- fix_ptr id style type nrow ncol restype ;;
          if (type =? LMP_TYPE_VECTOR) || (type =? LMP_TYPE_ARRAY)
          then ret (of_cell restype ptr)
          else getitem restype ptr 0
      | None => ret PyNone
      end
    else ret PyNone
  else ret PyNone.

(** [(t * n)()]: the cells of a new array of [n] elements. *)
Definition new_cells (t : ctype) (n : Z) : M (list (pyval t)) :=
  if n <? 0 then raise (ValueError "Array length must be >= 0")
  else ret (repeat (zero t) (Z.to_nat n)).

(** [(c_double * nlocal)()] for whatever [extract_global] returned. *)
Definition new_cells_of (t : ctype) (n : pyobj) : M (list (pyval t)) :=
  match n with
  | PyInt n => new_cells t n
  | _ => raise (TypeError "can't multiply sequence by non-int")
  end.

(** [if group: group = group.encode()]: a text that is not encoded stays
    [None] or the (empty) [str], and ctypes refuses a [str] where the
    [argtypes] say [c_char_p]. *)
Definition as_c_char_p (t : option string) : M (option string) :=
  match t with
  | None => ret None
  | Some s =>
      if truthy_text t then ret (Some s)
      else raise (ArgumentError "argument: wrong type")
  end.

Definition extract_variable (name group : option string) (vartype : Z) : M pyobj :=
  if truthy_text name then
    let name := default ""%string name in
    if vartype =? LMP_VAR_EQUAL then
      o <- get ;;
      ptr <- ExceptionCheck
               (group <- as_c_char_p group ;;
                call (lammps_extract_variable (as_c_void_p (lmp o)) name group
                                              (POINTER c_double))) ;;
      if truthy_c (POINTER c_double) ptr then
        result <- index ptr 0 ;;
        call (lammps_free (address ptr)) ;;
        ret (PyFloat result)
      else ret PyNone
    else if vartype =? LMP_VAR_ATOM then
      nlocal <- extract_global (Some "nlocal"%string) LAMMPS_AUTODETECT ;;
      result <- new_cells_of c_double nlocal ;;
      o <- get ;;
      ptr <- ExceptionCheck
               (group <- as_c_char_p group ;;
                call (lammps_extract_variable (as_c_void_p (lmp o)) name group
                                              (POINTER c_double))) ;;
      if truthy_c (POINTER c_double) ptr then
        idxs <- range_of nlocal ;;
        result <- for_each idxs
                    (fun i (result : list double) =>
                       x <- index ptr i ;;
                       ret (<[Z.to_nat i := x]> result))
                    result ;;
        call (lammps_free (address ptr)) ;;
        ret (PyArray (mk_carray c_double result))
      else ret PyNone
    else ret PyNone
  else ret PyNone.

(** ** Gather

    The four functions [gather_atoms], [gather_atoms_concat], [gather]
    and [gather_concat] have the same text up to the entry point they
    call, which is the parameter [f] here. *)
Definition gather_with
    (f : Z -> option string -> Z -> Z -> forall t : ctype, nat -> native (list (pyval t)))
    (name : option string) (type count : Z) : M pyobj :=
  natoms <- get_natoms ;;
  ExceptionCheck
    (if type =? 0 then
       data <- new_cells c_int (count * natoms) ;;
       o <- get ;;
       name <- as_c_char_p name ;;
       written <- call (f (as_c_void_p (lmp o)) name type count c_int (length data)) ;;
       ret (PyArray (mk_carray c_int (store data written)))
     else if type =? 1 then
       data <- new_cells c_double (count * natoms) ;;
       o <- get ;;
       name <- as_c_char_p name ;;
       written <- call (f (as_c_void_p (lmp o)) name type count c_double (length data)) ;;
       ret (PyArray (mk_carray c_double (store data written)))
     else ret PyNone).

Definition gather_atoms : option string -> Z -> Z -> M pyobj :=
  gather_with lammps_gather_atoms.

Definition gather_atoms_concat : option string -> Z -> Z -> M pyobj :=
  gather_with lammps_gather_atoms_concat.

Definition gather : option string -> Z -> Z -> M pyobj :=
  gather_with lammps_gather.

Definition gather_concat : option string -> Z -> Z -> M pyobj :=
  gather_with lammps_gather_concat.

(** ** Atom creation *)

(** [a = (t * n)()] followed by [try: a[:] = src[0:n]] / [except: return 0]:
    the new array, or [None] when the slice has another length than the
    array and the assignment raised. *)
Definition array_of_slice {A} (n : Z) (src : list A) : M (option (list A)) :=
  if n <? 0 then raise (ValueError "Array length must be >= 0")
  else
    let slice := firstn (Z.to_nat n) src in
    if Z.of_nat (length slice) =? n then ret (Some slice) else ret None.

(** The same for a list that may be left out: [if l: ... else: a = None]. *)
Definition optional_array_of_slice {A} (n : Z) (src : option (list A)) :
    M (option (option (list A))) :=
  if truthy_list src then
    a <- array_of_slice n (default [] src) ;;
    ret (option_map Some a)
  else ret (Some None).

Definition create_atoms (n : Z) (id : option (list Z)) (type : list Z) (x : list double)
    (v : option (list double)) (image : option (list Z)) (shrinkexceed : bool) : M Z :=
  id_lmp <- optional_array_of_slice n id ;;
  match id_lmp with
  | None => ret 0
  | Some id_lmp =>
  type_lmp <- array_of_slice n type ;;
  match type_lmp with
  | None => ret 0
  | Some type_lmp =>
  let three_n := 3 * n in
  x_lmp <- array_of_slice three_n x ;;
  match x_lmp with
  | None => ret 0
  | Some x_lmp =>
  v_lmp <- optional_array_of_slice three_n v ;;
  match v_lmp with
  | None => ret 0
  | Some v_lmp =>
  img_lmp <- optional_array_of_slice n image ;;
  match img_lmp with
  | None => ret 0
  | Some img_lmp =>
  let se_lmp := if shrinkexceed then 1 else 0 in
  o <- get ;;
  ExceptionCheck
    (call (lammps_create_atoms (as_c_void_p (lmp o)) n id_lmp type_lmp x_lmp v_lmp
                               img_lmp se_lmp))
  end end end end end.

(** ** Introspection *)

(** [self._installed_packages.append(name)] *)
Definition append_installed_package (name : string) (o : wrapper) : wrapper :=
  set_installed_packages (Some (default [] (_installed_packages o) ++ [name])) o.

Definition installed_packages : M (list string) :=
  o <- get ;;
  (match _installed_packages o with
   | None =>
       modify (set_installed_packages (Some [])) ;;
       npackages <- call lammps_config_package_count ;;
       let sb := create_string_buffer 100 in
       for_each (range npackages)
         (fun idx sb =>
            '(_, written) <- call (lammps_config_package_name idx 100) ;;
            let sb := store sb written in
            modify (append_installed_package (decode (value sb))) ;;
            ret sb)
         sb ;;
       ret tt
   | Some _ => ret tt
   end) ;;
  o <- get ;;
  ret (default [] (_installed_packages o)).

(** [self._available_styles[category].append(name)] *)
Definition append_available_style (category name : string) (o : wrapper) : wrapper :=
  let d := default ∅ (_available_styles o) in
  set_available_styles (Some (<[category := default [] (d !! category) ++ [name]]> d)) o.

Definition available_styles (category : string) : M (list string) :=
  o <- get ;;
  (match _available_styles o with
   | None => modify (set_available_styles (Some ∅))
   | Some _ => ret tt
   end) ;;
  o <- get ;;
  let d := default ∅ (_available_styles o) in
  (match d !! category with
   | None =>
       modify (set_available_styles (Some (<[category := []]> d))) ;;
       nstyles <- ExceptionCheck (call (lammps_style_count (as_c_void_p (lmp o)) category)) ;;
       let sb := create_string_buffer 100 in
       for_each (range nstyles)
         (fun idx sb =>
            '(_, written) <-
              ExceptionCheck (call (lammps_style_name (as_c_void_p (lmp o)) category idx 100)) ;;
            let sb := store sb written in
            modify (append_available_style category (decode (value sb))) ;;
            ret sb)
         sb ;;
       ret tt
   | Some _ => ret tt
   end) ;;
  o <- get ;;
  ret (default [] (default ∅ (_available_styles o) !! category)).

Definition categories : list string :=
  [ "compute"; "dump"; "fix"; "group"; "molecule"; "region"; "variable" ]%string.

(** [category in categories] *)
Definition is_category (category : string) : bool :=
  existsb (String.eqb category) categories.

Definition available_ids (category : string) : M (list string) :=
  let available_ids := [] in
  if is_category category then
    o <- get ;;
    num <- call (lammps_id_count (as_c_void_p (lmp o)) category) ;;
    let sb := create_string_buffer 100 in
    '(_, available_ids) <-
      for_each (range num)
        (fun idx '(sb, available_ids) =>
           '(_, written) <- call (lammps_id_name (as_c_void_p (lmp o)) category idx 100) ;;
           let sb := store sb written in
           ret (sb, available_ids ++ [decode (value sb)]))
        (sb, available_ids) ;;
    ret available_ids
  else ret available_ids.

(** The [category] argument of [available_plugins] is not used. *)
Definition available_plugins (category : string) : M (list (string * string)) :=
  let available_plugins := [] in
  o <- get ;;
  num <- call (lammps_plugin_count (as_c_void_p (lmp o))) ;;
  let sty := create_string_buffer 100 in
  let nam := create_string_buffer 100 in
  '(_, _, available_plugins) <-
    for_each (range num)
      (fun idx '(sty, nam, available_plugins) =>
         '(_, written_sty, written_nam) <- call (lammps_plugin_name idx 100) ;;
         let sty := store sty written_sty in
         let nam := store nam written_nam in
         ret (sty, nam, available_plugins ++ [(decode (value sty), decode (value nam))]))
      (sty, nam, available_plugins) ;;
  ret available_plugins.

(** ** The machine with the further entry points *)

Variable lib_ext : forall R : Type, native_ext R -> W -> R * W.

(** The calls of the further entry points are logged beside the
    machine. *)
Record machine_ext : Type := mk_machine_ext {
  base : machine;
  calls_ext : list entry_ext
}.

Definition M_ext (A : Type) : Type := machine_ext -> outcome A * machine_ext.

Definition ret_ext {A} (a : A) : M_ext A := fun m => (Return a, m).

Definition bind_ext {A B} (c : M_ext A) (k : A -> M_ext B) : M_ext B := fun m =>
  match c m with
  | (Return a, m') => k a m'
  | (Raise e, m') => (Raise e, m')
  end.

(** A computation of the wrapper, run on the machine underneath. *)
Definition lift {A} (c : M A) : M_ext A := fun m =>
  let (r, m1) := c (base m) in
  (r, mk_machine_ext m1 (calls_ext m)).

Definition call_ext {R} (e : native_ext R) : M_ext R := fun m =>
  let (r, w) := lib_ext R e (world (base m)) in
  (Return r,
   mk_machine_ext (mk_machine (self (base m)) w (calls (base m))) (calls_ext m ++ [log_ext e])).

Notation "x <- c ;; k" := (bind_ext c (fun x => k))
  (at level 20, c at level 99, k at level 200, only parsing) : ext_scope.
Notation "' p <- c ;; k" := (bind_ext c (fun p => k))
  (at level 20, p pattern, c at level 99, k at level 200, only parsing) : ext_scope.
Notation "c ;; k" := (bind_ext c (fun _ => k))
  (at level 100, k at level 200, right associativity, only parsing) : ext_scope.

Local Open Scope ext_scope.

Fixpoint for_each_ext {A S} (l : list A) (body : A -> S -> M_ext S) (s : S) : M_ext S :=
  match l with
  | [] => ret_ext s
  | a :: l' => s' <- body a s ;; for_each_ext l' body s'
  end.

(** [with ExceptionCheck(self): body] around such calls. *)
Definition ExceptionCheck_ext {A} (body : M_ext A) : M_ext A := fun m =>
  let (r, m1) := body m in
  match lift __exit__ m1 with
  | (Raise e, m2) => (Raise e, m2)
  | (Return _, m2) => (r, m2)
  end.

(** ** Lists of commands and the box *)

(** An array of [n] cells of type [t] created with initial values, as
    in [(c_double * 3)(x, y, z)]: more values than cells are refused,
    fewer leave the last cells at zero. *)
Definition new_array (t : ctype) (n : Z) (init : list (pyval t)) : M (list (pyval t)) :=
  if n <? 0 then raise (ValueError "Array length must be >= 0")
  else if n <? Z.of_nat (length init) then raise (IndexError "invalid index")
  else ret (init ++ repeat (zero t) (Z.to_nat n - length init)).

(** [x.encode()] when [type(x) is str]. *)
Definition encoded (x : pyobj) : option string :=
  match x with
  | PyStr s => Some s
  | _ => None
  end.

Definition commands_list (cmdlist : list pyobj) : M_ext unit :=
  let cmds := omap encoded cmdlist in
  let narg := Z.of_nat (length cmdlist) in
  args <- lift (new_array c_char_p narg (map Some cmds)) ;;
  o <- lift get ;;
  ExceptionCheck_ext (call_ext (lammps_commands_list (as_c_void_p (lmp o)) narg args)).

(** [c.value] of a single cell such as [c_double()]. *)
Definition cell_value (t : ctype) (cell : list (pyval t)) : pyval t := hd (zero t) cell.

(** [c_double()] and [c_int()] are buffers of one cell, passed by
    reference. *)
Definition extract_box :
    M_ext (list double * list double * double * double * double * list Z * Z) :=
  boxlo <- lift (new_cells c_double 3) ;;
  boxhi <- lift (new_cells c_double 3) ;;
  xy <- lift (new_cells c_double 1) ;;
  yz <- lift (new_cells c_double 1) ;;
  xz <- lift (new_cells c_double 1) ;;
  periodicity <- lift (new_cells c_int 3) ;;
  box_change <- lift (new_cells c_int 1) ;;
  o <- lift get ;;
  '(w_boxlo, w_boxhi, w_xy, w_yz, w_xz, w_periodicity, w_box_change) <-
    ExceptionCheck_ext (call_ext (lammps_extract_box (as_c_void_p (lmp o)))) ;;
  let boxlo := firstn 3 (store boxlo w_boxlo) in
  let boxhi := firstn 3 (store boxhi w_boxhi) in
  let xy := cell_value c_double (store xy w_xy) in
  let yz := cell_value c_double (store yz w_yz) in
  let xz := cell_value c_double (store xz w_xz) in
  let periodicity := firstn 3 (store periodicity w_periodicity) in
  let box_change := cell_value c_int (store box_change w_box_change) in
  ret_ext (boxlo, boxhi, xy, yz, xz, periodicity, box_change).

Definition reset_box (boxlo boxhi : list double) (xy yz xz : double) : M_ext unit :=
  cboxlo <- lift (new_array c_double 3 boxlo) ;;
  cboxhi <- lift (new_array c_double 3 boxhi) ;;
  o <- lift get ;;
  ExceptionCheck_ext
    (call_ext (lammps_reset_box (as_c_void_p (lmp o)) cboxlo cboxhi xy yz xz)).

(** ** Gather and scatter of a subset

    [gather_atoms_subset] and [gather_subset] have the same text up to
    the entry point [f] they call; [ids] and the [data] of a scatter are
    ctypes arrays. *)
Definition gather_subset_with
    (f : Z -> option string -> Z -> Z -> Z -> list Z ->
         forall t : ctype, nat -> native_ext (list (pyval t)))
    (name : option string) (type count ndata : Z) (ids : list Z) : M_ext pyobj :=
  ExceptionCheck_ext
    (if type =? 0 then
       data <- lift (new_cells c_int (count * ndata)) ;;
       o <- lift get ;;
       name <- lift (as_c_char_p name) ;;
       written <- call_ext (f (as_c_void_p (lmp o)) name type count ndata ids c_int
                              (length data)) ;;
       ret_ext (PyArray (mk_carray c_int (store data written)))
     else if type =? 1 then
       data <- lift (new_cells c_double (count * ndata)) ;;
       o <- lift get ;;
       name <- lift (as_c_char_p name) ;;
       written <- call_ext (f (as_c_void_p (lmp o)) name type count ndata ids c_double
                              (length data)) ;;
       ret_ext (PyArray (mk_carray c_double (store data written)))
     else ret_ext PyNone).

Definition gather_atoms_subset : option string -> Z -> Z -> Z -> list Z -> M_ext pyobj :=
  gather_subset_with lammps_gather_atoms_subset.

Definition gather_subset : option string -> Z -> Z -> Z -> list Z -> M_ext pyobj :=
  gather_subset_with lammps_gather_subset.

(** [scatter_atoms] and [scatter] have the same text up to the entry
    point, and so have [scatter_atoms_subset] and [scatter_subset]. *)
Definition scatter_with
    (f : Z -> option string -> Z -> Z -> carray -> native_ext unit)
    (name : option string) (type count : Z) (data : carray) : M_ext unit :=
  ExceptionCheck_ext
    (o <- lift get ;;
     name <- lift (as_c_char_p name) ;;
     call_ext (f (as_c_void_p (lmp o)) name type count data)).

Definition scatter_atoms : option string -> Z -> Z -> carray -> M_ext unit :=
  scatter_with lammps_scatter_atoms.

Definition scatter : option string -> Z -> Z -> carray -> M_ext unit :=
  scatter_with lammps_scatter.

Definition scatter_subset_with
    (f : Z -> option string -> Z -> Z -> Z -> list Z -> carray -> native_ext unit)
    (name : option string) (type count ndata : Z) (ids : list Z) (data : carray) :
    M_ext unit :=
  ExceptionCheck_ext
    (o <- lift get ;;
     name <- lift (as_c_char_p name) ;;
     call_ext (f (as_c_void_p (lmp o)) name type count ndata ids data)).

Definition scatter_atoms_subset :
    option string -> Z -> Z -> Z -> list Z -> carray -> M_ext unit :=
  scatter_subset_with lammps_scatter_atoms_subset.

Definition scatter_subset : option string -> Z -> Z -> Z -> list Z -> carray -> M_ext unit :=
  scatter_subset_with lammps_scatter_subset.

(** ** Image flags and the accelerator table *)

Definition decode_image_flags (image : Z) : M_ext (list Z) :=
  flags <- lift (new_cells c_int 3) ;;
  written <- call_ext (lammps_decode_image_flags image) ;;
  ret_ext (store flags written).

Definition accelerator_packages : list string :=
  [ "GPU"; "KOKKOS"; "USER-INTEL"; "USER-OMP" ]%string.

Definition accelerator_apis : list string :=
  [ "cuda"; "hip"; "phi"; "pthreads"; "opencl"; "openmp"; "serial" ]%string.

Definition accelerator_precisions : list string :=
  [ "double"; "mixed"; "single" ]%string.

(** [result[p][c] = []] *)
Definition new_settings (p c : string) (result : gmap string (gmap string (list string))) :
    gmap string (gmap string (list string)) :=
  <[p := <[c := []]> (default ∅ (result !! p))]> result.

(** [result[p][c].append(s)] *)
Definition append_setting (p c s : string) (result : gmap string (gmap string (list string))) :
    gmap string (gmap string (list string)) :=
  let d := default ∅ (result !! p) in
  <[p := <[c := default [] (d !! c) ++ [s]]> d]> result.

(** [for s in settings: if lammps_config_accelerator(p,c,s): result[p][c].append(s)] *)
Definition enabled_settings (p c : string) (settings : list string)
    (result : gmap string (gmap string (list string))) :
    M_ext (gmap string (gmap string (list string))) :=
  for_each_ext settings
    (fun s result =>
       r <- call_ext (lammps_config_accelerator p c s) ;;
       if truthy_int r then ret_ext (append_setting p c s result) else ret_ext result)
    result.

Definition accelerator_config : M_ext (gmap string (gmap string (list string))) :=
  for_each_ext accelerator_packages
    (fun p result =>
       let result := <[p := ∅]> result in
       let c := "api"%string in
       let result := new_settings p c result in
       result <- enabled_settings p c accelerator_apis result ;;
       let c := "precision"%string in
       let result := new_settings p c result in
       enabled_settings p c accelerator_precisions result)
    ∅.

Local Close Scope ext_scope.

(** ** Reading the log and the library's answers *)

(** The number of calls of the native destroy entry point in a log. *)
Fixpoint destroy_calls (l : list entry) : nat :=
  match l with
  | [] => 0
  | c :: l' => (if is_lammps_close c then 1 else 0) + destroy_calls l'
  end.

(** What is still to be destroyed: one handle while [opened] is set. *)
Definition owed (m : machine) : nat := if truthy_int (opened (self m)) then 1 else 0.

(** A sequence of releases of one wrapper, in order. *)
Definition releases (rs : list release) : M unit :=
  for_each rs (fun r _ => run_release r) tt.

(** At world [w], the library reports exception support and then, for
    the handle [h], a set error flag. *)
Definition pending (w : W) (h : Z) : bool :=
  let (support, w1) := lib Z lammps_config_has_exceptions w in
  negb (support =? 0) && negb (fst (lib Z (lammps_has_error h) w1) =? 0).

(** The library never reports an error to the shim. *)
Definition error_free : Prop := forall w h, pending w h = false.

(** The entry points the shim itself consults. *)
Definition is_shim_query (c : entry) : bool :=
  match projT2 c with
  | lammps_config_has_exceptions => true
  | lammps_has_error _ => true
  | lammps_get_last_error_message _ _ => true
  | _ => false
  end.

(** The index asked for, when the entry is a name query of one of the
    count-then-enumerate pairs. *)
Definition name_query_index (c : entry) : option Z :=
  match projT2 c with
  | lammps_config_package_name idx _ => Some idx
  | lammps_style_name _ _ idx _ => Some idx
  | lammps_id_name _ _ idx _ => Some idx
  | lammps_plugin_name idx _ => Some idx
  | _ => None
  end.

(** The calls of the native free entry point in a log, by address. *)
Definition freed (c : entry) : option Z :=
  match projT2 c with
  | lammps_free ptr => Some ptr
  | _ => None
  end.

(** A name that fits a buffer of 100 bytes together with its
    terminating NUL. *)
Definition c_name (s : string) : Prop :=
  ~ In NUL (list_ascii_of_string s) /\ (String.length s < 100)%nat.

(** A run that counts, then enumerates: it returns [l], and its new
    calls are the count query followed by calls among which the name
    queries ask for exactly the indices of [range count], in order. *)
Definition enumerated {B} (run : outcome (list B) * machine) (m : machine)
    (count_query : native Z) (count : Z) (l : list B) : Prop :=
  fst run = Return l
  /\ (exists new, calls (snd run) = calls m ++ log count_query :: new
                  /\ omap name_query_index new = range count
                  /\ ~ In count (omap name_query_index new))
  /\ length l = Z.to_nat count.

(** The library stores the name [names idx] for the index [idx],
    whatever the world. *)
Definition named_by (name_query : Z -> native (Z * list ascii)) (names : Z -> string) : Prop :=
  (forall idx, c_name (names idx))
  /\ (forall w idx, snd (fst (lib _ (name_query idx) w)) = c_str (names idx)).

(** [f] takes different values on different indices below [n]. *)
Definition distinct_below {B} (n : Z) (f : Z -> B) : Prop :=
  forall i j, 0 <= i < n -> 0 <= j < n -> f i = f j -> i = j.

(** The machine [available_styles] has reached when it asks for the
    count of a category that is not cached yet: the dictionary has been
    created if need be and the category entered with an empty list. *)
Definition styles_entered (category : string) (m : machine) : machine :=
  mk_machine
    (set_available_styles
       (Some (<[category := []]> (default ∅ (_available_styles (self m))))) (self m))
    (world m) (calls m).

(** An optional list as [create_atoms] hands it to the library: a NULL
    pointer for [None] and for an empty list, else an array of the first
    [n] entries. *)
Definition passed {A} (n : Z) (l : option (list A)) : option (list A) :=
  if truthy_list l then Some (firstn (Z.to_nat n) (default [] l)) else None.

(** [l] has the [n] entries [create_atoms] asks of an optional list. *)
Definition long_enough {A} (n : Z) (l : option (list A)) : Prop :=
  truthy_list l = true -> n <= Z.of_nat (length (default [] l)).

(** [c] relates every machine to the one it leaves, however it ends. *)
Definition respects (R : machine -> machine -> Prop) {A} (c : M A) : Prop :=
  forall m, R m (snd (c m)).

(** From [m] to [m'] the log has grown by calls none of which is the
    native free entry point. *)
Definition nothing_freed (m m' : machine) : Prop :=
  exists q, calls m' = calls m ++ q /\ omap freed q = [].

(** From [m] to [m'] the wrapper kept its handle and its [opened] flag. *)
Definition same_handle (m m' : machine) : Prop :=
  lmp (self m') = lmp (self m) /\ opened (self m') = opened (self m).

(** The data type an extraction works with and the machine in which it
    is known: the data type asked for or, with [LAMMPS_AUTODETECT], the
    answer of the data type query [q]. *)
Definition data_type_in_force (q : native Z) (dtype : option Z) (m : machine) :
    option Z * machine :=
  if py_eq dtype LAMMPS_AUTODETECT
  then (Some (fst (lib Z q (world m))),
        mk_machine (self m) (snd (lib Z q (world m))) (calls m ++ [log q]))
  else (dtype, m).

(** The numeric data types of [extract_global], each with the type of
    the cells its result points to. *)
Definition numeric_global_types : list (Z * ctype) :=
  [ (LAMMPS_INT, c_int32); (LAMMPS_INT64, c_int64); (LAMMPS_DOUBLE, c_double) ].

(** The data type is one of the four [extract_global] tells apart. *)
Definition known_global_type (dtype : option Z) : bool :=
  py_eq dtype (Some LAMMPS_INT) || py_eq dtype (Some LAMMPS_INT64)
  || py_eq dtype (Some LAMMPS_DOUBLE) || py_eq dtype (Some LAMMPS_STRING).

(** These four constants are different integers. *)
Definition global_types_differ : Prop :=
  LAMMPS_INT64 <> LAMMPS_INT /\ LAMMPS_DOUBLE <> LAMMPS_INT /\ LAMMPS_DOUBLE <> LAMMPS_INT64
  /\ LAMMPS_STRING <> LAMMPS_INT /\ LAMMPS_STRING <> LAMMPS_INT64
  /\ LAMMPS_STRING <> LAMMPS_DOUBLE.

(** The gather operations, each with the entry point it calls. *)
Definition gathers :
    list ((option string -> Z -> Z -> M pyobj)
          * (Z -> option string -> Z -> Z -> forall t : ctype, nat -> native (list (pyval t)))) :=
  [ (gather_atoms, lammps_gather_atoms);
    (gather_atoms_concat, lammps_gather_atoms_concat);
    (gather, lammps_gather);
    (gather_concat, lammps_gather_concat) ].

(** The two type tags of a gather, each with the type of the cells. *)
Definition gather_tags : list (Z * ctype) := [ (0, c_int); (1, c_double) ].

(** The subset gathers, each with the entry point it calls. *)
Definition subset_gathers :
    list ((option string -> Z -> Z -> Z -> list Z -> M_ext pyobj)
          * (Z -> option string -> Z -> Z -> Z -> list Z ->
             forall t : ctype, nat -> native_ext (list (pyval t)))) :=
  [ (gather_atoms_subset, lammps_gather_atoms_subset);
    (gather_subset, lammps_gather_subset) ].

(** The scatters of all atoms, each with the entry point it calls. *)
Definition scatters :
    list ((option string -> Z -> Z -> carray -> M_ext unit)
          * (Z -> option string -> Z -> Z -> carray -> native_ext unit)) :=
  [ (scatter_atoms, lammps_scatter_atoms); (scatter, lammps_scatter) ].

(** The same for the scatters of a subset. *)
Definition subset_scatters :
    list ((option string -> Z -> Z -> Z -> list Z -> carray -> M_ext unit)
          * (Z -> option string -> Z -> Z -> Z -> list Z -> carray -> native_ext unit)) :=
  [ (scatter_atoms_subset, lammps_scatter_atoms_subset);
    (scatter_subset, lammps_scatter_subset) ].

(** The queries of one category of one accelerator package. *)
Definition setting_queries (p c : string) (settings : list string) : list entry_ext :=
  map (fun s => log_ext (lammps_config_accelerator p c s)) settings.

(** The queries of [accelerator_config], package by package: the seven
    of the category ['api'], then the three of ['precision']. *)
Definition accelerator_queries : list entry_ext :=
  flat_map (fun p => setting_queries p "api" accelerator_apis
                     ++ setting_queries p "precision" accelerator_precisions)
           accelerator_packages.

(** The entry of a package in the table, for a library that answers
    [enabled]. *)
Definition accelerator_entry (enabled : string -> string -> string -> Z) (p : string) :
    gmap string (list string) :=
  <["precision"%string :=
      List.filter (fun s => truthy_int (enabled p "precision"%string s)) accelerator_precisions]>
    (<["api"%string :=
         List.filter (fun s => truthy_int (enabled p "api"%string s)) accelerator_apis]> ∅).

(** * Properties *)

Lemma length_value (sb : list ascii) : (length (value sb) <= length sb)%nat.
Proof.
  induction sb as [|c sb IH]; simpl; [lia|].
  destruct (Ascii.eqb c NUL); simpl; lia.
Qed.

Lemma length_lstrip (l : list ascii) : (length (lstrip l) <= length l)%nat.
Proof.
  induction l as [|c l IH]; simpl; [lia|].
  destruct (isspace c); simpl; lia.
Qed.

Lemma length_store {A} (sb written : list A) : length (store sb written) = length sb.
Proof.
  unfold store. rewrite length_firstn, length_app, length_skipn. lia.
Qed.

Lemma length_of_string (l : list ascii) : String.length (string_of_list_ascii l) = length l.
Proof. induction l as [|c l IH]; simpl; congruence. Qed.

Lemma length_strip_decode (b : list ascii) :
  (String.length (strip (decode b)) <= length b)%nat.
Proof.
  unfold strip, decode. rewrite list_ascii_of_string_of_list_ascii, length_of_string.
  rewrite length_rev.
  etransitivity; [apply length_lstrip|]. rewrite length_rev. apply length_lstrip.
Qed.

(** The message the shim reads fits the buffer it allocated. *)
Lemma error_message_bounded (written : list ascii) :
  (String.length (strip (decode (value (store (create_string_buffer 100) written)))) <= 100)%nat.
Proof.
  etransitivity; [apply length_strip_decode|].
  etransitivity; [apply length_value|].
  rewrite length_store. unfold create_string_buffer. rewrite repeat_length. lia.
Qed.

Arguments create_string_buffer : simpl never.
Arguments store : simpl never.
Arguments value : simpl never.
Arguments strip : simpl never.
Arguments decode : simpl never.


Lemma call_eq {R} (e : native R) (m : machine) :
  call e m =
  (Return (fst (lib R e (world m))),
   mk_machine (self m) (snd (lib R e (world m))) (calls m ++ [log e])).
Proof. unfold call. destruct (lib R e (world m)); reflexivity. Qed.

Lemma destroy_calls_app (l l' : list entry) :
  destroy_calls (l ++ l') = (destroy_calls l + destroy_calls l')%nat.
Proof. induction l as [|c l IH]; simpl; [reflexivity | rewrite IH; lia]. Qed.

(** No release raises, and each one either leaves the log alone or makes
    the one destroy call that was owed. *)
Lemma run_release_owed (r : release) (m : machine) :
  fst (run_release r m) = Return tt
  /\ (destroy_calls (calls (snd (run_release r m))) + owed (snd (run_release r m))
      <= destroy_calls (calls m) + owed m)%nat.
Proof.
  unfold owed.
  destruct r; unfold run_release, close, __del__, finalize, bind, get, ret, modify;
    cbn [fst snd self]; rewrite ?call_eq.
  - destruct (truthy_int (opened (self m))) eqn:Ho; rewrite ?call_eq;
      cbn; rewrite ?destroy_calls_app; simpl; split; trivial; lia.
  - destruct (truthy_handle (lmp (self m))), (truthy_int (opened (self m))) eqn:Ho;
      cbn; rewrite ?call_eq; cbn; rewrite ?Ho, ?destroy_calls_app; simpl;
      split; trivial; lia.
  - destruct (truthy_int (opened (self m))) eqn:Ho;
      repeat (rewrite call_eq; cbn); cbn;
      repeat (rewrite call_eq; cbn); rewrite ?destroy_calls_app; simpl;
      (split; [f_equal; match goal with |- ?u = () => destruct u end; reflexivity | lia]).
Qed.

Lemma releases_owed (rs : list release) (m : machine) :
  (destroy_calls (calls (snd (releases rs m))) + owed (snd (releases rs m))
   <= destroy_calls (calls m) + owed m)%nat.
Proof.
  unfold releases. revert m.
  induction rs as [|r rs IH]; intros m; cbn [for_each]; [unfold ret; simpl; lia|].
  unfold bind. destruct (run_release_owed r m) as [Hret Hle].
  destruct (run_release r m) as [[[]|e] m1]; cbn [fst snd] in *; [|discriminate].
  specialize (IH m1). lia.
Qed.

Lemma close_clears (m : machine) :
  lmp (self (snd (close m))) = None /\ opened (self (snd (close m))) = 0.
Proof.
  unfold close, bind, get, ret, modify; cbn [fst snd self].
  destruct (truthy_int (opened (self m))); rewrite ?call_eq; split; reflexivity.
Qed.

(** C3. [close] is idempotent: two calls leave the same machine (object,
    world and log) as one.  Over any sequence of [close], [__del__] and
    [finalize], the native destroy entry point is called at most once,
    and not at all when the wrapper was not [opened]; a single [close]
    of an opened wrapper calls it exactly once, on the handle. *)
Theorem close_idempotent (m : machine) :
  (close ;; close) m = close m
  /\ (forall rs : list release,
        (destroy_calls (calls (snd (releases rs m)))
         <= destroy_calls (calls m) + (if truthy_int (opened (self m)) then 1 else 0))%nat)
  /\ calls (snd (close m)) =
       calls m ++ (if truthy_int (opened (self m))
                   then [log (lammps_close (as_c_void_p (lmp (self m))))]
                   else [])
  /\ lmp (self (snd (close m))) = None
  /\ opened (self (snd (close m))) = 0.
Proof.
  split; [|split; [|split; [|split]]].
  - unfold close, bind, get, ret, modify; cbn [fst snd self].
    destruct (truthy_int (opened (self m))); rewrite ?call_eq; reflexivity.
  - intros rs. pose proof (releases_owed rs m) as H. unfold owed in H at 2. lia.
  - unfold close, bind, get, ret, modify; cbn [fst snd self].
    destruct (truthy_int (opened (self m))); rewrite ?call_eq; cbn;
      rewrite ?app_nil_r; reflexivity.
  - apply close_clears.
  - apply close_clears.
Qed.

Lemma falsy_text (t : option string) :
  truthy_text t = false -> t = None \/ t = Some ""%string.
Proof.
  destruct t as [s|]; [|now left]. simpl. intros H. right.
  destruct (String.eqb_spec s ""); [congruence | discriminate].
Qed.


Lemma is_category_false (category : string) :
  ~ In category categories -> is_category category = false.
Proof.
  intros H. unfold is_category.
  destruct (existsb (String.eqb category) categories) eqn:E; [|reflexivity].
  apply existsb_exists in E. destruct E as [c [Hin Heq]].
  apply String.eqb_eq in Heq. subst c. contradiction.
Qed.

(** C10. For a category that is not one of the seven known ID
    categories, [available_ids] returns the empty list and leaves the
    machine as it was: neither the count query nor a name query is made. *)
Theorem available_ids_unknown_category (category : string) (m : machine) :
  ~ In category categories ->
  available_ids category m = (Return [], m).
Proof.
  intros H. unfold available_ids. rewrite (is_category_false _ H). reflexivity.
Qed.

Lemma array_of_slice_short {A} (n : Z) (src : list A) (m : machine) :
  Z.of_nat (length src) < n -> array_of_slice n src m = (Return None, m).
Proof.
  intros H. unfold array_of_slice.
  destruct (Z.ltb_spec n 0); [lia|].
  rewrite length_firstn.
  destruct (Z.eqb_spec (Z.of_nat (Nat.min (Z.to_nat n) (length src))) n); [lia | reflexivity].
Qed.

Lemma array_of_slice_nonneg {A} (n : Z) (src : list A) (m : machine) :
  0 <= n -> exists r, array_of_slice n src m = (Return r, m).
Proof.
  intros H. unfold array_of_slice.
  destruct (Z.ltb_spec n 0); [lia|].
  destruct (_ =? n); eexists; reflexivity.
Qed.

Lemma optional_array_of_slice_short {A} (n : Z) (src : option (list A)) (m : machine) :
  truthy_list src = true -> Z.of_nat (length (default [] src)) < n ->
  optional_array_of_slice n src m = (Return None, m).
Proof.
  intros Ht H. unfold optional_array_of_slice. rewrite Ht.
  unfold bind. rewrite (array_of_slice_short _ _ _ H). reflexivity.
Qed.

Lemma optional_array_of_slice_nonneg {A} (n : Z) (src : option (list A)) (m : machine) :
  0 <= n -> exists r, optional_array_of_slice n src m = (Return r, m).
Proof.
  intros H. unfold optional_array_of_slice.
  destruct (truthy_list src); [|eexists; reflexivity].
  unfold bind. destruct (array_of_slice_nonneg n (default [] src) m H) as [r ->].
  eexists; reflexivity.
Qed.


(** *** The shim when no error is pending *)

Lemma exit_self (m : machine) : self (snd (__exit__ m)) = self m.
Proof.
  unfold __exit__, has_exceptions, _lammps_exception, bind, get, ret, raise.
  rewrite call_eq; cbn. destruct (negb _); [|reflexivity].
  rewrite call_eq; cbn. destruct (truthy_int _); [|reflexivity].
  rewrite call_eq; cbn. destruct (fst (lib _ _ _)) as [error_type written]; cbn.
  destruct (error_type =? 2); reflexivity.
Qed.

Lemma exit_calls (m : machine) :
  exists q, calls (snd (__exit__ m)) = calls m ++ q /\ forallb is_shim_query q = true.
Proof.
  unfold __exit__, has_exceptions, _lammps_exception, bind, get, ret, raise.
  rewrite call_eq; cbn. destruct (negb _); [|eexists; split; [reflexivity|reflexivity]].
  rewrite call_eq; cbn. destruct (truthy_int _);
    [|eexists; split; [rewrite <- app_assoc; reflexivity|reflexivity]].
  rewrite call_eq; cbn. destruct (fst (lib _ _ _)) as [error_type written]; cbn.
  destruct (error_type =? 2); cbn;
    (eexists; split; [rewrite <- !app_assoc; reflexivity|reflexivity]).
Qed.

Lemma exit_quiet (m : machine) :
  pending (world m) (as_c_void_p (lmp (self m))) = false ->
  fst (__exit__ m) = Return tt.
Proof.
  unfold pending, __exit__, has_exceptions, _lammps_exception, bind, get, ret, raise, truthy_int.
  rewrite call_eq; cbn.
  destruct (lib Z lammps_config_has_exceptions (world m)) as [support w1]; cbn.
  destruct (negb (support =? 0)); cbn; [|reflexivity].
  rewrite call_eq; cbn. intros ->. reflexivity.
Qed.

Lemma exit_fires (m : machine) :
  pending (world m) (as_c_void_p (lmp (self m))) = true ->
  exists msg, fst (__exit__ m) = Raise (MPIAbortException msg)
              \/ fst (__exit__ m) = Raise (Exception msg).
Proof.
  unfold pending, __exit__, has_exceptions, _lammps_exception, bind, get, ret, raise, truthy_int.
  rewrite call_eq; cbn.
  destruct (lib Z lammps_config_has_exceptions (world m)) as [support w1]; cbn.
  destruct (negb (support =? 0)); cbn; [|discriminate].
  rewrite call_eq; cbn. intros ->.
  rewrite call_eq; cbn. destruct (fst (lib _ _ _)) as [error_type written]; cbn.
  destruct (error_type =? 2); cbn; eexists; [left|right]; reflexivity.
Qed.

Lemma ExceptionCheck_quiet {A} (body : M A) (m : machine) :
  pending (world (snd (body m))) (as_c_void_p (lmp (self (snd (body m))))) = false ->
  ExceptionCheck body m = (fst (body m), snd (__exit__ (snd (body m)))).
Proof.
  intros H. apply exit_quiet in H. unfold ExceptionCheck.
  destruct (body m) as [r m1]; cbn [fst snd] in *.
  destruct (__exit__ m1) as [[[]|e] m2]; cbn [fst snd] in *; [reflexivity|discriminate].
Qed.

Lemma ExceptionCheck_fires {A} (body : M A) (m : machine) :
  pending (world (snd (body m))) (as_c_void_p (lmp (self (snd (body m))))) = true ->
  exists msg, fst (ExceptionCheck body m) = Raise (MPIAbortException msg)
              \/ fst (ExceptionCheck body m) = Raise (Exception msg).
Proof.
  intros H. apply exit_fires in H. destruct H as [msg H]. exists msg.
  unfold ExceptionCheck.
  destruct (body m) as [r m1]; cbn [fst snd] in *.
  destruct (__exit__ m1) as [[[]|e] m2]; cbn [fst snd] in *;
    destruct H as [H|H]; try discriminate; [left|right]; congruence.
Qed.

Lemma ExceptionCheck_self {A} (body : M A) (m : machine) :
  self (snd (ExceptionCheck body m)) = self (snd (body m)).
Proof.
  unfold ExceptionCheck. destruct (body m) as [r m1]; cbn [snd].
  pose proof (exit_self m1) as H.
  destruct (__exit__ m1) as [[[]|e] m2]; exact H.
Qed.

Lemma ExceptionCheck_calls {A} (body : M A) (m : machine) :
  exists q, calls (snd (ExceptionCheck body m)) = calls (snd (body m)) ++ q
            /\ forallb is_shim_query q = true.
Proof.
  unfold ExceptionCheck. destruct (body m) as [r m1]; cbn [snd].
  pose proof (exit_calls m1) as H.
  destruct (__exit__ m1) as [[[]|e] m2]; exact H.
Qed.

Lemma exit_raises_translated (m : machine) (e : exn) :
  fst (__exit__ m) = Raise e ->
  exists msg, e = MPIAbortException msg \/ e = Exception msg.
Proof.
  unfold __exit__, has_exceptions, _lammps_exception, bind, get, ret, raise.
  rewrite call_eq; cbn. destruct (negb _); [|discriminate].
  rewrite call_eq; cbn. destruct (truthy_int _); [|discriminate].
  rewrite call_eq; cbn. destruct (fst (lib _ _ _)) as [error_type written]; cbn.
  destruct (error_type =? 2); cbn; intros [= <-]; eexists; [left|right]; reflexivity.
Qed.

(** Around a statement that returns, the only exceptions are the two
    the shim translates. *)
Lemma ExceptionCheck_raises_translated {A} (body : M A) (m : machine) (e : exn) :
  raised (fst (body m)) = false ->
  fst (ExceptionCheck body m) = Raise e ->
  exists msg, e = MPIAbortException msg \/ e = Exception msg.
Proof.
  unfold ExceptionCheck. destruct (body m) as [r m1]; cbn [fst].
  intros Hr. pose proof (exit_raises_translated m1) as H.
  destruct (__exit__ m1) as [[[]|e'] m2]; cbn [fst] in *.
  - intros ->. discriminate.
  - intros [= <-]. apply H. reflexivity.
Qed.

Lemma truthy_nonempty (text : string) : text <> ""%string -> truthy_text (Some text) = true.
Proof.
  intros H. simpl. destruct (String.eqb_spec text ""); [contradiction | reflexivity].
Qed.

(** A wrapped native call: its log and, when the library is free of
    errors, its outcome. *)
Lemma wrapped_call_calls {R A} (e : native R) (k : R -> A) (m : machine) :
  exists q, calls (snd (ExceptionCheck (r <- call e ;; ret (k r)) m)) = calls m ++ log e :: q
            /\ forallb is_shim_query q = true.
Proof.
  destruct (ExceptionCheck_calls (r <- call e ;; ret (k r)) m) as [q [Hq Hs]].
  exists q. split; [|exact Hs]. rewrite Hq.
  unfold bind, ret. rewrite call_eq. cbn. rewrite <- app_assoc. reflexivity.
Qed.

Lemma wrapped_call_error_free {R A} (e : native R) (k : R -> A) (m : machine) :
  error_free ->
  fst (ExceptionCheck (r <- call e ;; ret (k r)) m) = Return (k (fst (lib R e (world m)))).
Proof.
  intros Hfree. rewrite ExceptionCheck_quiet by apply Hfree.
  unfold bind, ret. rewrite call_eq. reflexivity.
Qed.

Lemma bare_call_calls {R} (e : native R) (m : machine) :
  exists q, calls (snd (ExceptionCheck (call e) m)) = calls m ++ log e :: q
            /\ forallb is_shim_query q = true.
Proof.
  destruct (ExceptionCheck_calls (call e) m) as [q [Hq Hs]].
  exists q. split; [|exact Hs]. rewrite Hq.
  rewrite call_eq. cbn. rewrite <- app_assoc. reflexivity.
Qed.

Lemma bare_call_error_free {R} (e : native R) (m : machine) :
  error_free ->
  fst (ExceptionCheck (call e) m) = Return (fst (lib R e (world m))).
Proof.
  intros Hfree. rewrite ExceptionCheck_quiet by apply Hfree.
  rewrite call_eq. reflexivity.
Qed.


(** *** Extraction of names the library does not know *)

Lemma null_pointer_falsy (t : ctype) (p : pyval (POINTER t)) :
  truthy_c (POINTER t) p = false -> (address p =? 0) = true.
Proof. simpl. intros H. apply negb_false_iff in H. exact H. Qed.

Lemma getitem_null (t : ctype) (p : pyval (POINTER t)) (i : Z) (m : machine) :
  truthy_c (POINTER t) p = false ->
  getitem (POINTER t) p i m = (Raise (ValueError "NULL pointer access"), m).
Proof.
  intros H. apply null_pointer_falsy in H.
  cbn [getitem]. unfold bind, index. rewrite H. reflexivity.
Qed.

Lemma as_c_char_p_ok (name : option string) (m : machine) :
  name <> Some ""%string -> as_c_char_p name m = (Return name, m).
Proof.
  intros H. destruct name as [s|]; [|reflexivity]. unfold as_c_char_p.
  rewrite truthy_nonempty; [reflexivity|congruence].
Qed.

Lemma new_cells_ok (t : ctype) (n : Z) (m : machine) :
  0 <= n -> new_cells t n m = (Return (repeat (zero t) (Z.to_nat n)), m).
Proof.
  intros H. unfold new_cells. destruct (Z.ltb_spec n 0); [lia | reflexivity].
Qed.

Lemma extract_atom_unknown (name : string) (m : machine) :
  name <> ""%string ->
  (forall w h restype,
     truthy_c restype (fst (lib _ (lammps_extract_atom h name restype) w)) = false) ->
  forall dtype, fst (extract_atom (Some name) dtype m) = Return PyNone.
Proof.
  intros Hname Hnull dtype.
  unfold extract_atom, extract_atom_datatype. rewrite (truthy_nonempty _ Hname).
  unfold bind, get, ret. cbn [from_option]. unfold Datatypes.id.
  destruct (py_eq dtype LAMMPS_AUTODETECT); rewrite ?call_eq; cbn [fst snd];
    (destruct (extract_atom_restype _) as [restype|]; [|reflexivity]);
    rewrite call_eq; cbn [fst snd]; rewrite Hnull; reflexivity.
Qed.

Lemma extract_global_unknown (name : string) (m : machine) :
  name <> ""%string ->
  name <> "respa_dt"%string ->
  (forall w h restype,
     truthy_c restype (fst (lib _ (lammps_extract_global h name restype) w)) = false) ->
  forall dtype, fst (extract_global (Some name) dtype m) = Return PyNone.
Proof.
  intros Hname Hrespa Hnull dtype.
  unfold extract_global, extract_global_from, extract_global_datatype.
  rewrite (truthy_nonempty _ Hname).
  cbn [from_option]. unfold Datatypes.id.
  destruct (String.eqb_spec name "respa_dt") as [E|_]; [contradiction|].
  unfold bind, get, ret, modify.
  destruct (py_eq dtype LAMMPS_AUTODETECT); rewrite ?call_eq; cbn [fst snd];
    destruct (dict_get vec_dict name); cbn [fst snd];
    repeat (match goal with
            | |- context [if py_eq ?a ?b then _ else _] => destruct (py_eq a b)
            end);
    cbn [fst snd self world calls]; rewrite call_eq; cbn [fst snd];
    rewrite Hnull; reflexivity.
Qed.

(** C4 (the code departs from it for computes and fixes). Let the
    library not know [name] (it answers every extraction query about it
    with a NULL pointer) and report no error.  Then [extract_global]
    ([respa_dt], whose length is another query, left aside),
    [extract_atom] and [extract_variable] return [None].  But
    [extract_compute] and [extract_fix], asked for a global scalar, do
    not: the wrapper reads [ptr[0]] and raises [ValueError]; and asked
    for a global vector, [extract_compute] returns the NULL pointer
    object. *)
Theorem extraction_of_unknown_name (name : string) (m : machine) :
  name <> ""%string ->
  error_free ->
  (forall w h restype,
     truthy_c restype (fst (lib _ (lammps_extract_global h name restype) w)) = false) ->
  (forall w h restype,
     truthy_c restype (fst (lib _ (lammps_extract_atom h name restype) w)) = false) ->
  (forall w h group restype,
     truthy_c restype (fst (lib _ (lammps_extract_variable h name group restype) w)) = false) ->
  (forall w h style type restype,
     truthy_c restype (fst (lib _ (lammps_extract_compute h name style type restype) w))
     = false) ->
  (forall w h style type nrow ncol restype,
     truthy_c restype
       (fst (lib _ (lammps_extract_fix h name style type nrow ncol restype) w)) = false) ->
  (forall dtype, name <> "respa_dt"%string ->
                 fst (extract_global (Some name) dtype m) = Return PyNone)
  /\ (forall dtype, fst (extract_atom (Some name) dtype m) = Return PyNone)
  /\ (forall group, group <> Some ""%string ->
                    fst (extract_variable (Some name) group LMP_VAR_EQUAL m) = Return PyNone)
  /\ fst (extract_compute (Some name) LMP_STYLE_GLOBAL LMP_TYPE_SCALAR m) =
       Raise (ValueError "NULL pointer access")
  /\ (forall nrow ncol,
        fst (extract_fix (Some name) LMP_STYLE_GLOBAL LMP_TYPE_SCALAR nrow ncol m) =
          Raise (ValueError "NULL pointer access"))
  /\ (LMP_TYPE_VECTOR <> LMP_TYPE_SCALAR ->
      exists p, fst (extract_compute (Some name) LMP_STYLE_GLOBAL LMP_TYPE_VECTOR m) =
                  Return (PyPointer c_double p)
                /\ address p = 0).
Proof.
  intros Hid Hfree Hglobal Hatom Hvariable Hcompute Hfix.
  split; [|split; [|split; [|split; [|split]]]].
  - intros dtype Hrespa. apply extract_global_unknown; assumption.
  - apply extract_atom_unknown; assumption.
  - intros group Hgroup.
    unfold extract_variable. rewrite (truthy_nonempty _ Hid), Z.eqb_refl.
    unfold bind at 1 2, get; cbn [fst snd from_option]; unfold Datatypes.id.
    rewrite ExceptionCheck_quiet by apply Hfree.
    unfold bind. rewrite (as_c_char_p_ok _ _ Hgroup). rewrite call_eq; cbn [fst snd].
    rewrite Hvariable. reflexivity.
  - unfold extract_compute. rewrite (truthy_nonempty _ Hid), !Z.eqb_refl.
    unfold compute_ptr, bind, get; cbn [fst snd default].
    rewrite ExceptionCheck_quiet by apply Hfree.
    rewrite call_eq; cbn [fst snd].
    rewrite getitem_null by apply Hcompute. reflexivity.
  - intros nrow ncol.
    unfold extract_fix. rewrite (truthy_nonempty _ Hid), !Z.eqb_refl.
    cbn [orb].
    unfold fix_ptr, bind, get; cbn [fst snd default].
    rewrite ExceptionCheck_quiet by apply Hfree.
    rewrite call_eq; cbn [fst snd].
    rewrite getitem_null by apply Hfix. reflexivity.
  - intros Hne.
    unfold extract_compute. rewrite (truthy_nonempty _ Hid), !Z.eqb_refl.
    destruct (Z.eqb_spec LMP_TYPE_VECTOR LMP_TYPE_SCALAR) as [E|_]; [contradiction|].
    unfold compute_ptr, bind, get; cbn [fst snd default].
    rewrite ExceptionCheck_quiet by apply Hfree.
    rewrite call_eq; cbn [fst snd].
    eexists; split; [reflexivity|].
    apply Z.eqb_eq, null_pointer_falsy, Hcompute.
Qed.

(** *** Buffers the caller owns *)

Lemma omap_shim_freed (q : list entry) :
  forallb is_shim_query q = true -> omap freed q = [].
Proof.
  induction q as [|[R e] q IH]; [reflexivity|].
  cbn [forallb]. intros H. apply andb_true_iff in H. destruct H as [He Hq].
  destruct e; try discriminate He; simpl; apply (IH Hq).
Qed.

(** The loop [for i in range(nlocal): result[i] = ptr[i]] on a non-NULL
    pointer touches neither the object nor the library. *)
Lemma copy_loop (ptr : pointer double) (idxs : list Z) (result : list double) (m : machine) :
  (address ptr =? 0) = false ->
  for_each idxs
    (fun i (result : list double) => x <- index ptr i ;; ret (<[Z.to_nat i := x]> result))
    result m
  = (Return (fold_left (fun r i => <[Z.to_nat i := pointee ptr i]> r) idxs result), m).
Proof.
  intros Hptr.
  assert (Hidx : forall i m', index ptr i m' = (Return (pointee ptr i), m')).
  { intros i m'. unfold index. rewrite Hptr. reflexivity. }
  revert result.
  induction idxs as [|i idxs IH]; intros result; [reflexivity|].
  cbn [for_each fold_left]. unfold bind at 1 2. rewrite Hidx. unfold ret at 1.
  apply IH.
Qed.

(** Written at every index of [range n], an array of [n] cells holds
    the values read, in order. *)
Lemma fill_range {A} (f : Z -> A) (z : A) (n k : nat) :
  (k <= n)%nat ->
  fold_left (fun r i => <[Z.to_nat i := f i]> r) (seqZ 0 (Z.of_nat k)) (repeat z n)
  = map f (seqZ 0 (Z.of_nat k)) ++ repeat z (n - k).
Proof.
  induction k as [|k IH]; intros Hk.
  - cbn. rewrite Nat.sub_0_r. reflexivity.
  - rewrite seqZ_S, fold_left_app, IH by lia. cbn [fold_left].
    rewrite Z.add_0_l, Nat2Z.id.
    rewrite insert_app_r_alt by (rewrite length_map, length_seqZ; lia).
    rewrite length_map, length_seqZ, Nat2Z.id, Nat.sub_diag.
    replace (n - k)%nat with (S (n - S k)) by lia.
    rewrite map_app, <- app_assoc. reflexivity.
Qed.

Lemma fill_all {A} (f : Z -> A) (z : A) (n : Z) :
  0 <= n ->
  fold_left (fun r i => <[Z.to_nat i := f i]> r) (range n) (repeat z (Z.to_nat n))
  = map f (range n).
Proof.
  intros Hn. unfold range. rewrite <- (Z2Nat.id n) at 1 3 by exact Hn.
  rewrite fill_range by lia. rewrite Nat.sub_diag, app_nil_r. reflexivity.
Qed.

(** [extract_variable] for an atom-style variable, once [extract_global]
    has returned the number of local atoms. *)
Lemma extract_variable_atom_run (id : string) (group : option string) (nlocal : Z)
    (m m1 : machine) :
  id <> ""%string ->
  group <> Some ""%string ->
  error_free ->
  LMP_VAR_ATOM <> LMP_VAR_EQUAL ->
  0 <= nlocal ->
  extract_global (Some "nlocal"%string) LAMMPS_AUTODETECT m = (Return (PyInt nlocal), m1) ->
  let ptr :=
    fst (lib _ (lammps_extract_variable (as_c_void_p (lmp (self m1))) id group
                                        (POINTER c_double))
             (world m1)) in
  exists q, calls (snd (extract_variable (Some id) group LMP_VAR_ATOM m)) = calls m1 ++ q
    /\ if address ptr =? 0
       then fst (extract_variable (Some id) group LMP_VAR_ATOM m) = Return PyNone
            /\ omap freed q = []
       else fst (extract_variable (Some id) group LMP_VAR_ATOM m) =
              Return (PyArray (mk_carray c_double (map (pointee ptr) (range nlocal))))
            /\ omap freed q = [address ptr].
Proof.
  intros Hid Hgroup Hfree Hne Hn Hglobal ptr.
  set (e := lammps_extract_variable (as_c_void_p (lmp (self m1))) id group (POINTER c_double))
    in *.
  set (me := snd (__exit__ (mk_machine (self m1) (snd (lib _ e (world m1)))
                                       (calls m1 ++ [log e])))).
  assert (Hrun :
    extract_variable (Some id) group LMP_VAR_ATOM m =
    if address ptr =? 0 then (Return PyNone, me)
    else (Return (PyArray (mk_carray c_double (map (pointee ptr) (range nlocal)))),
          mk_machine (self me) (snd (lib _ (lammps_free (address ptr)) (world me)))
                     (calls me ++ [log (lammps_free (address ptr))]))).
  { unfold extract_variable. rewrite (truthy_nonempty _ Hid).
    destruct (Z.eqb_spec LMP_VAR_ATOM LMP_VAR_EQUAL) as [E|_]; [contradiction|].
    rewrite Z.eqb_refl.
    cbn [from_option]; unfold Datatypes.id.
    unfold bind at 1. rewrite Hglobal.
    unfold bind at 1. cbn [new_cells_of]. rewrite (new_cells_ok _ _ _ Hn).
    unfold bind at 1, get.
    unfold bind at 1. rewrite ExceptionCheck_quiet by apply Hfree.
    match goal with |- context [bind (as_c_char_p group) ?k m1] =>
      assert (Hbody : bind (as_c_char_p group) k m1 = call e m1)
        by (unfold bind; rewrite (as_c_char_p_ok _ _ Hgroup); reflexivity);
      rewrite Hbody; clear Hbody
    end.
    rewrite call_eq; cbn [fst snd].
    fold ptr me. cbn [truthy_c range_of].
    destruct (address ptr =? 0) eqn:Hptr; cbn [negb]; [reflexivity|].
    unfold bind at 1, ret at 1.
    unfold bind at 1. rewrite (copy_loop _ _ _ _ Hptr).
    unfold bind, ret. rewrite call_eq; cbn [fst snd].
    rewrite fill_all by exact Hn. reflexivity. }
  rewrite Hrun. clear Hrun.
  destruct (exit_calls (mk_machine (self m1) (snd (lib _ e (world m1))) (calls m1 ++ [log e])))
    as [q [Hq Hs]].
  fold me in Hq. cbn [calls] in Hq.
  destruct (address ptr =? 0); cbn [fst snd calls].
  - exists (log e :: q). rewrite Hq, <- app_assoc.
    split; [reflexivity|]. split; [reflexivity|].
    simpl. apply omap_shim_freed, Hs.
  - exists (log e :: q ++ [log (lammps_free (address ptr))]).
    rewrite Hq, <- !app_assoc. split; [reflexivity|].
    split; [reflexivity|].
    simpl. rewrite omap_app, (omap_shim_freed _ Hs). reflexivity.
Qed.

(** C7 (the code departs from it in the NULL case of [extract_fix]).
    With a library that reports no error: for a global scalar, vector or
    array value of a fix, and for an equal-style variable, a non-NULL
    result is read into a Python float and the native free entry point is
    then called exactly once, on that pointer; for an atom-style
    variable the [nlocal] values are copied into a new array of doubles
    before that one call.  On a NULL result no free is made;
    [extract_variable] returns [None], but [extract_fix] reads [ptr[0]]
    first and raises [ValueError]. *)
Theorem owned_result_is_freed_once (id : string) (group : option string)
    (type nrow ncol : Z) (m : machine) :
  id <> ""%string ->
  group <> Some ""%string ->
  error_free ->
  type = LMP_TYPE_SCALAR \/ type = LMP_TYPE_VECTOR \/ type = LMP_TYPE_ARRAY ->
  let h := as_c_void_p (lmp (self m)) in
  let fix_result :=
    fst (lib _ (lammps_extract_fix h id LMP_STYLE_GLOBAL type nrow ncol (POINTER c_double))
             (world m)) in
  let variable_result :=
    fst (lib _ (lammps_extract_variable h id group (POINTER c_double)) (world m)) in
  (exists q, calls (snd (extract_fix (Some id) LMP_STYLE_GLOBAL type nrow ncol m)) = calls m ++ q
     /\ if address fix_result =? 0
        then fst (extract_fix (Some id) LMP_STYLE_GLOBAL type nrow ncol m) =
               Raise (ValueError "NULL pointer access")
             /\ omap freed q = []
        else fst (extract_fix (Some id) LMP_STYLE_GLOBAL type nrow ncol m) =
               Return (PyFloat (pointee fix_result 0))
             /\ omap freed q = [address fix_result])
  /\ (exists q, calls (snd (extract_variable (Some id) group LMP_VAR_EQUAL m)) = calls m ++ q
        /\ if address variable_result =? 0
           then fst (extract_variable (Some id) group LMP_VAR_EQUAL m) = Return PyNone
                /\ omap freed q = []
           else fst (extract_variable (Some id) group LMP_VAR_EQUAL m) =
                  Return (PyFloat (pointee variable_result 0))
                /\ omap freed q = [address variable_result])
  /\ (LMP_VAR_ATOM <> LMP_VAR_EQUAL ->
      forall (nlocal : Z) (m1 : machine),
        0 <= nlocal ->
        extract_global (Some "nlocal"%string) LAMMPS_AUTODETECT m = (Return (PyInt nlocal), m1) ->
        let atom_result :=
          fst (lib _ (lammps_extract_variable (as_c_void_p (lmp (self m1))) id group
                                              (POINTER c_double))
                   (world m1)) in
        exists q, calls (snd (extract_variable (Some id) group LMP_VAR_ATOM m)) = calls m1 ++ q
          /\ if address atom_result =? 0
             then fst (extract_variable (Some id) group LMP_VAR_ATOM m) = Return PyNone
                  /\ omap freed q = []
             else fst (extract_variable (Some id) group LMP_VAR_ATOM m) =
                    Return (PyArray (mk_carray c_double
                                       (map (pointee atom_result) (range nlocal))))
                  /\ omap freed q = [address atom_result]).
Proof.
  intros Hid Hgroup Hfree Htype h fix_result variable_result.
  assert (Hin : (type =? LMP_TYPE_SCALAR) || (type =? LMP_TYPE_VECTOR) || (type =? LMP_TYPE_ARRAY)
                = true).
  { destruct Htype as [-> | [-> | ->]]; rewrite Z.eqb_refl, ?orb_true_r; reflexivity. }
  assert (Hg : as_c_char_p group = ret group).
  { destruct group as [g|]; [|reflexivity]. unfold as_c_char_p.
    rewrite truthy_nonempty; [reflexivity|congruence]. }
  split; [|split].
  3: { intros Hne nlocal m1 Hn Hglobal.
       apply extract_variable_atom_run; assumption. }
  - unfold extract_fix. rewrite (truthy_nonempty _ Hid), Z.eqb_refl, Hin.
    unfold fix_ptr, bind, get; cbn [fst snd from_option]; unfold Datatypes.id.
    rewrite ExceptionCheck_quiet by apply Hfree.
    rewrite call_eq; cbn [fst snd]. fold h fix_result.
    match goal with |- context [__exit__ ?m1] => destruct (exit_calls m1) as [q [Hq Hs]] end.
    cbn [calls] in Hq.
    cbn [getitem]. unfold bind, index, ret, raise.
    destruct (address fix_result =? 0).
    + eexists. cbn [fst snd]. rewrite Hq, <- app_assoc. split; [reflexivity|].
      split; [reflexivity|]. simpl. apply omap_shim_freed, Hs.
    + rewrite call_eq. cbn [fst snd calls].
      eexists. rewrite Hq, <- !app_assoc. split; [reflexivity|].
      split; [reflexivity|].
      rewrite omap_app. simpl. rewrite omap_app, (omap_shim_freed _ Hs). reflexivity.
  - unfold extract_variable. rewrite (truthy_nonempty _ Hid), Z.eqb_refl, Hg.
    unfold bind, get; cbn [fst snd from_option]; unfold Datatypes.id.
    rewrite ExceptionCheck_quiet by apply Hfree.
    change (ret group m) with (Return group, m); cbn [fst snd]. rewrite call_eq; cbn [fst snd]. fold h variable_result.
    match goal with |- context [__exit__ ?m1] => destruct (exit_calls m1) as [q [Hq Hs]] end.
    cbn [calls] in Hq.
    cbn [truthy_c]. unfold bind, index, ret, raise.
    destruct (address variable_result =? 0); cbn [negb].
    + eexists. cbn [fst snd]. rewrite Hq, <- app_assoc. split; [reflexivity|].
      split; [reflexivity|]. simpl. apply omap_shim_freed, Hs.
    + rewrite call_eq. cbn [fst snd calls].
      eexists. rewrite Hq, <- !app_assoc. split; [reflexivity|].
      split; [reflexivity|].
      rewrite omap_app. simpl. rewrite omap_app, (omap_shim_freed _ Hs). reflexivity.
Qed.

(** *** Gather *)

(** The buffer a gather hands to the library and returns, for a tag 0
    or 1: as many cells as asked for, whatever the library stored. *)
Lemma gather_body_ok
    (f : Z -> option string -> Z -> Z -> forall t : ctype, nat -> native (list (pyval t)))
    (name : option string) (type count n : Z) (t : ctype) (m : machine) :
  name <> Some ""%string -> 0 <= n ->
  exists cells : list (pyval t),
    fst ((data <- new_cells t n ;;
          o <- get ;;
          name <- as_c_char_p name ;;
          written <- call (f (as_c_void_p (lmp o)) name type count t (length data)) ;;
          ret (PyArray (mk_carray t (store data written)))) m)
    = Return (PyArray (mk_carray t cells))
    /\ Z.of_nat (length cells) = n.
Proof.
  intros Hname Hn. unfold bind at 1. rewrite (new_cells_ok _ _ _ Hn).
  unfold bind at 1, get. cbn [fst snd].
  unfold bind at 1. rewrite (as_c_char_p_ok _ _ Hname).
  unfold bind, ret. rewrite call_eq. cbn [fst snd].
  eexists. split; [reflexivity|].
  rewrite length_store, repeat_length. lia.
Qed.

Lemma gather_with_size
    (f : Z -> option string -> Z -> Z -> forall t : ctype, nat -> native (list (pyval t)))
    (name : option string) (type count natoms : Z) (m : machine) :
  error_free ->
  name <> Some ""%string ->
  fst (get_natoms m) = Return natoms ->
  0 <= count -> 0 <= natoms ->
  match type with
  | 0 => exists cells : list Z,
           fst (gather_with f name type count m) = Return (PyArray (mk_carray c_int cells))
           /\ Z.of_nat (length cells) = count * natoms
  | 1 => exists cells : list double,
           fst (gather_with f name type count m) = Return (PyArray (mk_carray c_double cells))
           /\ Z.of_nat (length cells) = count * natoms
  | _ => fst (gather_with f name type count m) = Return PyNone
  end.
Proof.
  intros Hfree Hname Hnat Hc Hn.
  assert (Hprod : 0 <= count * natoms) by (apply Z.mul_nonneg_nonneg; assumption).
  assert (Hrun : forall body : M pyobj,
            fst ((natoms <- get_natoms ;; ExceptionCheck body) m) =
            fst (body (snd (get_natoms m)))).
  { intros body. unfold bind at 1.
    destruct (get_natoms m) as [r m1]; cbn [fst snd] in *; subst r.
    rewrite ExceptionCheck_quiet by apply Hfree. reflexivity. }
  unfold gather_with.
  destruct type as [|[?|?|]|?]; cbn [Z.eqb Pos.eqb].
  - destruct (gather_body_ok f name 0 count (count * natoms) c_int (snd (get_natoms m))
                Hname Hprod) as [cells [E L]].
    exists cells. split; [|exact L]. rewrite <- E.
    unfold bind at 1.
    destruct (get_natoms m) as [r m1]; cbn [fst snd] in *; subst r.
    rewrite ExceptionCheck_quiet by apply Hfree. reflexivity.
  - apply Hrun.
  - apply Hrun.
  - destruct (gather_body_ok f name 1 count (count * natoms) c_double (snd (get_natoms m))
                Hname Hprod) as [cells [E L]].
    exists cells. split; [|exact L]. rewrite <- E.
    unfold bind at 1.
    destruct (get_natoms m) as [r m1]; cbn [fst snd] in *; subst r.
    rewrite ExceptionCheck_quiet by apply Hfree. reflexivity.
  - apply Hrun.
Qed.


(** *** Count, then enumerate *)

Lemma value_app_NUL (l r : list ascii) : ~ In NUL l -> value (l ++ NUL :: r) = l.
Proof.
  induction l as [|c l IH]; intros H.
  - reflexivity.
  - cbn [app]. change (value (c :: l ++ NUL :: r))
      with (if Ascii.eqb c NUL then [] else c :: value (l ++ NUL :: r)).
    destruct (Ascii.eqb_spec c NUL) as [->|_].
    + exfalso. apply H. left. reflexivity.
    + f_equal. apply IH. intros Hin. apply H. right. exact Hin.
Qed.

Lemma length_list_ascii (s : string) : length (list_ascii_of_string s) = String.length s.
Proof. induction s as [|c s IH]; simpl; congruence. Qed.

(** Reading back a name the library stored with its NUL. *)
Lemma value_store_c_str (sb : list ascii) (s : string) :
  length sb = 100%nat -> c_name s -> decode (value (store sb (c_str s))) = s.
Proof.
  intros Hsb [Hnul Hlen]. unfold store, c_str, decode.
  rewrite <- length_list_ascii in Hlen.
  rewrite <- app_assoc. cbn [app].
  rewrite firstn_app. rewrite firstn_all2 by lia.
  rewrite Hsb.
  destruct (100 - length (list_ascii_of_string s))%nat as [|k] eqn:E; [lia|].
  cbn [firstn]. rewrite value_app_NUL by exact Hnul.
  apply string_of_list_ascii_of_string.
Qed.

Lemma for_each_invariant {A S} (I : list A -> S -> machine -> Prop) (body : A -> S -> M S) :
  (forall done a s m,
     I done s m -> exists s' m', body a s m = (Return s', m') /\ I (done ++ [a]) s' m') ->
  forall l done s m,
    I done s m ->
    exists s' m', for_each l body s m = (Return s', m') /\ I (done ++ l) s' m'.
Proof.
  intros Hstep l. induction l as [|a l IH]; intros done s m HI.
  - exists s, m. rewrite app_nil_r. split; [reflexivity | exact HI].
  - cbn [for_each]. unfold bind.
    destruct (Hstep done a s m HI) as [s1 [m1 [E HI1]]]. rewrite E.
    destruct (IH (done ++ [a]) s1 m1 HI1) as [s2 [m2 [E2 HI2]]].
    exists s2, m2. rewrite <- app_assoc in HI2. split; assumption.
Qed.

Lemma range_length (n : Z) : length (range n) = Z.to_nat n.
Proof. apply length_seqZ. Qed.

Lemma range_excludes (n : Z) : ~ In n (range n).
Proof.
  unfold range. intros H. apply list_elem_of_In, elem_of_seqZ in H. lia.
Qed.

(** Names that differ on the indices below [n] make a list without
    repetition. *)
Lemma NoDup_map_range {B} (f : Z -> B) (n : Z) :
  (forall i j, 0 <= i < n -> 0 <= j < n -> f i = f j -> i = j) ->
  NoDup (map f (range n)).
Proof.
  intros Hinj. apply NoDup_fmap_2_strong; [|apply NoDup_seqZ].
  intros i j Hi Hj. apply elem_of_seqZ in Hi, Hj. apply Hinj; lia.
Qed.

Lemma is_category_true (category : string) :
  In category categories -> is_category category = true.
Proof.
  intros H. unfold is_category. apply existsb_exists.
  exists category. split; [exact H | apply String.eqb_refl].
Qed.

Lemma available_ids_enumerates (category : string) (m : machine) :
  In category categories ->
  let h := as_c_void_p (lmp (self m)) in
  let count := fst (lib Z (lammps_id_count h category) (world m)) in
  exists ids new,
    fst (available_ids category m) = Return ids
    /\ calls (snd (available_ids category m)) =
         calls m ++ log (lammps_id_count h category) :: new
    /\ omap name_query_index new = range count
    /\ length ids = Z.to_nat count
    /\ (forall names : Z -> string,
          (forall idx, c_name (names idx)) ->
          (forall w idx,
             snd (fst (lib _ (lammps_id_name h category idx 100) w)) = c_str (names idx)) ->
          ids = map names (range count)).
Proof.
  intros Hcat h count.
  unfold available_ids. rewrite (is_category_true _ Hcat).
  unfold bind, get. cbn [fst snd]. rewrite call_eq. cbn [fst snd]. fold h count.
  set (m1 := mk_machine (self m) _ _).
  pose (I := fun (done : list Z) (s : list ascii * list string) (m' : machine) =>
               length (fst s) = 100%nat
               /\ (exists new, calls m' = calls m1 ++ new
                               /\ omap name_query_index new = done)
               /\ length (snd s) = length done
               /\ (forall names : Z -> string,
                     (forall idx, c_name (names idx)) ->
                     (forall w idx,
                        snd (fst (lib _ (lammps_id_name h category idx 100) w)) =
                        c_str (names idx)) ->
                     snd s = map names done)).
  match goal with |- context [for_each ?l0 ?body ?s0 ?m0] =>
    assert (Hstep : forall done a s m',
              I done s m' ->
              exists s' m'', body a s m' = (Return s', m'') /\ I (done ++ [a]) s' m'');
    [ | destruct (for_each_invariant I body Hstep l0 [] s0 m0)
          as [[sb ids] [m2 [E [Hsb [[new [Hcalls Hnew]] [Hlen Hnames]]]]]] ]
  end.
  - intros done idx [sb acc] m' [Hsb [[new [Hcalls Hnew]] [Hlen Hnames]]].
    unfold ret. rewrite call_eq.
    destruct (fst (lib _ (lammps_id_name h category idx 100) (world m'))) as [rc written] eqn:Ew.
    eexists; eexists. split; [reflexivity|].
    cbn [fst snd] in *. repeat split; cbn [fst snd].
    + rewrite length_store. exact Hsb.
    + exists (new ++ [log (lammps_id_name h category idx 100)]).
      cbn [calls]. rewrite Hcalls, <- app_assoc. split; [reflexivity|].
      rewrite omap_app, Hnew. reflexivity.
    + rewrite !length_app, Hlen. reflexivity.
    + intros names Hc Hw. rewrite map_app, <- (Hnames names Hc Hw). f_equal.
      cbn [map]. f_equal.
      specialize (Hw (world m') idx). rewrite Ew in Hw. cbn [snd] in Hw. subst written.
      apply value_store_c_str; [exact Hsb | apply Hc].
  - split; [reflexivity|].
    split; [exists []; rewrite app_nil_r; split; reflexivity|].
    split; [reflexivity|]. intros; reflexivity.
  - cbn [app] in *. cbn [fst snd] in *.
    exists ids, new. rewrite E. cbn [fst snd]. unfold ret. cbn [fst snd].
    rewrite Hcalls. unfold m1; cbn [calls]. rewrite <- app_assoc.
    repeat split; try assumption.
    rewrite Hlen. apply range_length.
Qed.

Lemma available_plugins_enumerates (category : string) (m : machine) :
  let h := as_c_void_p (lmp (self m)) in
  let count := fst (lib Z (lammps_plugin_count h) (world m)) in
  exists plugins new,
    fst (available_plugins category m) = Return plugins
    /\ calls (snd (available_plugins category m)) =
         calls m ++ log (lammps_plugin_count h) :: new
    /\ omap name_query_index new = range count
    /\ length plugins = Z.to_nat count
    /\ (forall styles names : Z -> string,
          (forall idx, c_name (styles idx) /\ c_name (names idx)) ->
          (forall w idx,
             snd (fst (fst (lib _ (lammps_plugin_name idx 100) w))) = c_str (styles idx)
             /\ snd (fst (lib _ (lammps_plugin_name idx 100) w)) = c_str (names idx)) ->
          plugins = map (fun idx => (styles idx, names idx)) (range count)).
Proof.
  intros h count.
  unfold available_plugins.
  unfold bind, get. cbn [fst snd]. rewrite call_eq. cbn [fst snd]. fold h count.
  set (m1 := mk_machine (self m) _ _).
  pose (I := fun (done : list Z) (s : list ascii * list ascii * list (string * string))
                 (m' : machine) =>
               (length (fst (fst s)) = 100%nat /\ length (snd (fst s)) = 100%nat)
               /\ (exists new, calls m' = calls m1 ++ new
                               /\ omap name_query_index new = done)
               /\ length (snd s) = length done
               /\ (forall styles names : Z -> string,
                     (forall idx, c_name (styles idx) /\ c_name (names idx)) ->
                     (forall w idx,
                        snd (fst (fst (lib _ (lammps_plugin_name idx 100) w))) =
                          c_str (styles idx)
                        /\ snd (fst (lib _ (lammps_plugin_name idx 100) w)) =
                             c_str (names idx)) ->
                     snd s = map (fun idx => (styles idx, names idx)) done)).
  match goal with |- context [for_each ?l0 ?body ?s0 ?m0] =>
    assert (Hstep : forall done a s m',
              I done s m' ->
              exists s' m'', body a s m' = (Return s', m'') /\ I (done ++ [a]) s' m'');
    [ | destruct (for_each_invariant I body Hstep l0 [] s0 m0)
          as [[[sty nam] plugins] [m2 [E [Hsb [[new [Hcalls Hnew]] [Hlen Hnames]]]]]] ]
  end.
  - intros done idx [[sty nam] acc] m' [[Hsty Hnam] [[new [Hcalls Hnew]] [Hlen Hnames]]].
    unfold ret. rewrite call_eq.
    destruct (fst (lib _ (lammps_plugin_name idx 100) (world m')))
      as [[rc written_sty] written_nam] eqn:Ew.
    eexists; eexists. split; [reflexivity|].
    cbn [fst snd] in *. split; [|split; [|split]]; cbn [fst snd].
    + rewrite !length_store. split; assumption.
    + exists (new ++ [log (lammps_plugin_name idx 100)]).
      cbn [calls]. rewrite Hcalls, <- app_assoc. split; [reflexivity|].
      rewrite omap_app, Hnew. reflexivity.
    + rewrite !length_app, Hlen. reflexivity.
    + intros styles names Hc Hw. rewrite map_app, <- (Hnames styles names Hc Hw). f_equal.
      cbn [map]. f_equal.
      destruct (Hw (world m') idx) as [Hws Hwn]. rewrite Ew in Hws, Hwn.
      cbn [fst snd] in Hws, Hwn. subst written_sty written_nam.
      destruct (Hc idx) as [Hcs Hcn].
      rewrite !value_store_c_str by assumption. reflexivity.
  - split; [split; reflexivity|].
    split; [exists []; rewrite app_nil_r; split; reflexivity|].
    split; [reflexivity|]. intros; reflexivity.
  - cbn [app] in *. cbn [fst snd] in *.
    exists plugins, new. rewrite E. cbn [fst snd]. unfold ret. cbn [fst snd].
    rewrite Hcalls. unfold m1; cbn [calls]. rewrite <- app_assoc.
    repeat split; try assumption.
    rewrite Hlen. apply range_length.
Qed.

Lemma installed_packages_enumerates (m : machine) :
  _installed_packages (self m) = None ->
  let count := fst (lib Z lammps_config_package_count (world m)) in
  exists packages new,
    fst (installed_packages m) = Return packages
    /\ calls (snd (installed_packages m)) =
         calls m ++ log lammps_config_package_count :: new
    /\ omap name_query_index new = range count
    /\ length packages = Z.to_nat count
    /\ (forall names : Z -> string,
          (forall idx, c_name (names idx)) ->
          (forall w idx,
             snd (fst (lib _ (lammps_config_package_name idx 100) w)) = c_str (names idx)) ->
          packages = map names (range count)).
Proof.
  intros Hnone count.
  unfold installed_packages.
  unfold bind, get, modify. cbn [fst snd]. rewrite Hnone. cbn [fst snd self world calls].
  rewrite call_eq. cbn [fst snd self world calls]. fold count.
  set (m1 := mk_machine _ _ _).
  pose (I := fun (done : list Z) (sb : list ascii) (m' : machine) =>
               length sb = 100%nat
               /\ (exists new, calls m' = calls m1 ++ new
                               /\ omap name_query_index new = done)
               /\ exists acc, _installed_packages (self m') = Some acc
                   /\ length acc = length done
                   /\ (forall names : Z -> string,
                         (forall idx, c_name (names idx)) ->
                         (forall w idx,
                            snd (fst (lib _ (lammps_config_package_name idx 100) w)) =
                            c_str (names idx)) ->
                         acc = map names done)).
  match goal with |- context [for_each ?l0 ?body ?s0 ?m0] =>
    assert (Hstep : forall done a s m',
              I done s m' ->
              exists s' m'', body a s m' = (Return s', m'') /\ I (done ++ [a]) s' m'');
    [ | destruct (for_each_invariant I body Hstep l0 [] s0 m0)
          as [sb [m2 [E [Hsb [[new [Hcalls Hnew]] [acc [Hacc [Hlen Hnames]]]]]]]] ]
  end.
  - intros done idx sb m' [Hsb [[new [Hcalls Hnew]] [acc [Hacc [Hlen Hnames]]]]].
    unfold ret. rewrite call_eq.
    destruct (fst (lib _ (lammps_config_package_name idx 100) (world m')))
      as [rc written] eqn:Ew.
    eexists; eexists. split; [reflexivity|].
    cbn [fst snd self world calls] in *. split; [|split].
    + rewrite length_store. exact Hsb.
    + exists (new ++ [log (lammps_config_package_name idx 100)]).
      rewrite Hcalls, <- app_assoc. split; [reflexivity|].
      rewrite omap_app, Hnew. reflexivity.
    + exists (acc ++ [decode (value (store sb written))]).
      unfold append_installed_package, set_installed_packages. cbn [_installed_packages].
      rewrite Hacc. cbn [from_option]. unfold Datatypes.id.
      split; [reflexivity|]. split; [rewrite !length_app, Hlen; reflexivity|].
      intros names Hc Hw. rewrite map_app, <- (Hnames names Hc Hw). f_equal.
      cbn [map]. f_equal.
      specialize (Hw (world m') idx). rewrite Ew in Hw. cbn [snd] in Hw. subst written.
      apply value_store_c_str; [exact Hsb | apply Hc].
  - split; [reflexivity|].
    split; [exists []; rewrite app_nil_r; split; reflexivity|].
    exists []. split; [reflexivity|]. split; [reflexivity|]. intros; reflexivity.
  - cbn [app] in *.
    exists acc, new. rewrite E. cbn [fst snd]. unfold ret. cbn [fst snd].
    rewrite Hacc, Hcalls. unfold m1; cbn [calls from_option]. rewrite <- app_assoc.
    repeat split; try assumption.
    rewrite Hlen. apply range_length.
Qed.

Lemma omap_shim_index (q : list entry) :
  forallb is_shim_query q = true -> omap name_query_index q = [].
Proof.
  induction q as [|[R e] q IH]; [reflexivity|].
  cbn [forallb]. intros H. apply andb_true_iff in H. destruct H as [He Hq].
  destruct e; try discriminate He; simpl; apply (IH Hq).
Qed.

Lemma available_styles_enumerates (category : string) (m : machine) :
  error_free ->
  default ∅ (_available_styles (self m)) !! category = None ->
  let h := as_c_void_p (lmp (self m)) in
  let count := fst (lib Z (lammps_style_count h category) (world m)) in
  exists styles new,
    fst (available_styles category m) = Return styles
    /\ calls (snd (available_styles category m)) =
         calls m ++ log (lammps_style_count h category) :: new
    /\ omap name_query_index new = range count
    /\ length styles = Z.to_nat count
    /\ (forall names : Z -> string,
          (forall idx, c_name (names idx)) ->
          (forall w idx,
             snd (fst (lib _ (lammps_style_name h category idx 100) w)) = c_str (names idx)) ->
          styles = map names (range count)).
Proof.
  intros Hfree Hlookup h count.
  unfold available_styles.
  set (d0 := default ∅ (_available_styles (self m))) in *.
  assert (Hprep :
    forall k : M (list string),
      (o <- get ;;
       (match _available_styles o with
        | None => modify (set_available_styles (Some ∅))
        | Some _ => ret tt
        end) ;; k) m =
      k (mk_machine (set_available_styles (Some d0) (self m)) (world m) (calls m))).
  { intros k. unfold bind, get, modify, ret. cbn [fst snd]. subst d0.
    destruct m as [[l o p [d|] t] w c]; reflexivity. }
  rewrite Hprep. clear Hprep.
  unfold bind, get, modify, set_available_styles.
  cbn [fst snd self world calls _available_styles lmp from_option].
  unfold Datatypes.id. rewrite Hlookup. cbn [fst snd self world calls lmp].
  rewrite ExceptionCheck_quiet by apply Hfree.
  rewrite call_eq. cbn [fst snd self world calls lmp]. fold h count.
  match goal with |- context [__exit__ ?mc] =>
    pose proof (exit_self mc) as Hself0;
    destruct (exit_calls mc) as [q0 [Hq0 Hs0]];
    set (m1 := snd (__exit__ mc)) in *
  end.
  cbn [self calls] in Hself0, Hq0.
  pose (I := fun (done : list Z) (sb : list ascii) (m' : machine) =>
               length sb = 100%nat
               /\ (exists new, calls m' = calls m1 ++ new
                               /\ omap name_query_index new = done)
               /\ exists d acc, _available_styles (self m') = Some d
                   /\ d !! category = Some acc
                   /\ length acc = length done
                   /\ (forall names : Z -> string,
                         (forall idx, c_name (names idx)) ->
                         (forall w idx,
                            snd (fst (lib _ (lammps_style_name h category idx 100) w)) =
                            c_str (names idx)) ->
                         acc = map names done)).
  match goal with |- context [for_each ?l0 ?body ?s0 ?m0] =>
    assert (Hstep : forall done a s m',
              I done s m' ->
              exists s' m'', body a s m' = (Return s', m'') /\ I (done ++ [a]) s' m'');
    [ | destruct (for_each_invariant I body Hstep l0 [] s0 m0)
          as [sb [m2 [E [Hsb [[new [Hcalls Hnew]] [d [acc [Hd [Hacc [Hlen Hnames]]]]]]]]]] ]
  end.
  - intros done idx sb m' [Hsb [[new [Hcalls Hnew]] [d [acc [Hd [Hacc [Hlen Hnames]]]]]]].
    rewrite ExceptionCheck_quiet by apply Hfree.
    rewrite call_eq. cbn [fst snd].
    destruct (fst (lib _ (lammps_style_name h category idx 100) (world m')))
      as [rc written] eqn:Ew.
    match goal with |- context [__exit__ ?mc] =>
      pose proof (exit_self mc) as Hself;
      destruct (exit_calls mc) as [q [Hq Hs]];
      set (me := snd (__exit__ mc)) in *
    end.
    cbn [self calls] in Hself, Hq.
    eexists; eexists. split; [reflexivity|].
    cbn [fst snd self world calls]. split; [|split].
    + rewrite length_store. exact Hsb.
    + exists (new ++ log (lammps_style_name h category idx 100) :: q).
      rewrite Hq, Hcalls, <- !app_assoc. split; [reflexivity|].
      rewrite omap_app, Hnew. cbn [omap list_omap name_query_index projT2 log].
      simpl. rewrite (omap_shim_index _ Hs). reflexivity.
    + exists (<[category := acc ++ [decode (value (store sb written))]]> d),
             (acc ++ [decode (value (store sb written))]).
      unfold append_available_style, set_available_styles. cbn [_available_styles].
      rewrite Hself, Hd. cbn [from_option]. unfold Datatypes.id. rewrite Hacc.
      cbn [from_option]. unfold Datatypes.id.
      split; [reflexivity|]. split; [apply lookup_insert_eq|].
      split; [rewrite !length_app, Hlen; reflexivity|].
      intros names Hc Hw. rewrite map_app, <- (Hnames names Hc Hw). f_equal.
      cbn [map]. f_equal.
      specialize (Hw (world m') idx). rewrite Ew in Hw. cbn [snd] in Hw. subst written.
      apply value_store_c_str; [exact Hsb | apply Hc].
  - split; [reflexivity|].
    split; [exists []; rewrite app_nil_r; split; reflexivity|].
    exists (<[category := []]> d0), [].
    split; [rewrite Hself0; reflexivity|].
    split; [apply lookup_insert_eq|]. split; [reflexivity|]. intros; reflexivity.
  - cbn [app] in *.
    exists acc, (q0 ++ new). rewrite E. cbn [fst snd]. unfold ret. cbn [fst snd].
    rewrite Hd, Hcalls. cbn [from_option]. unfold Datatypes.id. rewrite Hacc.
    cbn [from_option]. unfold Datatypes.id.
    rewrite Hq0, <- !app_assoc.
    split; [reflexivity|]. split; [reflexivity|].
    split; [rewrite omap_app, (omap_shim_index _ Hs0); exact Hnew|].
    split; [rewrite Hlen; apply range_length | exact Hnames].
Qed.


(** * Further properties of the operations above *)

(** *** The caches of the introspection queries *)

Lemma installed_packages_cached (l : list string) (m : machine) :
  _installed_packages (self m) = Some l -> installed_packages m = (Return l, m).
Proof.
  intros H. unfold installed_packages, bind, get, ret. cbn [fst snd]. rewrite H.
  cbn [fst snd]. rewrite H. reflexivity.
Qed.

Lemma installed_packages_fills_cache (m : machine) :
  _installed_packages (self m) = None ->
  exists l m', installed_packages m = (Return l, m')
               /\ _installed_packages (self m') = Some l.
Proof.
  intros Hnone.
  unfold installed_packages.
  unfold bind, get, modify. cbn [fst snd]. rewrite Hnone. cbn [fst snd self world calls].
  rewrite call_eq. cbn [fst snd self world calls].
  pose (I := fun (done : list Z) (sb : list ascii) (m' : machine) =>
               exists acc, _installed_packages (self m') = Some acc).
  match goal with |- context [for_each ?l0 ?body ?s0 ?m0] =>
    assert (Hstep : forall done a s m',
              I done s m' ->
              exists s' m'', body a s m' = (Return s', m'') /\ I (done ++ [a]) s' m'');
    [ | destruct (for_each_invariant I body Hstep l0 [] s0 m0) as [sb [m2 [E [acc Hacc]]]] ]
  end.
  - intros done idx sb m' [acc Hacc].
    unfold ret. rewrite call_eq.
    destruct (fst (lib _ (lammps_config_package_name idx 100) (world m'))) as [rc written].
    eexists; eexists. split; [reflexivity|].
    eexists. cbn [self]. unfold append_installed_package, set_installed_packages.
    cbn [_installed_packages]. reflexivity.
  - exists []. reflexivity.
  - rewrite E. unfold ret. cbn [fst snd]. rewrite Hacc. cbn [from_option].
    exists acc, m2. split; [reflexivity | exact Hacc].
Qed.

(** X1. [installed_packages] queries the library once per wrapper: a
    second access returns the list of the first and leaves the machine
    (object, world, call log) as the first left it. *)
Theorem installed_packages_queries_once (m : machine) :
  (installed_packages ;; installed_packages) m = installed_packages m.
Proof.
  unfold bind at 1.
  destruct (_installed_packages (self m)) as [l|] eqn:Hc.
  - rewrite (installed_packages_cached l m Hc). apply installed_packages_cached, Hc.
  - destruct (installed_packages_fills_cache m Hc) as [l [m' [E Hl]]].
    rewrite E. apply installed_packages_cached, Hl.
Qed.

Lemma available_styles_cached (category : string) (l : list string) (m : machine) :
  default ∅ (_available_styles (self m)) !! category = Some l ->
  available_styles category m = (Return l, m).
Proof.
  intros H. unfold available_styles, bind, get, ret, modify. cbn [fst snd].
  destruct m as [[h o p [d|] t] w c]; cbn in *.
  - rewrite H. cbn. rewrite H. reflexivity.
  - rewrite lookup_empty in H. discriminate.
Qed.

Lemma available_styles_uncached (category : string) (m : machine) :
  default ∅ (_available_styles (self m)) !! category = None ->
  available_styles category m =
  ((nstyles <- ExceptionCheck
                 (call (lammps_style_count (as_c_void_p (lmp (self m))) category)) ;;
    for_each (range nstyles)
      (fun idx sb =>
         '(_, written) <-
           ExceptionCheck
             (call (lammps_style_name (as_c_void_p (lmp (self m))) category idx 100)) ;;
         let sb := store sb written in
         modify (append_available_style category (decode (value sb))) ;;
         ret sb)
      (create_string_buffer 100) ;;
    o <- get ;;
    ret (default [] (default ∅ (_available_styles o) !! category)))
     (styles_entered category m)).
Proof.
  intros H. unfold available_styles, styles_entered.
  destruct m as [[h o p [d|] t] w c]; cbn in H |- *.
  - unfold bind, get, modify, ret. cbn. rewrite H. cbn.
    destruct (ExceptionCheck _ _) as [[n|e] m1]; [|reflexivity].
    destruct (for_each _ _ _ _) as [[sb|e] m2]; reflexivity.
  - unfold bind, get, modify, ret. cbn. rewrite lookup_empty. cbn.
    destruct (ExceptionCheck _ _) as [[n|e] m1]; [|reflexivity].
    destruct (for_each _ _ _ _) as [[sb|e] m2]; reflexivity.
Qed.

Lemma available_styles_fills_cache (category : string) (m : machine) :
  error_free ->
  default ∅ (_available_styles (self m)) !! category = None ->
  exists l m', available_styles category m = (Return l, m')
               /\ default ∅ (_available_styles (self m')) !! category = Some l.
Proof.
  intros Hfree Hnone. rewrite (available_styles_uncached _ _ Hnone).
  set (h := as_c_void_p (lmp (self m))).
  unfold bind at 1. rewrite ExceptionCheck_quiet by apply Hfree.
  rewrite call_eq. cbn [fst snd].
  match goal with |- context [__exit__ ?mc] =>
    pose proof (exit_self mc) as Hself0; set (m1 := snd (__exit__ mc)) in *
  end.
  cbn [self] in Hself0.
  pose (I := fun (done : list Z) (sb : list ascii) (m' : machine) =>
               exists acc, default ∅ (_available_styles (self m')) !! category = Some acc).
  unfold bind at 1.
  match goal with |- context [for_each ?l0 ?body ?s0 ?m0] =>
    assert (Hstep : forall done a s m',
              I done s m' ->
              exists s' m'', body a s m' = (Return s', m'') /\ I (done ++ [a]) s' m'');
    [ | destruct (for_each_invariant I body Hstep l0 [] s0 m0) as [sb [m2 [E [acc Hacc]]]] ]
  end.
  - intros done idx sb m' [acc Hacc].
    unfold bind at 1. rewrite ExceptionCheck_quiet by apply Hfree.
    rewrite call_eq. cbn [fst snd].
    destruct (fst (lib _ (lammps_style_name h category idx 100) (world m'))) as [rc written].
    match goal with |- context [__exit__ ?mc] =>
      pose proof (exit_self mc) as Hself; set (me := snd (__exit__ mc)) in *
    end.
    cbn [self] in Hself.
    unfold bind, modify, ret. cbn [fst snd].
    eexists; eexists. split; [reflexivity|].
    eexists. cbn [self]. unfold append_available_style, set_available_styles.
    cbn [_available_styles from_option]. unfold Datatypes.id. apply lookup_insert_eq.
  - exists []. rewrite Hself0. unfold styles_entered, set_available_styles.
    cbn [self _available_styles from_option]. unfold Datatypes.id. apply lookup_insert_eq.
  - rewrite E. unfold bind, get, ret. cbn [fst snd]. rewrite Hacc. cbn [from_option].
    exists acc, m2. split; [reflexivity | exact Hacc].
Qed.

(** X2. With a library that reports no error, [available_styles]
    queries the library once per category: a second call for the same
    category returns the list of the first and leaves the machine as the
    first left it. *)
Theorem available_styles_queries_once (category : string) (m : machine) :
  error_free ->
  (available_styles category ;; available_styles category) m = available_styles category m.
Proof.
  intros Hfree. unfold bind at 1.
  destruct (default ∅ (_available_styles (self m)) !! category) as [l|] eqn:Hc.
  - rewrite (available_styles_cached _ l m Hc). apply available_styles_cached, Hc.
  - destruct (available_styles_fills_cache category m Hfree Hc) as [l [m' [E Hl]]].
    rewrite E. apply available_styles_cached, Hl.
Qed.


(** *** Atom creation with lists that are long enough *)

Lemma array_of_slice_long {A} (n : Z) (src : list A) (m : machine) :
  0 <= n -> n <= Z.of_nat (length src) ->
  array_of_slice n src m = (Return (Some (firstn (Z.to_nat n) src)), m).
Proof.
  intros Hn Hl. unfold array_of_slice.
  destruct (Z.ltb_spec n 0); [lia|].
  rewrite length_firstn.
  destruct (Z.eqb_spec (Z.of_nat (Nat.min (Z.to_nat n) (length src))) n); [reflexivity | lia].
Qed.

Lemma optional_array_of_slice_long {A} (n : Z) (src : option (list A)) (m : machine) :
  0 <= n -> long_enough n src ->
  optional_array_of_slice n src m = (Return (Some (passed n src)), m).
Proof.
  intros Hn Hl. unfold optional_array_of_slice, passed, long_enough in *.
  destruct (truthy_list src); [|reflexivity].
  unfold bind. rewrite array_of_slice_long by auto. reflexivity.
Qed.



(** *** Letting go of the handle *)

(** X6. [finalize] does what [close] does and then calls
    [lammps_finalize], also on a wrapper that was closed before;
    finalizing twice calls [lammps_finalize] twice.  After [finalize] or
    [close] the handle is gone, so a later [close] and the destructor
    [__del__] leave the machine as it is. *)
Theorem finalize_closes_then_finalizes (m : machine) :
  finalize m = (close ;; call lammps_finalize) m
  /\ calls (snd ((finalize ;; finalize) m)) =
       calls (snd (close m)) ++ [log lammps_finalize; log lammps_finalize]
  /\ (finalize ;; close) m = finalize m
  /\ (finalize ;; __del__) m = finalize m
  /\ (close ;; __del__) m = close m.
Proof.
  unfold finalize, close, __del__, bind, get, ret, modify; cbn [fst snd self].
  destruct (truthy_int (opened (self m))); repeat (rewrite call_eq; cbn);
    unfold set_opened, set_lmp; cbn; rewrite <- ?app_assoc; repeat split;
    try reflexivity;
    f_equal;
    match goal with
    | |- Return ?u = Return () => destruct u
    | |- Return () = Return ?u => destruct u
    end; reflexivity.
Qed.

(** *** What every operation leaves alone *)

Section Respects.

Variable R : machine -> machine -> Prop.
Hypothesis R_refl : forall m, R m m.
Hypothesis R_trans : forall m1 m2 m3, R m1 m2 -> R m2 m3 -> R m1 m3.
Hypothesis R_exit : forall m, R m (snd (__exit__ m)).

Lemma respects_pure {A} (c : M A) : (forall m, snd (c m) = m) -> respects R c.
Proof. intros H m. rewrite H. apply R_refl. Qed.

Lemma respects_ret {A} (a : A) : respects R (ret a).
Proof. intros m. apply R_refl. Qed.

Lemma respects_raise {A} (e : exn) : respects R (@raise A e).
Proof. intros m. apply R_refl. Qed.

Lemma respects_get : respects R get.
Proof. intros m. apply R_refl. Qed.

Lemma respects_bind {A B} (c : M A) (k : A -> M B) :
  respects R c -> (forall a, respects R (k a)) -> respects R (bind c k).
Proof.
  intros Hc Hk m. unfold bind. specialize (Hc m).
  destruct (c m) as [[a|e] m1]; cbn [snd] in *; [|exact Hc].
  eapply R_trans; [exact Hc | apply Hk].
Qed.

Lemma respects_for_each {A S} (l : list A) (body : A -> S -> M S) (s : S) :
  (forall a s, respects R (body a s)) -> respects R (for_each l body s).
Proof.
  intros Hbody. revert s. induction l as [|a l IH]; intros s; cbn [for_each].
  - apply respects_ret.
  - apply respects_bind; [apply Hbody | exact IH].
Qed.

Lemma respects_ExceptionCheck {A} (body : M A) :
  respects R body -> respects R (ExceptionCheck body).
Proof.
  intros Hb m. unfold ExceptionCheck. specialize (Hb m).
  destruct (body m) as [r m1]; cbn [snd] in *.
  pose proof (R_exit m1) as He.
  destruct (__exit__ m1) as [[[]|e] m2]; cbn [snd] in *; eapply R_trans; eassumption.
Qed.

End Respects.

(** The conversions of values touch neither the object, the library nor
    the log. *)
Lemma index_pure {A} (p : pointer A) (i : Z) (m : machine) : snd (index p i m) = m.
Proof. unfold index. destruct (address p =? 0); reflexivity. Qed.

Lemma getitem_pure (t : ctype) (p : pyval t) (i : Z) (m : machine) :
  snd (getitem t p i m) = m.
Proof.
  destruct t; cbn [getitem]; try reflexivity.
  - destruct p as [s|]; [|reflexivity]. destruct (String.get _ s); reflexivity.
  - unfold bind. pose proof (index_pure p i m) as H.
    destruct (index p i m) as [[x|e] m1]; cbn [snd] in *; subst; reflexivity.
Qed.

Lemma decode_result_pure (t : ctype) (p : pyval t) (m : machine) :
  snd (decode_result t p m) = m.
Proof. destruct t; cbn [decode_result]; try reflexivity. destruct p; reflexivity. Qed.

Lemma int_of_double_pure (d : double) (m : machine) : snd (int_of_double d m) = m.
Proof. destruct d; reflexivity. Qed.

Lemma apply_target_pure (f : option target) (x : M pyobj) (m : machine) :
  (forall m, snd (x m) = m) -> snd (apply_target f x m) = m.
Proof.
  intros Hx. destruct f as [f|]; [|reflexivity]. cbn [apply_target]. unfold bind.
  specialize (Hx m). destruct (x m) as [[v|e] m1]; cbn [snd] in *; subst; [|reflexivity].
  destruct f, v; try reflexivity.
  pose proof (int_of_double_pure d m) as H. unfold bind.
  destruct (int_of_double d m) as [[z|e] m1]; cbn [snd] in *; subst; reflexivity.
Qed.

Lemma greater_than_one_pure (v : pyobj) (m : machine) : snd (greater_than_one v m) = m.
Proof. destruct v as [| |[]| | | |]; reflexivity. Qed.

Lemma range_of_pure (v : pyobj) (m : machine) : snd (range_of v m) = m.
Proof. destruct v; reflexivity. Qed.

Lemma new_cells_pure (t : ctype) (n : Z) (m : machine) : snd (new_cells t n m) = m.
Proof. unfold new_cells. destruct (n <? 0); reflexivity. Qed.

Lemma new_cells_of_pure (t : ctype) (n : pyobj) (m : machine) : snd (new_cells_of t n m) = m.
Proof. destruct n; try reflexivity. apply new_cells_pure. Qed.

Lemma as_c_char_p_pure (t : option string) (m : machine) : snd (as_c_char_p t m) = m.
Proof. destruct t as [s|]; [|reflexivity]. unfold as_c_char_p. destruct (truthy_text _); reflexivity. Qed.

Lemma array_of_slice_pure {A} (n : Z) (src : list A) (m : machine) :
  snd (array_of_slice n src m) = m.
Proof. unfold array_of_slice. destruct (n <? 0); [reflexivity|]. destruct (_ =? n); reflexivity. Qed.

Lemma optional_array_of_slice_pure {A} (n : Z) (src : option (list A)) (m : machine) :
  snd (optional_array_of_slice n src m) = m.
Proof.
  unfold optional_array_of_slice. destruct (truthy_list src); [|reflexivity].
  unfold bind. pose proof (array_of_slice_pure n (default [] src) m) as H.
  destruct (array_of_slice n (default [] src) m) as [[a|e] m1]; cbn [snd] in *; subst; reflexivity.
Qed.

(** The two relations are preorders that the shim keeps. *)
Lemma nothing_freed_refl (m : machine) : nothing_freed m m.
Proof. exists []. rewrite app_nil_r. split; reflexivity. Qed.

Lemma nothing_freed_trans (m1 m2 m3 : machine) :
  nothing_freed m1 m2 -> nothing_freed m2 m3 -> nothing_freed m1 m3.
Proof.
  intros [q [E F]] [q' [E' F']]. exists (q ++ q').
  rewrite E', E, <- app_assoc, omap_app, F, F'. split; reflexivity.
Qed.

Lemma nothing_freed_exit (m : machine) : nothing_freed m (snd (__exit__ m)).
Proof.
  destruct (exit_calls m) as [q [E S]]. exists q. split; [exact E|].
  apply omap_shim_freed, S.
Qed.

Lemma nothing_freed_call {X} (e : native X) :
  freed (log e) = None -> respects nothing_freed (call e).
Proof.
  intros H m. rewrite call_eq. exists [log e]. split; [reflexivity|].
  destruct e; try discriminate H; reflexivity.
Qed.

Lemma nothing_freed_modify (f : wrapper -> wrapper) : respects nothing_freed (modify f).
Proof. intros m. exists []. cbn. rewrite app_nil_r. split; reflexivity. Qed.

Lemma same_handle_refl (m : machine) : same_handle m m.
Proof. split; reflexivity. Qed.

Lemma same_handle_trans (m1 m2 m3 : machine) :
  same_handle m1 m2 -> same_handle m2 m3 -> same_handle m1 m3.
Proof. intros [E F] [E' F']. split; congruence. Qed.

Lemma same_handle_exit (m : machine) : same_handle m (snd (__exit__ m)).
Proof. unfold same_handle. rewrite exit_self. split; reflexivity. Qed.

Lemma same_handle_call {X} (e : native X) : respects same_handle (call e).
Proof. intros m. rewrite call_eq. split; reflexivity. Qed.

Lemma same_handle_modify (f : wrapper -> wrapper) :
  (forall o, lmp (f o) = lmp o /\ opened (f o) = opened o) ->
  respects same_handle (modify f).
Proof. intros H m. exact (H (self m)). Qed.

(** One step of a proof that an operation respects a relation, along
    the structure of its text. *)
Ltac respects_step refl trans exit :=
  match goal with
  | |- respects _ (ret _) => apply (respects_ret _ refl)
  | |- respects _ (raise _) => apply (respects_raise _ refl)
  | |- respects _ get => apply (respects_get _ refl)
  | |- respects _ (bind _ _) => apply (respects_bind _ trans); [|intros ?]
  | |- respects _ (for_each _ _ _) => apply (respects_for_each _ refl trans); intros ? ?
  | |- respects _ (ExceptionCheck _) => apply (respects_ExceptionCheck _ trans exit)
  | |- respects _ (index _ _) => apply (respects_pure _ refl), index_pure
  | |- respects _ (getitem _ _ _) => apply (respects_pure _ refl), getitem_pure
  | |- respects _ (decode_result _ _) => apply (respects_pure _ refl), decode_result_pure
  | |- respects _ (int_of_double _) => apply (respects_pure _ refl), int_of_double_pure
  | |- respects _ (apply_target _ _) =>
      apply (respects_pure _ refl); intros ?; apply apply_target_pure; intros ?;
      apply getitem_pure
  | |- respects _ (greater_than_one _) => apply (respects_pure _ refl), greater_than_one_pure
  | |- respects _ (range_of _) => apply (respects_pure _ refl), range_of_pure
  | |- respects _ (new_cells _ _) => apply (respects_pure _ refl), new_cells_pure
  | |- respects _ (new_cells_of _ _) => apply (respects_pure _ refl), new_cells_of_pure
  | |- respects _ (as_c_char_p _) => apply (respects_pure _ refl), as_c_char_p_pure
  | |- respects _ (array_of_slice _ _) => apply (respects_pure _ refl), array_of_slice_pure
  | |- respects _ (optional_array_of_slice _ _) =>
      apply (respects_pure _ refl), optional_array_of_slice_pure
  | |- respects _ (if ?b then _ else _) => destruct b
  | |- respects _ (match ?x with _ => _ end) => destruct x
  end.

Ltac frees_nothing :=
  repeat first
    [ respects_step nothing_freed_refl nothing_freed_trans nothing_freed_exit
    | apply nothing_freed_call; reflexivity
    | apply nothing_freed_modify ].

Ltac keeps_handle :=
  repeat first
    [ respects_step same_handle_refl same_handle_trans same_handle_exit
    | apply same_handle_call
    | apply same_handle_modify; intros ?; split; reflexivity ].

(** X7. The native free entry point is called by [extract_fix] and
    [extract_variable] only: whatever its arguments and whatever the
    library answers, and whether it returns or raises, no other
    operation adds a call of [lammps_free] to the log. *)
Theorem only_fix_and_variable_free :
  (forall path, respects nothing_freed (file path))
  /\ (forall cmd, respects nothing_freed (command cmd))
  /\ (forall multicmd, respects nothing_freed (commands_string multicmd))
  /\ respects nothing_freed get_natoms
  /\ (forall name, respects nothing_freed (get_thermo name))
  /\ (forall name, respects nothing_freed (extract_setting name))
  /\ (forall name value, respects nothing_freed (set_variable name value))
  /\ (forall name dtype, respects nothing_freed (extract_global name dtype))
  /\ (forall name dtype, respects nothing_freed (extract_atom name dtype))
  /\ (forall id style type, respects nothing_freed (extract_compute id style type))
  /\ (forall name type count, respects nothing_freed (gather_atoms name type count))
  /\ (forall name type count, respects nothing_freed (gather_atoms_concat name type count))
  /\ (forall name type count, respects nothing_freed (gather name type count))
  /\ (forall name type count, respects nothing_freed (gather_concat name type count))
  /\ (forall n id type x v image shrinkexceed,
        respects nothing_freed (create_atoms n id type x v image shrinkexceed))
  /\ respects nothing_freed installed_packages
  /\ (forall category, respects nothing_freed (available_styles category))
  /\ (forall category, respects nothing_freed (available_ids category))
  /\ (forall category, respects nothing_freed (available_plugins category)).
Proof.
  repeat match goal with |- _ /\ _ => split end; intros;
    unfold file, command, commands_string, get_natoms, get_thermo, extract_setting,
      set_variable, extract_global, extract_global_from, extract_global_datatype,
      extract_atom, extract_atom_datatype, extract_compute, compute_ptr,
      gather_atoms, gather_atoms_concat, gather, gather_concat, gather_with, get_natoms,
      create_atoms, installed_packages, available_styles, available_ids, available_plugins;
    frees_nothing.
Qed.

(** X8. Only [close], [finalize] and [__del__] let go of the handle:
    every other operation, whatever its arguments and whatever the
    library answers, and whether it returns or raises, leaves the
    attributes [lmp] and [opened] of the wrapper as they were. *)
Theorem handle_is_stable :
  (forall path, respects same_handle (file path))
  /\ (forall cmd, respects same_handle (command cmd))
  /\ (forall multicmd, respects same_handle (commands_string multicmd))
  /\ respects same_handle get_natoms
  /\ (forall name, respects same_handle (get_thermo name))
  /\ (forall name, respects same_handle (extract_setting name))
  /\ (forall name value, respects same_handle (set_variable name value))
  /\ (forall name dtype, respects same_handle (extract_global name dtype))
  /\ (forall name dtype, respects same_handle (extract_atom name dtype))
  /\ (forall id style type, respects same_handle (extract_compute id style type))
  /\ (forall id style type nrow ncol, respects same_handle (extract_fix id style type nrow ncol))
  /\ (forall name group vartype, respects same_handle (extract_variable name group vartype))
  /\ (forall name type count, respects same_handle (gather_atoms name type count))
  /\ (forall name type count, respects same_handle (gather_atoms_concat name type count))
  /\ (forall name type count, respects same_handle (gather name type count))
  /\ (forall name type count, respects same_handle (gather_concat name type count))
  /\ (forall n id type x v image shrinkexceed,
        respects same_handle (create_atoms n id type x v image shrinkexceed))
  /\ respects same_handle installed_packages
  /\ (forall category, respects same_handle (available_styles category))
  /\ (forall category, respects same_handle (available_ids category))
  /\ (forall category, respects same_handle (available_plugins category)).
Proof.
  repeat match goal with |- _ /\ _ => split end; intros;
    unfold file, command, commands_string, get_natoms, get_thermo, extract_setting,
      set_variable, extract_global, extract_global_from, extract_global_datatype,
      extract_atom, extract_atom_datatype, extract_compute, compute_ptr,
      extract_fix, fix_ptr, extract_variable,
      extract_global, extract_global_from, extract_global_datatype,
      gather_atoms, gather_atoms_concat, gather, gather_concat, gather_with, get_natoms,
      create_atoms, installed_packages, available_styles, available_ids, available_plugins;
    keeps_handle.
Qed.

(** *** The data type of an extraction *)

Lemma resolve_global_type (name : string) (dtype : option Z) (m : machine) :
  name <> ""%string ->
  (if py_eq dtype LAMMPS_AUTODETECT then extract_global_datatype (Some name) else ret dtype) m
  = (Return (fst (data_type_in_force
                    (lammps_extract_global_datatype (as_c_void_p (lmp (self m))) name) dtype m)),
     snd (data_type_in_force
            (lammps_extract_global_datatype (as_c_void_p (lmp (self m))) name) dtype m)).
Proof.
  intros Hname. unfold data_type_in_force, extract_global_datatype.
  rewrite (truthy_nonempty _ Hname).
  destruct (py_eq dtype LAMMPS_AUTODETECT); [|reflexivity].
  unfold bind, get, ret. cbn [fst snd from_option]. unfold Datatypes.id.
  rewrite call_eq. reflexivity.
Qed.

Lemma resolve_atom_type (name : string) (dtype : option Z) (m : machine) :
  name <> ""%string ->
  (if py_eq dtype LAMMPS_AUTODETECT then extract_atom_datatype (Some name) else ret dtype) m
  = (Return (fst (data_type_in_force
                    (lammps_extract_atom_datatype (as_c_void_p (lmp (self m))) name) dtype m)),
     snd (data_type_in_force
            (lammps_extract_atom_datatype (as_c_void_p (lmp (self m))) name) dtype m)).
Proof.
  intros Hname. unfold data_type_in_force, extract_atom_datatype.
  rewrite (truthy_nonempty _ Hname).
  destruct (py_eq dtype LAMMPS_AUTODETECT); [|reflexivity].
  unfold bind, get, ret. cbn [fst snd from_option]. unfold Datatypes.id.
  rewrite call_eq. reflexivity.
Qed.

Lemma data_type_in_force_self (q : native Z) (dtype : option Z) (m : machine) :
  self (snd (data_type_in_force q dtype m)) = self m.
Proof. unfold data_type_in_force. destruct (py_eq dtype LAMMPS_AUTODETECT); reflexivity. Qed.

Lemma vec_dict_three (name : string) (n : Z) : dict_get vec_dict name = Some n -> n = 3.
Proof.
  unfold vec_dict. cbn [dict_get].
  repeat (destruct (String.eqb name _); [intros [= <-]; reflexivity|]).
  discriminate.
Qed.

(** Reading cell [i] of a non-NULL result with the conversion that goes
    with its data type. *)
Lemma read_cell (t : ctype) (tg : target) (ptr : pyval (POINTER t)) (i : Z) (m : machine) :
  In (t, tg) [(c_int32, py_int); (c_int64, py_int); (c_double, py_float)] ->
  (address ptr =? 0) = false ->
  apply_target (Some tg) (getitem (POINTER t) ptr i) m = (Return (of_cell t (pointee ptr i)), m).
Proof.
  intros Hin Hptr. cbn [In] in Hin.
  destruct Hin as [[= <- <-] | [[= <- <-] | [[= <- <-] | []]]];
    cbn [apply_target getitem]; unfold bind, index; rewrite Hptr; reflexivity.
Qed.

Lemma read_cells (t : ctype) (tg : target) (ptr : pyval (POINTER t)) (idxs : list Z)
    (acc : list pyobj) (m : machine) :
  In (t, tg) [(c_int32, py_int); (c_int64, py_int); (c_double, py_float)] ->
  (address ptr =? 0) = false ->
  for_each idxs
    (fun i result => v <- apply_target (Some tg) (getitem (POINTER t) ptr i) ;;
                     ret (result ++ [v]))
    acc m
  = (Return (acc ++ map (fun i => of_cell t (pointee ptr i)) idxs), m).
Proof.
  intros Hin Hptr. revert acc.
  induction idxs as [|i idxs IH]; intros acc; cbn [for_each map].
  - rewrite app_nil_r. reflexivity.
  - unfold bind at 1 2. rewrite (read_cell _ _ _ _ _ Hin Hptr). unfold ret at 1.
    rewrite IH, <- app_assoc. reflexivity.
Qed.

(** The call of [lammps_extract_global] and the reading of its result,
    once a numeric result type is declared and the conversion assigned:
    the length [veclen] is an int. *)
Lemma read_global (t : ctype) (tg : target) (name : string) (n : Z) (m : machine) :
  In (t, tg) [(c_int32, py_int); (c_int64, py_int); (c_double, py_float)] ->
  let e := lammps_extract_global (as_c_void_p (lmp (self m))) name (POINTER t) in
  let ptr := fst (lib _ e (world m)) in
  (ptr <- call e ;;
   if truthy_c (POINTER t) ptr then
     if false then decode_result (POINTER t) ptr
     else
       vector <- greater_than_one (PyInt n) ;;
       if vector then
         idxs <- range_of (PyInt n) ;;
         result <- for_each idxs
                     (fun i result =>
                        v <- apply_target (Some tg) (getitem (POINTER t) ptr i) ;;
                        ret (result ++ [v]))
                     [] ;;
         ret (PyList result)
       else apply_target (Some tg) (getitem (POINTER t) ptr 0)
   else ret PyNone) m
  = (Return (if address ptr =? 0 then PyNone
             else if 1 <? n
                  then PyList (map (fun i => of_cell t (pointee ptr i)) (range n))
                  else of_cell t (pointee ptr 0)),
     mk_machine (self m) (snd (lib _ e (world m))) (calls m ++ [log e])).
Proof.
  intros Htg e ptr.
  unfold bind at 1. rewrite call_eq. cbn [fst snd self world calls truthy_c]. fold e ptr.
  destruct (address ptr =? 0) eqn:Hptr; cbn [negb]; [reflexivity|].
  cbn [greater_than_one range_of]. unfold bind at 1, ret at 1.
  destruct (1 <? n).
  - unfold bind at 1, ret at 1. unfold bind at 1.
    rewrite (read_cells _ _ _ _ _ _ Htg Hptr). reflexivity.
  - apply read_cell; assumption.
Qed.

(** The same when the length is [None]. *)
Lemma read_global_no_length (t : ctype) (tg : target) (name : string) (m : machine) :
  let e := lammps_extract_global (as_c_void_p (lmp (self m))) name (POINTER t) in
  let ptr := fst (lib _ e (world m)) in
  (ptr <- call e ;;
   if truthy_c (POINTER t) ptr then
     if false then decode_result (POINTER t) ptr
     else
       vector <- greater_than_one PyNone ;;
       if vector then
         idxs <- range_of PyNone ;;
         result <- for_each idxs
                     (fun i result =>
                        v <- apply_target (Some tg) (getitem (POINTER t) ptr i) ;;
                        ret (result ++ [v]))
                     [] ;;
         ret (PyList result)
       else apply_target (Some tg) (getitem (POINTER t) ptr 0)
   else ret PyNone) m
  = (if address ptr =? 0 then Return PyNone
     else Raise (TypeError "'>' not supported between these instances"),
     mk_machine (self m) (snd (lib _ e (world m))) (calls m ++ [log e])).
Proof.
  intros e ptr.
  unfold bind at 1. rewrite call_eq. cbn [fst snd self world calls truthy_c]. fold e ptr.
  destruct (address ptr =? 0); reflexivity.
Qed.

Ltac by_read_global name m1 t tg n :=
  exact (read_global t tg name n
           (mk_machine (set_extract_global_restype (POINTER t) (self m1)) (world m1) (calls m1))
           ltac:(simpl; tauto)).

(** [extract_global] for a numeric data type and a name whose length is
    fixed, whatever statement stands for the query of ['respa_levels']. *)
Lemma extract_global_from_cells (respa_levels : M pyobj) (name : string) (dtype : option Z)
    (code : Z) (t : ctype) (m : machine) :
  name <> ""%string ->
  name <> "respa_dt"%string ->
  global_types_differ ->
  In (code, t) numeric_global_types ->
  let h := as_c_void_p (lmp (self m)) in
  let q := lammps_extract_global_datatype h name in
  fst (data_type_in_force q dtype m) = Some code ->
  let m1 := snd (data_type_in_force q dtype m) in
  let e := lammps_extract_global h name (POINTER t) in
  let ptr := fst (lib _ e (world m1)) in
  extract_global_from respa_levels (Some name) dtype m =
    (Return (if address ptr =? 0 then PyNone
             else match dict_get vec_dict name with
                  | Some _ => PyList (map (fun i => of_cell t (pointee ptr i)) [0; 1; 2])
                  | None => of_cell t (pointee ptr 0)
                  end),
     mk_machine (set_extract_global_restype (POINTER t) (self m))
                (snd (lib _ e (world m1))) (calls m1 ++ [log e])).
Proof.
  intros Hname Hrespa Hdiff Hin h q Hdt m1.
  destruct Hdiff as [D1 [D2 [D3 [D4 [D5 D6]]]]].
  apply Z.eqb_neq in D1, D2, D3, D4, D5, D6.
  pose proof D4 as S4. pose proof D5 as S5. pose proof D6 as S6.
  rewrite Z.eqb_sym in S4, S5, S6.
  pose proof (data_type_in_force_self q dtype m) as Hself. fold m1 in Hself.
  intros e ptr. subst e ptr h. rewrite <- Hself.
  unfold extract_global_from.
  unfold bind at 1. rewrite (resolve_global_type _ _ _ Hname).
  fold q m1. rewrite Hdt, (truthy_nonempty _ Hname).
  cbn [from_option py_eq]. unfold Datatypes.id.
  destruct (String.eqb_spec name "respa_dt") as [E|_]; [contradiction|].
  cbn [In numeric_global_types] in Hin.
  destruct Hin as [Hin | [Hin | [Hin | []]]]; injection Hin as <- <-;
    rewrite ?Z.eqb_refl, ?D1, ?D2, ?D3, ?S4, ?S5, ?S6;
    (destruct (dict_get vec_dict name) as [n|] eqn:Hd;
     [apply vec_dict_three in Hd; subst n|]).
  all: first
         [ by_read_global name m1 c_int32 py_int 3
         | by_read_global name m1 c_int32 py_int 1
         | by_read_global name m1 c_int64 py_int 3
         | by_read_global name m1 c_int64 py_int 1
         | by_read_global name m1 c_double py_float 3
         | by_read_global name m1 c_double py_float 1 ].
Qed.

(** X9. [extract_global] of a name other than ['respa_dt'], when the
    data type in force (the one asked for or, by default, the one the
    library reports for the name) is [LAMMPS_INT], [LAMMPS_INT64] or
    [LAMMPS_DOUBLE]: the wrapper declares the matching pointer type as
    the result type, which stays declared afterwards, and makes one call
    of [lammps_extract_global].  On a NULL result it returns [None];
    otherwise, for the seven names of [vec_dict] it returns the list of
    the three cells [ptr[0]], [ptr[1]], [ptr[2]], and for any other name
    the single cell [ptr[0]]. *)
Theorem extract_global_reads_cells (name : string) (dtype : option Z) (code : Z) (t : ctype)
    (m : machine) :
  name <> ""%string ->
  name <> "respa_dt"%string ->
  global_types_differ ->
  In (code, t) numeric_global_types ->
  let h := as_c_void_p (lmp (self m)) in
  let q := lammps_extract_global_datatype h name in
  fst (data_type_in_force q dtype m) = Some code ->
  let m1 := snd (data_type_in_force q dtype m) in
  let e := lammps_extract_global h name (POINTER t) in
  let ptr := fst (lib _ e (world m1)) in
  extract_global (Some name) dtype m =
    (Return (if address ptr =? 0 then PyNone
             else match dict_get vec_dict name with
                  | Some _ => PyList (map (fun i => of_cell t (pointee ptr i)) [0; 1; 2])
                  | None => of_cell t (pointee ptr 0)
                  end),
     mk_machine (set_extract_global_restype (POINTER t) (self m))
                (snd (lib _ e (world m1))) (calls m1 ++ [log e])).
Proof.
  intros Hname Hrespa Hdiff Hin h q Hdt m1 e ptr.
  exact (extract_global_from_cells _ name dtype code t m Hname Hrespa Hdiff Hin Hdt).
Qed.

(** X10. [extract_global] of a name other than ['respa_dt'], when the
    data type in force is none of [LAMMPS_INT], [LAMMPS_INT64],
    [LAMMPS_DOUBLE] and [LAMMPS_STRING] (for instance the [-1] the
    library reports for a name it does not know): the wrapper declares
    no result type and assigns no conversion, and still makes the call,
    whose result is read with the result type left by the previous
    extraction.  A result that is false under that type gives [None]; any
    other result raises [UnboundLocalError], since the conversion
    [target_type] is applied without having been assigned. *)
Theorem extract_global_unassigned_target (name : string) (dtype : option Z) (m : machine) :
  name <> ""%string ->
  name <> "respa_dt"%string ->
  let h := as_c_void_p (lmp (self m)) in
  let q := lammps_extract_global_datatype h name in
  known_global_type (fst (data_type_in_force q dtype m)) = false ->
  let m1 := snd (data_type_in_force q dtype m) in
  let restype := extract_global_restype (self m) in
  let e := lammps_extract_global h name restype in
  let ptr := fst (lib _ e (world m1)) in
  snd (extract_global (Some name) dtype m) =
    mk_machine (self m) (snd (lib _ e (world m1))) (calls m1 ++ [log e])
  /\ exists msg,
       fst (extract_global (Some name) dtype m) =
         if truthy_c restype ptr then Raise (UnboundLocalError msg) else Return PyNone.
Proof.
  intros Hname Hrespa h q Hknown m1 restype e ptr.
  pose proof (data_type_in_force_self q dtype m) as Hself. fold m1 in Hself.
  unfold known_global_type in Hknown.
  apply orb_false_iff in Hknown. destruct Hknown as [Hknown P4].
  apply orb_false_iff in Hknown. destruct Hknown as [Hknown P3].
  apply orb_false_iff in Hknown. destruct Hknown as [P1 P2].
  assert (Hrun : extract_global (Some name) dtype m =
                 (if truthy_c restype ptr
                  then Raise (UnboundLocalError
                                "local variable 'target_type' referenced before assignment")
                  else Return PyNone,
                  mk_machine (self m) (snd (lib _ e (world m1))) (calls m1 ++ [log e]))).
  { subst ptr e restype h. rewrite <- Hself.
    unfold extract_global, extract_global_from.
    unfold bind at 1. rewrite (resolve_global_type _ _ _ Hname).
    fold q m1. rewrite (truthy_nonempty _ Hname), P1, P2, P3, P4.
    cbn [from_option]. unfold Datatypes.id.
    destruct (String.eqb_spec name "respa_dt") as [E|_]; [contradiction|].
    destruct (dict_get vec_dict name) as [n|] eqn:Hd;
      [apply vec_dict_three in Hd; subst n|];
      unfold bind, ret, get; cbn [fst snd]; rewrite call_eq; cbn [fst snd];
      destruct (truthy_c _ _); reflexivity. }
  rewrite Hrun. split; [reflexivity|]. eexists. reflexivity.
Qed.

Lemma extract_atom_restype_pointer (dtype : option Z) (t : ctype) :
  extract_atom_restype dtype = Some t -> exists t', t = POINTER t'.
Proof.
  unfold extract_atom_restype.
  repeat (destruct (py_eq dtype _); [intros [= <-]; eexists; reflexivity|]).
  discriminate.
Qed.

(** X11. [extract_atom] never raises and never returns a NULL pointer
    object: its result is [None] or a pointer whose address is not 0.
    When the data type in force (the one asked for or, by default, the
    one the library reports for the name) is none of the six it declares
    a result type for, it returns [None] without calling
    [lammps_extract_atom]. *)
Theorem extract_atom_none_or_pointer (name : option string) (dtype : option Z) (m : machine) :
  (exists r, fst (extract_atom name dtype m) = Return r
             /\ match r with
                | PyNone => True
                | PyPointer t p => address p <> 0
                | _ => False
                end)
  /\ (forall text, name = Some text -> text <> ""%string ->
        let q := lammps_extract_atom_datatype (as_c_void_p (lmp (self m))) text in
        extract_atom_restype (fst (data_type_in_force q dtype m)) = None ->
        extract_atom name dtype m = (Return PyNone, snd (data_type_in_force q dtype m))).
Proof.
  split.
  - unfold extract_atom, extract_atom_datatype.
    destruct (truthy_text name) eqn:Hname.
    + unfold bind, get, ret.
      destruct (py_eq dtype LAMMPS_AUTODETECT); rewrite ?call_eq; cbn [fst snd];
        (destruct (extract_atom_restype _) as [t|] eqn:Ht; [|exists PyNone; split; trivial]);
        destruct (extract_atom_restype_pointer _ _ Ht) as [t' ->];
        rewrite call_eq; cbn [fst snd truthy_c of_cell];
        match goal with |- context [address ?p =? 0] =>
          destruct (Z.eqb_spec (address p) 0); cbn [negb fst]
        end;
        eexists; (split; [reflexivity|]); first [exact I | assumption].
    + exists PyNone. split; [|exact I].
      unfold bind, ret. destruct (py_eq dtype LAMMPS_AUTODETECT); reflexivity.
  - intros text -> Htext q Hnone.
    unfold extract_atom. unfold bind at 1. rewrite (resolve_atom_type _ _ _ Htext).
    fold q. rewrite (truthy_nonempty _ Htext), Hnone. reflexivity.
Qed.

(** X12. Constants the wrapper does not know make an extraction return
    [None] and leave the machine as it was, so the library is not
    called: a type that is none of the six for [extract_compute], a
    style that is none of the three for [extract_compute] (unless a
    vector or an array is asked for, where the style is not looked at)
    and for [extract_fix], and a variable type that is none of the two
    for [extract_variable]. *)
Theorem unknown_constants_give_none (id : option string) (style type vartype : Z)
    (m : machine) :
  (~ In type [LMP_TYPE_SCALAR; LMP_TYPE_VECTOR; LMP_TYPE_ARRAY;
              LMP_SIZE_COLS; LMP_SIZE_VECTOR; LMP_SIZE_ROWS] ->
   extract_compute id style type m = (Return PyNone, m))
  /\ (~ In style [LMP_STYLE_GLOBAL; LMP_STYLE_ATOM; LMP_STYLE_LOCAL] ->
      ~ In type [LMP_TYPE_VECTOR; LMP_TYPE_ARRAY] ->
      extract_compute id style type m = (Return PyNone, m))
  /\ (~ In style [LMP_STYLE_GLOBAL; LMP_STYLE_ATOM; LMP_STYLE_LOCAL] ->
      forall nrow ncol, extract_fix id style type nrow ncol m = (Return PyNone, m))
  /\ (~ In vartype [LMP_VAR_EQUAL; LMP_VAR_ATOM] ->
      forall group, extract_variable id group vartype m = (Return PyNone, m)).
Proof.
  assert (Hne : forall (a : Z) (l : list Z) (b : Z), ~ In a l -> In b l -> (a =? b) = false).
  { intros a l b Hnot Hin. apply Z.eqb_neq. intros ->. contradiction. }
  split; [|split; [|split]].
  - intros H. unfold extract_compute.
    rewrite !(Hne _ _ _ H) by (cbn [In]; tauto).
    destruct (truthy_text id); reflexivity.
  - intros Hs Ht. unfold extract_compute.
    rewrite !(Hne _ _ _ Hs) by (cbn [In]; tauto).
    rewrite (Hne _ _ LMP_TYPE_VECTOR Ht), (Hne _ _ LMP_TYPE_ARRAY Ht) by (cbn [In]; tauto).
    cbn [orb].
    destruct (truthy_text id); [|reflexivity].
    repeat (match goal with |- context [if ?b then _ else _] => destruct b end);
      reflexivity.
  - intros Hs nrow ncol. unfold extract_fix.
    rewrite !(Hne _ _ _ Hs) by (cbn [In]; tauto).
    destruct (truthy_text id); reflexivity.
  - intros Hv group. unfold extract_variable.
    rewrite !(Hne _ _ _ Hv) by (cbn [In]; tauto).
    destruct (truthy_text id); reflexivity.
Qed.

(** *** The buffer of a gather *)

(** A cell of a buffer after the native side has stored into it: what
    was stored there, or what the buffer held. *)
Lemma store_lookup {A} (sb written : list A) (i : nat) :
  (i < length sb)%nat ->
  store sb written !! i = match written !! i with Some x => Some x | None => sb !! i end.
Proof.
  intros Hi. unfold store.
  rewrite lookup_take_lt by exact Hi.
  destruct (written !! i) as [x|] eqn:E.
  - rewrite lookup_app_l by (apply lookup_lt_is_Some; eauto). exact E.
  - apply lookup_ge_None in E.
    rewrite lookup_app_r by exact E.
    rewrite lookup_drop. f_equal. lia.
Qed.

Lemma lookup_repeat {A} (x : A) (n i : nat) : (i < n)%nat -> repeat x n !! i = Some x.
Proof.
  revert i. induction n as [|n IH]; intros i Hi; [lia|].
  destruct i as [|i]; [reflexivity|]. cbn. apply IH. lia.
Qed.

Lemma get_natoms_run (m : machine) :
  get_natoms m =
  (fst (int_of_double (fst (lib _ (lammps_get_natoms (as_c_void_p (lmp (self m)))) (world m)))
          m),
   mk_machine (self m)
              (snd (lib _ (lammps_get_natoms (as_c_void_p (lmp (self m)))) (world m)))
              (calls m ++ [log (lammps_get_natoms (as_c_void_p (lmp (self m))))])).
Proof.
  unfold get_natoms, bind, get. cbn [fst snd]. rewrite call_eq.
  destruct (fst (lib _ _ _)) as [q| |]; reflexivity.
Qed.

Lemma get_natoms_self (m : machine) : self (snd (get_natoms m)) = self m.
Proof. rewrite get_natoms_run. reflexivity. Qed.

Lemma gathers_gather_with g f :
  In (g, f) gathers -> g = gather_with f.
Proof.
  unfold gathers. cbn [In].
  intros [H | [H | [H | [H | []]]]]; injection H as <- <-; reflexivity.
Qed.




(** X16. [extract_global('respa_dt')] with the data type
    [LAMMPS_DOUBLE] in force first extracts ['respa_levels'] as an int
    and takes it for the length; it then extracts ['respa_dt'] itself.
    The library is called twice, in that order.  When the second result
    is NULL the value is [None]; else, when the number of levels is not
    known (NULL) the comparison of [None] with 1 raises [TypeError];
    else the value is the list of that many cells when the number of
    levels exceeds 1, and the single cell [ptr[0]], not a list, when it
    does not. *)
Theorem extract_global_respa_dt (dtype : option Z) (m : machine) :
  global_types_differ ->
  LAMMPS_AUTODETECT <> Some LAMMPS_INT ->
  let h := as_c_void_p (lmp (self m)) in
  let q := lammps_extract_global_datatype h "respa_dt" in
  fst (data_type_in_force q dtype m) = Some LAMMPS_DOUBLE ->
  let m1 := snd (data_type_in_force q dtype m) in
  let e1 := lammps_extract_global h "respa_levels" (POINTER c_int32) in
  let levels := fst (lib _ e1 (world m1)) in
  let e2 := lammps_extract_global h "respa_dt" (POINTER c_double) in
  let ptr := fst (lib _ e2 (snd (lib _ e1 (world m1)))) in
  calls (snd (extract_global (Some "respa_dt"%string) dtype m)) = calls m1 ++ [log e1; log e2]
  /\ exists msg,
       fst (extract_global (Some "respa_dt"%string) dtype m) =
         if address ptr =? 0 then Return PyNone
         else if address levels =? 0 then Raise (TypeError msg)
         else if 1 <? pointee levels 0
              then Return (PyList (map (fun i => PyFloat (pointee ptr i))
                                       (range (pointee levels 0))))
              else Return (PyFloat (pointee ptr 0)).
Proof.
  intros Hdiff Hauto h q Hdt m1 e1 levels e2 ptr.
  pose proof (data_type_in_force_self q dtype m) as Hself. fold m1 in Hself.
  assert (Hint : data_type_in_force
                   (lammps_extract_global_datatype (as_c_void_p (lmp (self m1))) "respa_levels")
                   (Some LAMMPS_INT) m1 = (Some LAMMPS_INT, m1)).
  { unfold data_type_in_force. destruct LAMMPS_AUTODETECT as [a|]; [|reflexivity].
    cbn [py_eq]. destruct (Z.eqb_spec LAMMPS_INT a) as [<-|_]; [|reflexivity].
    contradiction Hauto; reflexivity. }
  pose proof (extract_global_from_cells (ret (PyInt 1)) "respa_levels" (Some LAMMPS_INT)
                LAMMPS_INT c_int32 m1) as Hinner.
  cbv zeta in Hinner. rewrite Hint in Hinner. cbn [fst snd] in Hinner.
  specialize (Hinner ltac:(discriminate) ltac:(discriminate) Hdiff ltac:(simpl; tauto) eq_refl).
  rewrite Hself in Hinner. fold h e1 levels in Hinner.
  destruct Hdiff as [D1 [D2 [D3 [D4 [D5 D6]]]]].
  apply Z.eqb_neq in D2, D3, D6. rewrite Z.eqb_sym in D6.
  assert (Hrun :
    extract_global (Some "respa_dt"%string) dtype m =
    (if address ptr =? 0 then Return PyNone
     else if address levels =? 0
          then Raise (TypeError "'>' not supported between these instances")
          else if 1 <? pointee levels 0
               then Return (PyList (map (fun i => PyFloat (pointee ptr i))
                                        (range (pointee levels 0))))
               else Return (PyFloat (pointee ptr 0)),
     mk_machine (set_extract_global_restype (POINTER c_double) (self m))
                (snd (lib _ e2 (snd (lib _ e1 (world m1)))))
                ((calls m1 ++ [log e1]) ++ [log e2]))).
  { unfold extract_global. unfold extract_global_from at 1.
    unfold bind at 1. rewrite (resolve_global_type "respa_dt") by discriminate.
    fold h q m1. rewrite Hdt.
    change (dict_get vec_dict (default ""%string (Some "respa_dt"%string))) with (@None Z).
    change (String.eqb (default ""%string (Some "respa_dt"%string)) "respa_dt") with true.
    change (truthy_text (Some "respa_dt"%string)) with true.
    cbn [from_option py_eq]. unfold Datatypes.id.
    rewrite ?Z.eqb_refl, ?D2, ?D3, ?D6.
    unfold bind at 1. rewrite Hinner.
    change (dict_get vec_dict "respa_levels") with (@None Z). cbv iota.
    destruct (address levels =? 0) eqn:Hl.
    - etransitivity;
        [exact (read_global_no_length c_double py_float "respa_dt"
                  (mk_machine (set_extract_global_restype (POINTER c_double) (self m))
                              (snd (lib _ e1 (world m1))) (calls m1 ++ [log e1])))|].
      cbn [self world calls lmp set_extract_global_restype]. fold h e2 ptr.
      destruct (address ptr =? 0); reflexivity.
    - etransitivity;
        [exact (read_global c_double py_float "respa_dt" (pointee levels 0)
                  (mk_machine (set_extract_global_restype (POINTER c_double) (self m))
                              (snd (lib _ e1 (world m1))) (calls m1 ++ [log e1]))
                  ltac:(simpl; tauto))|].
      cbn [self world calls lmp set_extract_global_restype of_cell]. fold h e2 ptr.
      destruct (address ptr =? 0); [reflexivity|].
      destruct (1 <? pointee levels 0); reflexivity. }
  rewrite Hrun. cbn [fst snd calls]. split.
  - rewrite <- app_assoc. reflexivity.
  - eexists. reflexivity.
Qed.

(** * Properties of the operations on the further entry points *)

Lemma call_ext_eq {R} (e : native_ext R) (m : machine_ext) :
  call_ext e m =
  (Return (fst (lib_ext R e (world (base m)))),
   mk_machine_ext
     (mk_machine (self (base m)) (snd (lib_ext R e (world (base m)))) (calls (base m)))
     (calls_ext m ++ [log_ext e])).
Proof. unfold call_ext. destruct (lib_ext R e (world (base m))); reflexivity. Qed.

Lemma lift_eq {A} (c : M A) (m : machine_ext) :
  lift c m = (fst (c (base m)), mk_machine_ext (snd (c (base m))) (calls_ext m)).
Proof. unfold lift. destruct (c (base m)); reflexivity. Qed.

(** Around calls of the further entry points the shim behaves as around
    the others: it leaves the object and the log of these calls alone,
    adds only its own queries to the log of the machine underneath, and
    lets the outcome of the body stand when no error is pending. *)
Lemma ExceptionCheck_ext_calls {A} (body : M_ext A) (m : machine_ext) :
  calls_ext (snd (ExceptionCheck_ext body m)) = calls_ext (snd (body m))
  /\ self (base (snd (ExceptionCheck_ext body m))) = self (base (snd (body m)))
  /\ exists q, calls (base (snd (ExceptionCheck_ext body m))) = calls (base (snd (body m))) ++ q
               /\ forallb is_shim_query q = true.
Proof.
  unfold ExceptionCheck_ext. destruct (body m) as [r m1]; cbn [snd].
  rewrite lift_eq.
  pose proof (exit_self (base m1)) as Hself. pose proof (exit_calls (base m1)) as Hcalls.
  destruct (__exit__ (base m1)) as [[[]|e] m2]; cbn [fst snd base calls_ext] in *; auto.
Qed.

Lemma ExceptionCheck_ext_quiet {A} (body : M_ext A) (m : machine_ext) :
  error_free -> fst (ExceptionCheck_ext body m) = fst (body m).
Proof.
  intros Hfree. unfold ExceptionCheck_ext. destruct (body m) as [r m1]; cbn [fst].
  rewrite lift_eq.
  pose proof (exit_quiet (base m1) (Hfree _ _)) as Hq.
  destruct (__exit__ (base m1)) as [[[]|e] m2]; cbn [fst snd] in *; [reflexivity|discriminate].
Qed.

Lemma ExceptionCheck_ext_raises {A} (body : M_ext A) (m : machine_ext) (e : exn) :
  raised (fst (body m)) = false ->
  fst (ExceptionCheck_ext body m) = Raise e ->
  exists msg, e = MPIAbortException msg \/ e = Exception msg.
Proof.
  unfold ExceptionCheck_ext. destruct (body m) as [r m1]; cbn [fst].
  rewrite lift_eq. intros Hr.
  pose proof (exit_raises_translated (base m1)) as H.
  destruct (__exit__ (base m1)) as [[[]|e'] m2]; cbn [fst snd] in *.
  - intros ->. discriminate.
  - intros [= <-]. apply H. reflexivity.
Qed.

(** One wrapped call of a further entry point. *)
Lemma wrapped_call_ext {R} (e : native_ext R) (m : machine_ext) :
  calls_ext (snd (ExceptionCheck_ext (call_ext e) m)) = calls_ext m ++ [log_ext e]
  /\ self (base (snd (ExceptionCheck_ext (call_ext e) m))) = self (base m)
  /\ (exists q, calls (base (snd (ExceptionCheck_ext (call_ext e) m))) = calls (base m) ++ q
                /\ forallb is_shim_query q = true)
  /\ (error_free ->
      fst (ExceptionCheck_ext (call_ext e) m) = Return (fst (lib_ext R e (world (base m)))))
  /\ (forall x, fst (ExceptionCheck_ext (call_ext e) m) = Raise x ->
                exists msg, x = MPIAbortException msg \/ x = Exception msg).
Proof.
  destruct (ExceptionCheck_ext_calls (call_ext e) m) as [Hc [Hs Hq]].
  rewrite call_ext_eq in Hc, Hs, Hq. cbn [snd calls_ext base self calls] in Hc, Hs, Hq.
  split; [exact Hc|]. split; [exact Hs|]. split; [exact Hq|]. split.
  - intros Hfree. rewrite (ExceptionCheck_ext_quiet _ _ Hfree), call_ext_eq. reflexivity.
  - intros x. apply ExceptionCheck_ext_raises. rewrite call_ext_eq. reflexivity.
Qed.

Lemma new_array_ok (t : ctype) (n : Z) (init : list (pyval t)) (m : machine) :
  Z.of_nat (length init) <= n ->
  new_array t n init m
  = (Return (init ++ repeat (zero t) (Z.to_nat n - length init)), m).
Proof.
  intros H. unfold new_array.
  destruct (Z.ltb_spec n 0); [lia|].
  destruct (Z.ltb_spec n (Z.of_nat (length init))); [lia|]. reflexivity.
Qed.

Lemma new_array_long (t : ctype) (n : Z) (init : list (pyval t)) (m : machine) :
  0 <= n -> n < Z.of_nat (length init) ->
  new_array t n init m = (Raise (IndexError "invalid index"), m).
Proof.
  intros Hn H. unfold new_array.
  destruct (Z.ltb_spec n 0); [lia|].
  destruct (Z.ltb_spec n (Z.of_nat (length init))); [reflexivity|lia].
Qed.

Lemma length_omap_le {A B} (f : A -> option B) (l : list A) :
  (length (omap f l) <= length l)%nat.
Proof.
  induction l as [|a l IH]; [reflexivity|]. cbn. destruct (f a); cbn; lia.
Qed.


(** X18. [reset_box] builds two arrays of three doubles from the lists
    it is given.  A list of more than three entries is refused with
    [IndexError] before anything is called, and no list is truncated; a
    list of fewer than three entries is accepted and completed with
    zeros, so that the library is always handed three lower and three
    upper bounds, in exactly one call. *)
Theorem reset_box_takes_three (boxlo boxhi : list double) (xy yz xz : double)
    (m : machine_ext) :
  let run := reset_box boxlo boxhi xy yz xz m in
  let pad := fun l : list double => l ++ repeat (Finite 0%Q) (3 - length l) in
  ((3 < length boxlo)%nat \/ (3 < length boxhi)%nat ->
   exists msg, run = (Raise (IndexError msg), m))
  /\ ((length boxlo <= 3)%nat -> (length boxhi <= 3)%nat ->
      let e := lammps_reset_box (as_c_void_p (lmp (self (base m)))) (pad boxlo) (pad boxhi)
                 xy yz xz in
      length (pad boxlo) = 3%nat /\ length (pad boxhi) = 3%nat
      /\ calls_ext (snd run) = calls_ext m ++ [log_ext e]
      /\ (exists q, calls (base (snd run)) = calls (base m) ++ q
                    /\ forallb is_shim_query q = true)
      /\ (error_free -> fst run = Return tt)).
Proof.
  intros run pad. split.
  - intros Hlong. subst run. unfold reset_box. unfold bind_ext at 1. rewrite lift_eq.
    destruct (Nat.le_gt_cases (length boxlo) 3) as [Hlo|Hlo].
    + destruct Hlong as [Hlong|Hhi]; [lia|].
      rewrite new_array_ok by (cbn [pyval]; lia). cbn [fst snd].
      unfold bind_ext at 1. rewrite lift_eq.
      rewrite new_array_long by (cbn [pyval]; lia). cbn [fst snd].
      eexists. destruct m; reflexivity.
    + rewrite new_array_long by (cbn [pyval]; lia). cbn [fst snd].
      eexists. destruct m; reflexivity.
  - intros Hlo Hhi e.
    assert (Hrun : run = ExceptionCheck_ext (call_ext e) m).
    { subst run e pad. unfold reset_box.
      unfold bind_ext at 1. rewrite lift_eq.
      rewrite new_array_ok by (cbn [pyval]; lia). cbn [fst snd].
      unfold bind_ext at 1. rewrite lift_eq.
      rewrite new_array_ok by (cbn [pyval]; lia). cbn [fst snd].
      unfold bind_ext, lift, get. destruct m as [b c]. reflexivity. }
    rewrite Hrun.
    destruct (wrapped_call_ext e m) as [Hc [Hs [Hq [Hfree Hraise]]]].
    subst pad. cbn beta.
    split; [rewrite length_app, repeat_length; lia|].
    split; [rewrite length_app, repeat_length; lia|].
    split; [exact Hc|]. split; [exact Hq|].
    intros H. rewrite (Hfree H). f_equal.
    match goal with |- ?u = () => destruct u end. reflexivity.
Qed.

(** A buffer of [n] zeros after the native side has stored into it. *)
Lemma zeros_stored (t : ctype) (n : nat) (written : list (pyval t)) (i : nat) :
  store (repeat (zero t) n) written !! i
  = if (i <? n)%nat then Some (default (zero t) (written !! i)) else None.
Proof.
  destruct (Nat.ltb_spec i n) as [Hi|Hi].
  - rewrite store_lookup by (rewrite repeat_length; exact Hi).
    destruct (written !! i); [reflexivity|].
    cbn [from_option]. apply lookup_repeat. exact Hi.
  - apply lookup_ge_None. rewrite length_store, repeat_length. exact Hi.
Qed.

Lemma zeros_stored_value (t : ctype) (written : list (pyval t)) :
  cell_value t (store (repeat (zero t) 1) written) = default (zero t) (written !! 0%nat).
Proof.
  pose proof (zeros_stored t 1 written 0) as H. cbn [Nat.ltb Nat.leb] in H.
  unfold cell_value.
  destruct (store (repeat (zero t) 1) written) as [|x l]; [discriminate H|].
  cbn in H. injection H as ->. reflexivity.
Qed.

Lemma firstn_all_of {A} (n : nat) (l : list A) : length l = n -> firstn n l = l.
Proof. intros <-. apply firstn_all. Qed.

(** X19. With a library that reports no error, [extract_box] returns
    three lower bounds, three upper bounds and three periodicity flags,
    whatever the library stored: each entry, and each of the tilt
    factors and the change flag, is the value the library stored in that
    cell, or 0 where it stored nothing.  The library is asked once. *)
Theorem extract_box_three_entries (m : machine_ext) :
  error_free ->
  let e := lammps_extract_box (as_c_void_p (lmp (self (base m)))) in
  let '(w_boxlo, w_boxhi, w_xy, w_yz, w_xz, w_periodicity, w_box_change) :=
    fst (lib_ext _ e (world (base m))) in
  let three := fun (t : ctype) (w : list (pyval t)) =>
                 map (fun i => default (zero t) (w !! i)) [0; 1; 2]%nat in
  fst (extract_box m) =
    Return (three c_double w_boxlo, three c_double w_boxhi,
            default (zero c_double) (w_xy !! 0%nat),
            default (zero c_double) (w_yz !! 0%nat),
            default (zero c_double) (w_xz !! 0%nat),
            three c_int w_periodicity,
            default (zero c_int) (w_box_change !! 0%nat))
  /\ calls_ext (snd (extract_box m)) = calls_ext m ++ [log_ext e].
Proof.
  intros Hfree e.
  destruct (wrapped_call_ext e m) as [Hc [Hs [Hq [Hret Hraise]]]].
  specialize (Hret Hfree).
  assert (Hthree : forall (t : ctype) (w : list (pyval t)),
            firstn 3 (store (repeat (zero t) 3) w)
            = map (fun i => default (zero t) (w !! i)) [0; 1; 2]%nat).
  { intros t w.
    rewrite firstn_all_of by (rewrite length_store; reflexivity).
    apply list_eq. intros i.
    rewrite zeros_stored.
    destruct i as [|[|[|i]]]; reflexivity. }
  destruct (extract_box m) as [r mf] eqn:Hrun.
  unfold extract_box in Hrun.
  repeat (unfold bind_ext at 1 in Hrun; rewrite lift_eq in Hrun;
          cbn [fst snd new_cells Z.ltb Z.compare ret get base calls_ext] in Hrun).
  change (Z.to_nat 3) with 3%nat in Hrun. change (Z.to_nat 1) with 1%nat in Hrun.
  unfold bind_ext in Hrun.
  replace (mk_machine_ext (base m) (calls_ext m)) with m in Hrun by (destruct m; reflexivity).
  fold e in Hrun.
  destruct (ExceptionCheck_ext (call_ext e) m) as [r1 m1].
  cbn [fst snd] in Hret, Hc. subst r1.
  destruct (fst (lib_ext _ e (world (base m))))
    as [[[[[[w_boxlo w_boxhi] w_xy] w_yz] w_xz] w_periodicity] w_box_change].
  unfold ret_ext in Hrun. injection Hrun as <- <-. cbn [fst snd].
  split; [|exact Hc].
  repeat f_equal;
    first [ exact (Hthree c_double _) | exact (Hthree c_int _)
          | exact (zeros_stored_value c_double _) | exact (zeros_stored_value c_int _) ].
Qed.




(** The loop over the settings of one category: every setting is asked
    for, and those the library enables are appended in order. *)
Lemma enabled_settings_run (enabled : string -> string -> string -> Z) (p c : string)
    (settings : list string) :
  (forall w p c s, fst (lib_ext Z (lammps_config_accelerator p c s) w) = enabled p c s) ->
  forall (result : gmap string (gmap string (list string))) (d : gmap string (list string))
         (l : list string) (m : machine_ext),
    result !! p = Some d ->
    d !! c = Some l ->
    exists m',
      enabled_settings p c settings result m
      = (Return (<[p := <[c := l ++ List.filter (fun s => truthy_int (enabled p c s)) settings]> d]>
                   result), m')
      /\ calls_ext m' = calls_ext m ++ setting_queries p c settings
      /\ calls (base m') = calls (base m)
      /\ self (base m') = self (base m).
Proof.
  intros Hlib. unfold enabled_settings.
  induction settings as [|s settings IH]; intros result d l m Hp Hc.
  - exists m. cbn [for_each_ext List.filter setting_queries map]. rewrite !app_nil_r.
    rewrite (insert_id d) by exact Hc. rewrite (insert_id result) by exact Hp.
    repeat split; reflexivity.
  - cbn [for_each_ext]. unfold bind_ext at 1. unfold bind_ext at 1.
    rewrite call_ext_eq. cbn [fst snd]. rewrite Hlib.
    cbn [List.filter].
    assert (Happ : append_setting p c s result = <[p := <[c := l ++ [s]]> d]> result).
    { unfold append_setting. rewrite Hp. cbn [from_option]. unfold Datatypes.id.
      rewrite Hc. reflexivity. }
    rewrite Happ.
    destruct (truthy_int (enabled p c s)); unfold ret_ext at 1.
    + match goal with |- context [for_each_ext _ _ ?r ?m1] =>
        destruct (IH r (<[c := l ++ [s]]> d) (l ++ [s]) m1) as [m' [E [Hce [Hcb Hs]]]]
      end.
      { apply lookup_insert_eq. }
      { apply lookup_insert_eq. }
      exists m'. rewrite E. cbn [calls_ext base calls self] in Hce, Hcb, Hs.
      rewrite !insert_insert_eq, <- app_assoc.
      split; [reflexivity|]. split; [|split; assumption].
      rewrite Hce, <- app_assoc. reflexivity.
    + match goal with |- context [for_each_ext _ _ ?r ?m1] =>
        destruct (IH r d l m1 Hp Hc) as [m' [E [Hce [Hcb Hs]]]]
      end.
      exists m'. rewrite E. cbn [calls_ext base calls self] in Hce, Hcb, Hs.
      split; [reflexivity|]. split; [|split; assumption].
      rewrite Hce, <- app_assoc. reflexivity.
Qed.

(** One turn of the loop over the packages. *)
Lemma accelerator_package_run (enabled : string -> string -> string -> Z) (p : string)
    (result : gmap string (gmap string (list string))) (m : machine_ext) :
  (forall w p c s, fst (lib_ext Z (lammps_config_accelerator p c s) w) = enabled p c s) ->
  exists m',
    (let result := <[p := ∅]> result in
     let c := "api"%string in
     let result := new_settings p c result in
     bind_ext (enabled_settings p c accelerator_apis result)
       (fun result =>
          let c := "precision"%string in
          let result := new_settings p c result in
          enabled_settings p c accelerator_precisions result)) m
    = (Return (<[p := accelerator_entry enabled p]> result), m')
    /\ calls_ext m' = calls_ext m ++ setting_queries p "api" accelerator_apis
                        ++ setting_queries p "precision" accelerator_precisions
    /\ calls (base m') = calls (base m)
    /\ self (base m') = self (base m).
Proof.
  intros Hlib. cbv zeta. unfold new_settings.
  rewrite lookup_insert_eq. cbn [from_option]. unfold Datatypes.id.
  rewrite insert_insert_eq.
  destruct (enabled_settings_run enabled p "api" accelerator_apis Hlib
              (<[p := <["api"%string := []]> ∅]> result) (<["api"%string := []]> ∅) [] m)
    as [m1 [E1 [Hce1 [Hcb1 Hs1]]]]; [apply lookup_insert_eq | apply lookup_insert_eq |].
  unfold bind_ext. rewrite E1.
  rewrite ?insert_insert_eq, lookup_insert_eq. cbn [from_option app]. unfold Datatypes.id.
  rewrite ?insert_insert_eq.
  match goal with |- context [enabled_settings _ _ _ (<[p := ?d]> result) m1] =>
    destruct (enabled_settings_run enabled p "precision" accelerator_precisions Hlib
                (<[p := d]> result) d [] m1)
      as [m2 [E2 [Hce2 [Hcb2 Hs2]]]]; [apply lookup_insert_eq | apply lookup_insert_eq |]
  end.
  exists m2. rewrite E2. rewrite !insert_insert_eq. cbn [app].
  split; [reflexivity|]. split; [|split; congruence].
  rewrite Hce2, Hce1, <- app_assoc. reflexivity.
Qed.

Lemma accelerator_loop (enabled : string -> string -> string -> Z) (packages : list string) :
  (forall w p c s, fst (lib_ext Z (lammps_config_accelerator p c s) w) = enabled p c s) ->
  forall (result : gmap string (gmap string (list string))) (m : machine_ext),
  exists m',
    for_each_ext packages
      (fun p result =>
         let result := <[p := ∅]> result in
         let c := "api"%string in
         let result := new_settings p c result in
         bind_ext (enabled_settings p c accelerator_apis result)
           (fun result =>
              let c := "precision"%string in
              let result := new_settings p c result in
              enabled_settings p c accelerator_precisions result))
      result m
    = (Return (fold_left (fun r p => <[p := accelerator_entry enabled p]> r) packages result), m')
    /\ calls_ext m' =
         calls_ext m ++ flat_map (fun p => setting_queries p "api" accelerator_apis
                                           ++ setting_queries p "precision" accelerator_precisions)
                                 packages
    /\ calls (base m') = calls (base m)
    /\ self (base m') = self (base m).
Proof.
  intros Hlib. induction packages as [|p packages IH]; intros result m.
  - exists m. cbn. rewrite app_nil_r. repeat split; reflexivity.
  - cbn [for_each_ext fold_left flat_map]. unfold bind_ext at 1.
    destruct (accelerator_package_run enabled p result m Hlib) as [m1 [E1 [Hce1 [Hcb1 Hs1]]]].
    cbv zeta in E1. cbv zeta. rewrite E1.
    destruct (IH (<[p := accelerator_entry enabled p]> result) m1) as [m2 [E2 [Hce2 [Hcb2 Hs2]]]].
    exists m2. cbv zeta in E2. rewrite E2.
    split; [reflexivity|]. split; [|split; congruence].
    rewrite Hce2, Hce1, <- !app_assoc. reflexivity.
Qed.

(** X23. [accelerator_config] asks the library forty questions in a
    fixed order, for each of the four packages the seven settings of the
    category ['api'] and then the three of ['precision'], without
    consulting the shim.  With a library whose answers do not change
    during the run, the table returned has exactly the four packages as
    keys, and lists under each category of a package the settings the
    library enables, in the order of the wrapper's own lists. *)
Theorem accelerator_config_table (enabled : string -> string -> string -> Z)
    (m : machine_ext) :
  (forall w p c s, fst (lib_ext Z (lammps_config_accelerator p c s) w) = enabled p c s) ->
  exists result,
    fst (accelerator_config m) = Return result
    /\ (forall p, In p accelerator_packages -> result !! p = Some (accelerator_entry enabled p))
    /\ (forall p, ~ In p accelerator_packages -> result !! p = None)
    /\ calls_ext (snd (accelerator_config m)) = calls_ext m ++ accelerator_queries
    /\ length accelerator_queries = 40%nat
    /\ calls (base (snd (accelerator_config m))) = calls (base m).
Proof.
  intros Hlib. unfold accelerator_config.
  destruct (accelerator_loop enabled accelerator_packages Hlib ∅ m)
    as [m' [E [Hce [Hcb Hs]]]].
  cbv zeta in E. cbv zeta. rewrite E. cbn [fst snd]. eexists. split; [reflexivity|].
  cbn [fold_left accelerator_packages].
  split; [|split; [|split; [exact Hce | split; [reflexivity | exact Hcb]]]].
  - intros p Hin. cbn [In accelerator_packages] in Hin.
    destruct Hin as [<- | [<- | [<- | [<- | []]]]];
      rewrite ?lookup_insert_eq;
      repeat (rewrite lookup_insert_ne by discriminate; rewrite ?lookup_insert_eq);
      reflexivity.
  - intros p Hnot. cbn [In accelerator_packages] in Hnot.
    rewrite !lookup_insert_ne by (intros <-; apply Hnot; tauto).
    apply lookup_empty.
Qed.

End Wrapper.

(** * Concrete runs

    The wrapper after construction on the handle 1, run against the
    scripted libraries. *)

Lemma nothing_known_error_free : error_free unit (scripted nothing_known).
Proof. intros w h. reflexivity. Qed.

Lemma four_atoms_error_free : error_free unit (scripted four_atoms).
Proof. intros w h. reflexivity. Qed.

Lemma three_styles_error_free : error_free unit (scripted three_styles).
Proof. intros w h. reflexivity. Qed.

Lemma everything_known_error_free : error_free unit (scripted everything_known).
Proof. intros w h. reflexivity. Qed.

Lemma three_names_c_name (idx : Z) : c_name (three_names idx).
Proof.
  unfold three_names, c_name.
  destruct (idx =? 0); [|destruct (idx =? 1); [|destruct (idx =? 2)]];
    (split; [intros H; vm_compute in H; intuition discriminate | vm_compute; lia]).
Qed.

Lemma three_names_distinct : distinct_below 3 three_names.
Proof.
  intros i j Hi Hj.
  assert (Ei : i = 0 \/ i = 1 \/ i = 2) by lia.
  assert (Ej : j = 0 \/ j = 1 \/ j = 2) by lia.
  destruct Ei as [-> | [-> | ->]], Ej as [-> | [-> | ->]];
    vm_compute; intros H; try reflexivity; discriminate H.
Qed.

(** A command run against the aborting library raises the
    distinguished exception with the stripped message. *)
Example command_raises_MPIAbortException :
  fst (command unit (scripted aborting) (Some "run 100"%string)
         (mk_machine unit (fresh 1) tt []))
  = Raise (MPIAbortException "ERROR: Lost atoms").
Proof. vm_compute. reflexivity. Qed.



(** C3 on a concrete wrapper: closing twice calls the library once. *)
Example close_twice_destroys_once :
  calls unit (snd (bind unit (close unit (scripted nothing_known))
                     (fun _ => close unit (scripted nothing_known))
                     (mk_machine unit (fresh 1) tt [])))
  = [ log (lammps_close 1) ].
Proof. vm_compute. reflexivity. Qed.

(** C4: a witness, with the library in which nothing is known. *)
Lemma extraction_of_unknown_name_witness :
  fst (extract_compute unit (scripted nothing_known) (K := library_constants)
         (Some "nosuch"%string) 0 0 (mk_machine unit (fresh 1) tt []))
  = Raise (ValueError "NULL pointer access")
  /\ fst (extract_fix unit (scripted nothing_known) (K := library_constants)
            (Some "nosuch"%string) 0 0 0 0 (mk_machine unit (fresh 1) tt []))
     = Raise (ValueError "NULL pointer access")
  /\ fst (extract_atom unit (scripted nothing_known) (K := library_constants)
            (Some "nosuch"%string) None (mk_machine unit (fresh 1) tt []))
     = Return PyNone.
Proof.
  destruct (extraction_of_unknown_name unit (scripted nothing_known) (K := library_constants)
              "nosuch"%string (mk_machine unit (fresh 1) tt []))
    as [_ [Ha [_ [Hc [Hf _]]]]].
  - discriminate.
  - exact nothing_known_error_free.
  - intros w h []; reflexivity.
  - intros w h []; reflexivity.
  - intros w h group []; reflexivity.
  - intros w h style type []; reflexivity.
  - intros w h style type nrow ncol []; reflexivity.
  - split; [exact Hc|]. split; [exact (Hf 0 0) | exact (Ha None)].
Defined.




(** C7: a witness, with every pointer result at a non-NULL address: the
    value of the fix is returned and its buffer is freed once. *)
Lemma owned_result_is_freed_once_witness :
  exists q,
    calls unit (snd (extract_fix unit (scripted everything_known) (K := library_constants)
                       (Some "f"%string) 0 0 0 0 (mk_machine unit (fresh 1) tt [])))
    = [] ++ q
    /\ fst (extract_fix unit (scripted everything_known) (K := library_constants)
              (Some "f"%string) 0 0 0 0 (mk_machine unit (fresh 1) tt []))
       = Return (PyFloat (Finite 0%Q))
    /\ omap freed q = [4096].
Proof.
  destruct (owned_result_is_freed_once unit (scripted everything_known)
              (K := library_constants) "f"%string None 0 0 0
              (mk_machine unit (fresh 1) tt []))
    as [[q [Hq H]] _].
  - discriminate.
  - discriminate.
  - exact everything_known_error_free.
  - left. reflexivity.
  - exists q. split; [exact Hq | exact H].
Defined.





(** C10: a witness, on a style category, which is not an ID category. *)
Lemma available_ids_unknown_category_witness :
  available_ids unit (scripted two_pairs) "pair"%string (mk_machine unit (fresh 1) tt [])
  = (Return [], mk_machine unit (fresh 1) tt []).
Proof.
  apply (available_ids_unknown_category unit (scripted two_pairs)).
  intros H. vm_compute in H. intuition discriminate.
Defined.

(** * Concrete runs of the further properties *)

Lemma busy_error_free : error_free unit busy.
Proof. intros w h. reflexivity. Qed.

Lemma library_constants_differ : global_types_differ (K := library_constants).
Proof. repeat split; discriminate. Qed.

(** X2: a witness, the pair styles of the library with three styles. *)
Lemma available_styles_queries_once_witness :
  error_free unit (scripted three_styles)
  /\ bind unit (available_styles unit (scripted three_styles) "pair"%string)
       (fun _ => available_styles unit (scripted three_styles) "pair"%string)
       (mk_machine unit (fresh 1) tt [])
     = available_styles unit (scripted three_styles) "pair"%string
         (mk_machine unit (fresh 1) tt []).
Proof.
  split; [exact three_styles_error_free|].
  apply available_styles_queries_once. exact three_styles_error_free.
Defined.




(** X9: a witness, the lower box bounds as doubles. *)
Lemma extract_global_reads_cells_witness :
  fst (extract_global unit busy (K := library_constants) (Some "boxlo"%string) (Some 2)
         (mk_machine unit (fresh 1) tt []))
  = Return (PyList [PyFloat (Finite 3%Q); PyFloat (Finite 4%Q); PyFloat (Finite 5%Q)]).
Proof.
  pose proof (extract_global_reads_cells unit busy (K := library_constants) "boxlo"%string
                (Some 2) 2 c_double (mk_machine unit (fresh 1) tt [])
                ltac:(discriminate) ltac:(discriminate) library_constants_differ
                ltac:(simpl; tauto) eq_refl) as H.
  exact (f_equal fst H).
Defined.

(** X10: a witness: the library reports the data type -1 for the name
    and still answers the extraction with a value that is not 0. *)
Lemma extract_global_unassigned_target_witness :
  exists msg,
    fst (extract_global unit (scripted everything_known) (K := library_constants)
           (Some "nosuch"%string) None (mk_machine unit (fresh 1) tt []))
    = Raise (UnboundLocalError msg).
Proof.
  destruct (extract_global_unassigned_target unit (scripted everything_known)
              (K := library_constants) "nosuch"%string None
              (mk_machine unit (fresh 1) tt [])
              ltac:(discriminate) ltac:(discriminate) eq_refl)
    as [_ [msg H]].
  exists msg. exact H.
Defined.




(** X16: a witness, with three levels. *)
Lemma extract_global_respa_dt_witness :
  fst (extract_global unit busy (K := library_constants) (Some "respa_dt"%string) (Some 2)
         (mk_machine unit (fresh 1) tt []))
  = Return (PyList [PyFloat (Finite 3%Q); PyFloat (Finite 4%Q); PyFloat (Finite 5%Q)])
  /\ calls unit (snd (extract_global unit busy (K := library_constants)
                        (Some "respa_dt"%string) (Some 2) (mk_machine unit (fresh 1) tt [])))
     = [ log (lammps_extract_global 1 "respa_levels" (POINTER c_int32));
         log (lammps_extract_global 1 "respa_dt" (POINTER c_double)) ].
Proof.
  destruct (extract_global_respa_dt unit busy (K := library_constants) (Some 2)
              (mk_machine unit (fresh 1) tt [])
              library_constants_differ ltac:(discriminate) eq_refl)
    as [Hcalls [msg H]].
  split; [exact H | exact Hcalls].
Defined.

(** X19: a witness: the scripted library stores two lower bounds, four
    upper bounds, one tilt factor and the periodicity. *)
Lemma extract_box_three_entries_witness :
  fst (extract_box unit (scripted nothing_known) (scripted_ext kokkos_openmp)
         (mk_machine_ext unit (mk_machine unit (fresh 1) tt []) []))
  = Return ([Finite 0%Q; Finite 0%Q; Finite 0%Q],
            [Finite 10%Q; Finite 10%Q; Finite 10%Q],
            Finite 1%Q, Finite 0%Q, Finite 0%Q, [1; 1; 0], 0).
Proof.
  destruct (extract_box_three_entries unit (scripted nothing_known)
              (scripted_ext kokkos_openmp)
              (mk_machine_ext unit (mk_machine unit (fresh 1) tt []) [])
              nothing_known_error_free)
    as [H _].
  exact H.
Defined.


(** X23: a witness, the library built with two backends of KOKKOS. *)
Lemma accelerator_config_table_witness :
  let enabled := fun p c s : string => if kokkos_openmp p c s then 1 else 0 in
  exists result,
    fst (accelerator_config unit (scripted_ext kokkos_openmp)
           (mk_machine_ext unit (mk_machine unit (fresh 1) tt []) []))
    = Return result
    /\ result !! "KOKKOS"%string = Some (accelerator_entry enabled "KOKKOS")
    /\ result !! "GPU"%string = Some (accelerator_entry enabled "GPU")
    /\ result !! "OPENCL"%string = None
    /\ accelerator_entry enabled "KOKKOS" !! "api"%string = Some ["openmp"; "serial"]%string
    /\ accelerator_entry enabled "GPU" !! "api"%string = Some [].
Proof.
  intros enabled.
  destruct (accelerator_config_table unit (scripted_ext kokkos_openmp) enabled
              (mk_machine_ext unit (mk_machine unit (fresh 1) tt []) []))
    as [result [Hr [Hin [Hout _]]]].
  - intros w p c s. reflexivity.
  - exists result. split; [exact Hr|].
    split; [apply Hin; simpl; tauto|].
    split; [apply Hin; simpl; tauto|].
    split; [apply Hout; simpl; intuition discriminate|].
    split; reflexivity.
Defined.

(** X11: a witness: the library reports the data type -1 for the name,
    and the extraction itself is not called. *)
Lemma extract_atom_none_or_pointer_witness :
  extract_atom unit (scripted everything_known) (K := library_constants)
    (Some "nosuch"%string) None (mk_machine unit (fresh 1) tt [])
  = (Return PyNone,
     mk_machine unit (fresh 1) tt [ log (lammps_extract_atom_datatype 1 "nosuch") ]).
Proof.
  destruct (extract_atom_none_or_pointer unit (scripted everything_known)
              (K := library_constants) (Some "nosuch"%string) None
              (mk_machine unit (fresh 1) tt []))
    as [_ H].
  exact (H "nosuch"%string eq_refl ltac:(discriminate) eq_refl).
Defined.

(** X12: a witness, the style 7 and the variable type 5. *)
Lemma unknown_constants_give_none_witness :
  extract_compute unit (scripted everything_known) (K := library_constants)
    (Some "c"%string) 7 0 (mk_machine unit (fresh 1) tt [])
  = (Return PyNone, mk_machine unit (fresh 1) tt [])
  /\ extract_fix unit (scripted everything_known) (K := library_constants)
       (Some "c"%string) 7 0 0 0 (mk_machine unit (fresh 1) tt [])
     = (Return PyNone, mk_machine unit (fresh 1) tt [])
  /\ extract_variable unit (scripted everything_known) (K := library_constants)
       (Some "c"%string) None 5 (mk_machine unit (fresh 1) tt [])
     = (Return PyNone, mk_machine unit (fresh 1) tt []).
Proof.
  destruct (unknown_constants_give_none unit (scripted everything_known)
              (K := library_constants) (Some "c"%string) 7 0 5
              (mk_machine unit (fresh 1) tt []))
    as [_ [Hc [Hf Hv]]].
  split; [|split].
  - apply Hc; simpl; intuition discriminate.
  - apply Hf; simpl; intuition discriminate.
  - apply Hv; simpl; intuition discriminate.
Defined.


(** X18: a witness: two lower bounds are completed with a zero, four
    are refused. *)
Lemma reset_box_takes_three_witness :
  calls_ext unit
    (snd (reset_box unit (scripted nothing_known) (scripted_ext kokkos_openmp)
            [Finite 1%Q; Finite 1%Q] [Finite 9%Q; Finite 9%Q; Finite 9%Q]
            (Finite 0%Q) (Finite 0%Q) (Finite 0%Q)
            (mk_machine_ext unit (mk_machine unit (fresh 1) tt []) [])))
  = [ log_ext (lammps_reset_box 1 [Finite 1%Q; Finite 1%Q; Finite 0%Q]
                 [Finite 9%Q; Finite 9%Q; Finite 9%Q]
                 (Finite 0%Q) (Finite 0%Q) (Finite 0%Q)) ]
  /\ exists msg,
       reset_box unit (scripted nothing_known) (scripted_ext kokkos_openmp)
         [Finite 1%Q; Finite 1%Q; Finite 1%Q; Finite 1%Q]
         [Finite 9%Q; Finite 9%Q; Finite 9%Q]
         (Finite 0%Q) (Finite 0%Q) (Finite 0%Q)
         (mk_machine_ext unit (mk_machine unit (fresh 1) tt []) [])
       = (Raise (IndexError msg), mk_machine_ext unit (mk_machine unit (fresh 1) tt []) []).
Proof.
  split.
  - destruct (reset_box_takes_three unit (scripted nothing_known) (scripted_ext kokkos_openmp)
                [Finite 1%Q; Finite 1%Q] [Finite 9%Q; Finite 9%Q; Finite 9%Q]
                (Finite 0%Q) (Finite 0%Q) (Finite 0%Q)
                (mk_machine_ext unit (mk_machine unit (fresh 1) tt []) []))
      as [_ H].
    destruct H as [_ [_ [Hc _]]]; [simpl; lia | simpl; lia | exact Hc].
  - destruct (reset_box_takes_three unit (scripted nothing_known) (scripted_ext kokkos_openmp)
                [Finite 1%Q; Finite 1%Q; Finite 1%Q; Finite 1%Q]
                [Finite 9%Q; Finite 9%Q; Finite 9%Q]
                (Finite 0%Q) (Finite 0%Q) (Finite 0%Q)
                (mk_machine_ext unit (mk_machine unit (fresh 1) tt []) []))
      as [H _].
    apply H. left. simpl. lia.
Defined.

